(** * Analytical core of the Namibia HIV/AIDS GIS application (igor.py)

    A shallow embedding of the computations that [HIVGISApp] performs on its
    three tables (case records, region profiles, health facilities) when one
    of its [update_*] / [show_*] / [assess_*] callbacks runs.

    Conventions of the embedding:
    - a pandas DataFrame is the list of its rows, a Series the list of its
      values (with its index where the index matters);
    - boolean-mask selection [df[mask]] is [List.filter];
    - the Tk variables read by a callback are explicit arguments;
    - integer columns are [Z] or [nat]; float64 columns are modelled by exact
      rationals [Q] (rounding is not modelled), and the two float results that
      are not rational (a standard deviation, a Pearson coefficient) are kept
      in closed form under their square root;
    - an exception that ends a callback is an explicit outcome ([Py.Raise]);
    - where pandas leaves an order open (equal counts under the descending
      sort of [value_counts]), statements that depend on it range over every
      admissible arrangement. *)

From Stdlib Require Import List String Ascii Bool Arith ZArith QArith Lia Permutation.
From Stdlib Require Import Qfield Sorted.
Import ListNotations.

Local Open Scope string_scope.
Local Open Scope Z_scope.

(* ===================================================================== *)
(** ** Calendar: the part of Python's [datetime] the callbacks rely on    *)
(* ===================================================================== *)

Module Calendar.

(** A naive [datetime]: calendar fields, with the time of day collapsed
  into one count of microseconds since midnight. *)
Record datetime : Type := mk_datetime
  { year : Z; month : Z; day : Z; usec : Z }.

Definition _is_leap (y : Z) : bool :=
  (y mod 4 =? 0) && (negb (y mod 100 =? 0) || (y mod 400 =? 0)).

Definition _DAYS_IN_MONTH (m : Z) : Z :=
  match m with
  | 1 => 31 | 2 => 28 | 3 => 31 | 4 => 30 | 5 => 31 | 6 => 30
  | 7 => 31 | 8 => 31 | 9 => 30 | 10 => 31 | 11 => 30 | 12 => 31
  | _ => -1
  end.

Definition _DAYS_BEFORE_MONTH (m : Z) : Z :=
  match m with
  | 1 => 0 | 2 => 31 | 3 => 59 | 4 => 90 | 5 => 120 | 6 => 151
  | 7 => 181 | 8 => 212 | 9 => 243 | 10 => 273 | 11 => 304 | 12 => 334
  | _ => -1
  end.

Definition _days_before_year (y : Z) : Z :=
  let y' := y - 1 in y' * 365 + y' / 4 - y' / 100 + y' / 400.

Definition _days_in_month (y m : Z) : Z :=
  if (m =? 2) && _is_leap y then 29 else _DAYS_IN_MONTH m.

Definition _days_before_month (y m : Z) : Z :=
  _DAYS_BEFORE_MONTH m + (if (2 <? m) && _is_leap y then 1 else 0).

Definition _ymd2ord (y m d : Z) : Z :=
  _days_before_year y + _days_before_month y m + d.

Definition _DI400Y : Z := _days_before_year 401.
Definition _DI100Y : Z := _days_before_year 101.
Definition _DI4Y : Z := _days_before_year 5.

(** Ordinal to (year, month, day), as in CPython's [datetime._ord2ymd]. *)
Definition _ord2ymd (n0 : Z) : Z * Z * Z :=
  let n := n0 - 1 in
  let n400 := n / _DI400Y in
  let n := n mod _DI400Y in
  let y := n400 * 400 + 1 in
  let n100 := n / _DI100Y in
  let n := n mod _DI100Y in
  let n4 := n / _DI4Y in
  let n := n mod _DI4Y in
  let n1 := n / 365 in
  let n := n mod 365 in
  let y := y + n100 * 100 + n4 * 4 + n1 in
  if (n1 =? 4) || (n100 =? 4) then (y - 1, 12, 31)
  else
    let leapyear := (n1 =? 3) && (negb (n4 =? 24) || (n100 =? 3)) in
    let m := Z.shiftr (n + 50) 5 in
    let preceding :=
      _DAYS_BEFORE_MONTH m + (if (2 <? m) && leapyear then 1 else 0) in
    if n <? preceding then
      let m' := m - 1 in
      let preceding' :=
        preceding
        - (_DAYS_IN_MONTH m' + (if (m' =? 2) && leapyear then 1 else 0)) in
      (y, m', n - preceding' + 1)
    else (y, m, n - preceding + 1).

(** [dt - timedelta(days=n)]: the date moves back [n] days, the time of
  day is kept. *)
Definition minus_days (dt : datetime) (n : Z) : datetime :=
  let '(y, m, d) := _ord2ymd (_ymd2ord (year dt) (month dt) (day dt) - n) in
  mk_datetime y m d (usec dt).

(** [datetime] comparison is the lexicographic comparison of the fields. *)
Definition cmp (a b : datetime) : comparison :=
  match year a ?= year b with
  | Eq =>
      match month a ?= month b with
      | Eq =>
          match day a ?= day b with
          | Eq => usec a ?= usec b
          | c => c
          end
      | c => c
      end
  | c => c
  end.

Definition ltb (a b : datetime) : bool :=
  match cmp a b with Lt => true | _ => false end.
Definition leb (a b : datetime) : bool :=
  match cmp a b with Gt => false | _ => true end.
Definition geb (a b : datetime) : bool := leb b a.

(** What the constructor [datetime(y, m, d, ...)] accepts. *)
Definition valid (d : datetime) : bool :=
  (1 <=? year d) && (year d <=? 9999) &&
  (1 <=? month d) && (month d <=? 12) &&
  (1 <=? day d) && (day d <=? _days_in_month (year d) (month d)) &&
  (0 <=? usec d) && (usec d <? 86400000000).

(** [datetime(y, m, d)]: midnight of the given day. *)
Definition date (y m d : Z) : datetime := mk_datetime y m d 0.

End Calendar.

(* ===================================================================== *)
(** ** The three tables                                                   *)
(* ===================================================================== *)

(** Rows of [self.hiv_data]. *)
Module Hiv.
Record row : Type := mk
  { region : string;
    district : string;
    gender : string;
    age_group : string;
    diagnosis_date : Calendar.datetime;
    diagnosis_status : string;
    latitude : Q;
    longitude : Q;
    on_treatment : bool }.
End Hiv.

(** Rows of [self.population_data]; [density] is the derived column
    [population / area_sqkm] that [load_dummy_data] adds. *)
Module Pop.
Record row : Type := mk
  { region : string;
    population : Z;
    area_sqkm : Z;
    density : Q }.
End Pop.

(** Rows of [self.health_facilities]; [services] is the comma-joined string
    that [load_dummy_data] stores. *)
Module Fac.
Record row : Type := mk
  { name : string;
    region : string;
    district : string;
    facility_type : string;
    latitude : Q;
    longitude : Q;
    services : string;
    contact : string;
    hours : string }.
End Fac.

(** [x / y] on two integer columns (numpy true division), for [y <> 0]. A
  zero divisor, where numpy gives [inf], is outside this definition, and
  no statement below rests on its value there. *)
Definition true_divide (x y : Z) : Q := (inject_Z x / inject_Z y)%Q.

(** [', '.join(l)] and friends. *)
Fixpoint join (sep : string) (l : list string) : string :=
  match l with
  | [] => EmptyString
  | [x] => x
  | x :: rest => x ++ sep ++ join sep rest
  end.

Module Data.

(** [self.regions]: the fixed list of administrative regions. *)
Definition regions : list string :=
  [ "Erongo"; "Hardap"; "Karas"; "Kavango East"; "Kavango West";
    "Khomas"; "Kunene"; "Ohangwena"; "Omaheke"; "Omusati";
    "Oshana"; "Oshikoto"; "Otjozondjupa"; "Zambezi" ].

Definition populations : list Z :=
  [ 150000; 87000; 85000; 148000; 89000;
    415000; 96000; 245000; 74000; 243000;
    176000; 181000; 154000; 98000 ].

Definition areas : list Z :=
  [ 63579; 109651; 161235; 25576; 23166;
    36964; 115293; 10706; 84612; 26573;
    8653; 38653; 105185; 14785 ].

(** [self.population_data], with its [density] column. *)
Definition population_data : list Pop.row :=
  map (fun '(r, (p, a)) => Pop.mk r p a (true_divide p a))
      (combine regions (combine populations areas)).

(** The service tags, both in [load_dummy_data] and as the keys of
  [self.services_vars]. *)
Definition services : list string :=
  [ "HIV Testing"; "HIV Treatment"; "Counseling"; "PrEP";
    "PMTCT"; "Youth Services"; "Support Groups" ].

(** The [services] cell of one facility, from the tags drawn for it. *)
Definition services_cell (tags : list string) : string := join ", " tags.

End Data.

(* ===================================================================== *)
(** ** The pandas operations the callbacks use                            *)
(* ===================================================================== *)

Module Frame.

Section SortValues.
Context {A K : Type} (key : A -> K) (geb : K -> K -> bool).

(** One step of a stable descending sort: [x], which preceded every row
  of [l] in the original order, goes before the first row whose key it
  reaches. *)
Fixpoint insert_desc (x : A) (l : list A) : list A :=
  match l with
  | [] => [x]
  | y :: l' =>
    if geb (key x) (key y) then x :: y :: l'
    else y :: insert_desc x l'
  end.

(** [sort_values(ascending=False)] by [key], ties kept in their
  original order. *)
Fixpoint sort_values_desc (l : list A) : list A :=
  match l with
  | [] => []
  | x :: l' => insert_desc x (sort_values_desc l')
  end.
End SortValues.

(** The hash-table pass of [value_counts]: a new label is appended, a
  known one has its count incremented in place. *)
Fixpoint bump (k : string) (tbl : list (string * nat)) : list (string * nat) :=
  match tbl with
  | [] => [(k, 1%nat)]
  | (k', c) :: t =>
      if String.eqb k k' then (k', S c) :: t else (k', c) :: bump k t
  end.

Definition value_count (col : list string) : list (string * nat) :=
  fold_left (fun tbl k => bump k tbl) col [].

(** [Series.value_counts()]: one (label, count) row per distinct label, by
  descending count. pandas leaves the order among equal counts to an
  unstable sort; this definition takes the arrangement that keeps equal
  counts in order of first appearance, one of the possible ones, and what is
  proved of frames built from it does not rest on that choice. *)
Definition value_counts (col : list string) : list (string * nat) :=
  sort_values_desc snd (fun a b => Nat.leb b a) (value_count col).

(** [Series.idxmax()] / [Series.max()] on a non-empty Series: the first
  row holding the largest value. *)
Fixpoint first_max (s : list (string * nat)) : option (string * nat) :=
  match s with
  | [] => None
  | x :: s' =>
      match first_max s' with
      | Some b => if Nat.ltb (snd x) (snd b) then Some b else Some x
      | None => Some x
      end
  end.

(** A row of [pd.merge(counts, population_data, on='region')]. *)
Record merged : Type := mk_merged
  { region : string;
    cases : nat;
    population : Z;
    area_sqkm : Z;
    density : Q }.

(** Inner join on [region]: the rows follow the left table, and a left row
  is paired with every right row of the same region. *)
Definition merge (counts : list (string * nat)) (pop : list Pop.row)
  : list merged :=
  flat_map
    (fun '(r, c) =>
       map (fun p => mk_merged r c (Pop.population p) (Pop.area_sqkm p)
                               (Pop.density p))
           (filter (fun p => String.eqb (Pop.region p) r) pop))
    counts.

(** [dict.get(region, 0)] on [value_counts().to_dict()]. *)
Fixpoint get (tbl : list (string * nat)) (k : string) (default : nat) : nat :=
  match tbl with
  | [] => default
  | (k', c) :: t => if String.eqb k k' then c else get t k default
  end.

(** Sum of a Series of counts. *)
Definition sum (vals : list nat) : nat := fold_right Nat.add 0%nat vals.

(** [Series.mean()] of a non-empty Series of counts. *)
Definition mean (vals : list nat) : Q :=
  (inject_Z (Z.of_nat (sum vals)) / inject_Z (Z.of_nat (List.length vals)))%Q.

(** A non-negative float known through its square: [Sqrt q] is the
  non-negative root of [q]; [NaN] is the float NaN. *)
Inductive root : Type :=
  | NaN
  | Sqrt (radicand : Q).

Definition sq_dev (m : Q) (x : nat) : Q :=
  let d := (inject_Z (Z.of_nat x) - m)%Q in (d * d)%Q.

Definition sum_sq_dev (vals : list nat) : Q :=
  fold_right (fun x acc => (sq_dev (mean vals) x + acc)%Q) 0%Q vals.

(** [Series.std(ddof=ddof)]: NaN when there are no more than [ddof]
  values, else the root of the squared deviations over [n - ddof]. *)
Definition std_ddof (ddof : nat) (vals : list nat) : root :=
  if Nat.leb (List.length vals) ddof then NaN
  else Sqrt (sum_sq_dev vals
             / inject_Z (Z.of_nat (List.length vals - ddof)))%Q.

(** [Series.std()]: pandas' default is [ddof=1]. *)
Definition std (vals : list nat) : root := std_ddof 1 vals.

(** A Pearson coefficient in closed form: [Ratio num den2] is
  [num / sqrt den2]. *)
Inductive pearson : Type :=
  | PNaN
  | Ratio (num den2 : Q).

Definition Qsum (l : list Q) : Q := fold_right Qplus 0%Q l.
Definition Qmean (l : list Q) : Q :=
  (Qsum l / inject_Z (Z.of_nat (List.length l)))%Q.

(** [Series.corr(other)] (Pearson) on two aligned columns: NaN for fewer
  than two rows or a constant column. *)
Definition corr (xs ys : list Q) : pearson :=
  if Nat.ltb (List.length xs) 2 then PNaN
  else
    let mx := Qmean xs in
    let my := Qmean ys in
    let sxy := Qsum (map (fun '(x, y) => ((x - mx) * (y - my))%Q)
                         (combine xs ys)) in
    let sxx := Qsum (map (fun x => ((x - mx) * (x - mx))%Q) xs) in
    let syy := Qsum (map (fun y => ((y - my) * (y - my))%Q) ys) in
    if Qeq_bool (sxx * syy) 0 then PNaN else Ratio sxy (sxx * syy).

End Frame.

(* ===================================================================== *)
(** ** HIV case distribution tab: [update_hiv_map]                        *)
(* ===================================================================== *)

Module HivMap.
Import Calendar.

(** The four Tk variables the case filter reads. *)
Record vars : Type := mk_vars
  { time_frame_var : string;
    age_group_var : string;
    gender_var : string;
    diagnosis_var : string }.

(** The case filter of [update_hiv_map], with [datetime.now()] given. *)
Definition filtered_data (now : datetime) (v : vars)
           (hiv_data : list Hiv.row) : list Hiv.row :=
  let fd := hiv_data in
  let fd :=
    if String.eqb (time_frame_var v) "Last Year" then
      let one_year_ago := minus_days now 365 in
      filter (fun r => geb (Hiv.diagnosis_date r) one_year_ago) fd
    else if String.eqb (time_frame_var v) "Last 5 Years" then
      let five_years_ago := minus_days now (5 * 365) in
      filter (fun r => geb (Hiv.diagnosis_date r) five_years_ago) fd
    else fd in
  let fd :=
    if negb (String.eqb (age_group_var v) "All") then
      filter (fun r => String.eqb (Hiv.age_group r) (age_group_var v)) fd
    else fd in
  let fd :=
    if negb (String.eqb (gender_var v) "All") then
      filter (fun r => String.eqb (Hiv.gender r) (gender_var v)) fd
    else fd in
  let fd :=
    if negb (String.eqb (diagnosis_var v) "All") then
      filter (fun r => String.eqb (Hiv.diagnosis_status r) (diagnosis_var v)) fd
    else fd in
  fd.

(** "Highest Region": [None] is the "N/A" of an empty selection, else the
  [idxmax()] and [max()] of the region counts, here in the arrangement of
  [Frame.value_counts]. Among regions that tie for the largest count the
  callback may report another one: see [highest_region_by]. *)
Definition highest_region (fd : list Hiv.row) : option (string * nat) :=
  match fd with
  | [] => None
  | _ =>
      let region_counts := Frame.value_counts (map Hiv.region fd) in
      Frame.first_max region_counts
  end.

Definition update_hiv_map (now : datetime) (v : vars)
           (hiv_data : list Hiv.row)
  : list Hiv.row * option (string * nat) :=
  let fd := filtered_data now v hiv_data in
  (fd, highest_region fd).

End HivMap.

(* ===================================================================== *)
(** ** Population tab: correlation and high-risk areas                    *)
(* ===================================================================== *)

Module Population.

(** [hiv_counts] merged with [population_data]. *)
Definition merged_data (hiv_data : list Hiv.row)
           (population_data : list Pop.row) : list Frame.merged :=
  let hiv_counts := Frame.value_counts (map Hiv.region hiv_data) in
  Frame.merge hiv_counts population_data.

(** The [prevalence] column: [cases / population]. *)
Definition prevalence (m : Frame.merged) : Q :=
  true_divide (Z.of_nat (Frame.cases m)) (Frame.population m).

(** The value [show_correlation_analysis] writes into
  [self.corr_result_var]. *)
Definition show_correlation_analysis (hiv_data : list Hiv.row)
           (population_data : list Pop.row) : Frame.pearson :=
  let md := merged_data hiv_data population_data in
  Frame.corr (map Frame.density md) (map prevalence md).

(** The [high_risk] frame of [update_high_risk_areas]. *)
Definition update_high_risk_areas (hiv_data : list Hiv.row)
           (population_data : list Pop.row) (threshold : Q)
  : list Frame.merged :=
  let md := merged_data hiv_data population_data in
  filter (fun m => Qle_bool threshold (prevalence m)) md.

(** [region in high_risk['region'].values]. *)
Definition is_high_risk (high_risk : list Frame.merged) (region : string)
  : bool :=
  existsb (fun m => String.eqb (Frame.region m) region) high_risk.

End Population.

(* ===================================================================== *)
(** ** Health facilities tab: [update_facilities_map]                     *)
(* ===================================================================== *)

Module Facilities.

(** [s.startswith(p)]. *)
Fixpoint starts_with (p s : string) : bool :=
  match p, s with
  | EmptyString, _ => true
  | String a p', String b s' => Ascii.eqb a b && starts_with p' s'
  | String _ _, EmptyString => false
  end.

(** Python's [needle in hay] on two strings. *)
Fixpoint str_contains (needle hay : string) : bool :=
  starts_with needle hay
  || match hay with
     | EmptyString => false
     | String _ hay' => str_contains needle hay'
     end.

(** [[service for service, var in self.services_vars.items() if var.get()]] *)
Definition selected_services (services_vars : list (string * bool))
  : list string :=
  map fst (filter snd services_vars).

(** [any(service in x for service in selected_services)] *)
Definition any_service (selected : list string) (x : string) : bool :=
  existsb (fun service => str_contains service x) selected.

Definition update_facilities_map (health_facilities : list Fac.row)
           (facilities_region_var facility_type_var : string)
           (services_vars : list (string * bool)) : list Fac.row :=
  let ff := health_facilities in
  let ff :=
    if negb (String.eqb facilities_region_var "All") then
      filter (fun f => String.eqb (Fac.region f) facilities_region_var) ff
    else ff in
  let ff :=
    if negb (String.eqb facility_type_var "All") then
      filter (fun f => String.eqb (Fac.facility_type f) facility_type_var) ff
    else ff in
  let selected := selected_services services_vars in
  match selected with
  | [] => ff
  | _ => filter (fun f => any_service selected (Fac.services f)) ff
  end.

End Facilities.

(* ===================================================================== *)
(** ** Python values, builtins and exceptions                             *)
(* ===================================================================== *)

Module Py.

(** The exceptions the modelled expressions can raise. *)
Inductive exn : Type :=
| IndexError | TypeError | ZeroDivisionError | NameError | AttributeError.

(** The outcome of evaluating an expression: a value or a raised exception. *)
Inductive result (A : Type) : Type :=
| Ok (a : A)
| Raise (e : exn).
Arguments Ok {A} a.
Arguments Raise {A} e.

Definition bind {A B : Type} (r : result A) (k : A -> result B) : result B :=
  match r with
  | Ok a => k a
  | Raise e => Raise e
  end.

(** The two kinds of object that meet in [max(region_counts.values(), 1)]:
    an [int] and the [dict_values] view of a dict of counts. *)
Inductive obj : Type :=
| Int (n : Z)
| DictValues (vs : list nat).

(** [a > b]: defined between two ints; a [dict_values] view supports no
    ordering, against an int or against another view. *)
Definition gt (a b : obj) : result bool :=
  match a, b with
  | Int x, Int y => Ok (y <? x)
  | _, _ => Raise TypeError
  end.

(** The builtin [max(a, b)] with two positional arguments: [b] replaces [a]
    when [b > a]. *)
Definition max2 (a b : obj) : result obj :=
  bind (gt b a) (fun b_greater => if b_greater then Ok b else Ok a).

(** [count / m] for an int [count]. *)
Definition truediv (count : nat) (m : obj) : result Q :=
  match m with
  | Int n =>
      if n =? 0 then Raise ZeroDivisionError
      else Ok (true_divide (Z.of_nat count) n)
  | DictValues _ => Raise TypeError
  end.

(** [a < b] on two floats. *)
Definition Qltb (a b : Q) : bool := negb (Qle_bool b a).

(** The builtin [min(a, b)] on two floats: [b] replaces [a] when [b < a]. *)
Definition min2 (a b : Q) : Q := if Qltb b a then b else a.

(** [s.endswith(suffix)]. *)
Definition endswith (s suffix : string) : bool :=
  let n := String.length s in
  let k := String.length suffix in
  Nat.leb k n && String.eqb (String.substring (n - k) k s) suffix.

End Py.

(* ===================================================================== *)
(** ** Temporal resampling: [resample(freq, on='diagnosis_date').size()]  *)
(* ===================================================================== *)

Module Temporal.
Import Calendar.

(** The three offsets the callbacks pass: ['M'], ['Q'], ['Y']. *)
Inductive freq : Type := Month | Quarter | Year.

(** The number of the calendar bucket a date falls in (months, quarters
  or years counted from year 0). *)
Definition bucket (f : freq) (d : datetime) : Z :=
  match f with
  | Month => year d * 12 + (month d - 1)
  | Quarter => year d * 4 + (month d - 1) / 3
  | Year => year d
  end.

Definition earliest (d0 : datetime) (rest : list datetime) : datetime :=
  fold_left (fun m d => if ltb d m then d else m) rest d0.

Definition latest (d0 : datetime) (rest : list datetime) : datetime :=
  fold_left (fun m d => if ltb m d then d else m) rest d0.

(** The consecutive bucket numbers [lo, lo + 1, ..., hi]. *)
Definition bucket_range (lo hi : Z) : list Z :=
  map (fun i => lo + Z.of_nat i) (seq 0 (Z.to_nat (hi - lo + 1))).

(** The size of one bin. *)
Definition bin_size (f : freq) (dates : list datetime) (b : Z) : nat :=
  List.length (filter (fun d => bucket f d =? b) dates).

(** The Series resampled from a frame with at least one row, indexed by
  bucket number: the bins run from the bin of the smallest date to the bin
  of the largest, and a bin's value is the number of rows in it. (On the
  empty list there is no bin; what the call does on a frame without rows is
  said by [resample] below.) *)
Definition resample_size (f : freq) (dates : list datetime)
  : list (Z * nat) :=
  match dates with
  | [] => []
  | d0 :: rest =>
      let lo := bucket f (earliest d0 rest) in
      let hi := bucket f (latest d0 rest) in
      map (fun b => (b, bin_size f dates b)) (bucket_range lo hi)
  end.

(** [frame.resample(freq, on='diagnosis_date').size()] as a call: on a frame
  without rows it raises AttributeError; on any other frame it yields the
  Series of [resample_size]. *)
Definition resample (f : freq) (dates : list datetime)
  : Py.result (list (Z * nat)) :=
  match dates with
  | [] => Py.Raise Py.AttributeError
  | _ => Py.Ok (resample_size f dates)
  end.

(** The offset chosen by the granularity box of the temporal tab. *)
Definition granularity (time_granularity : string) : freq :=
  if String.eqb time_granularity "Yearly" then Year
  else if String.eqb time_granularity "Quarterly" then Quarter
  else Month.

(** [update_temporal_trends] for the trend type "New Cases Over Time".
  [dates] is the result of the two [strptime] calls ([None] on
  ValueError); the callback returns early, with nothing drawn, on a
  parse error or when the filtered frame is empty. *)
Definition update_temporal_trends (hiv_data : list Hiv.row)
           (temporal_region_var : string)
           (dates : option (datetime * datetime))
           (time_granularity : string) : option (list (Z * nat)) :=
  let fd := hiv_data in
  let fd :=
    if negb (String.eqb temporal_region_var "All") then
      filter (fun r => String.eqb (Hiv.region r) temporal_region_var) fd
    else fd in
  match dates with
  | None => None
  | Some (start_date, end_date) =>
      let fd :=
        filter (fun r => geb (Hiv.diagnosis_date r) start_date
                         && leb (Hiv.diagnosis_date r) end_date) fd in
      match fd with
      | [] => None
      | _ =>
          Some (resample_size (granularity time_granularity)
                              (map Hiv.diagnosis_date fd))
      end
  end.

End Temporal.

(* ===================================================================== *)
(** ** Regional analysis tab                                              *)
(* ===================================================================== *)

Module Regional.
Import Calendar.

(** The region and time-period filter of [update_regional_analysis]. *)
Definition filtered_data (now : datetime)
           (regional_analysis_var regional_time_var : string)
           (hiv_data : list Hiv.row) : list Hiv.row :=
  let fd := hiv_data in
  let fd :=
    if negb (String.eqb regional_analysis_var "All") then
      filter (fun r => String.eqb (Hiv.region r) regional_analysis_var) fd
    else fd in
  if String.eqb regional_time_var "Last Year" then
    filter (fun r => geb (Hiv.diagnosis_date r) (minus_days now 365)) fd
  else if String.eqb regional_time_var "Last 3 Years" then
    filter (fun r => geb (Hiv.diagnosis_date r) (minus_days now (3 * 365))) fd
  else if String.eqb regional_time_var "Last 5 Years" then
    filter (fun r => geb (Hiv.diagnosis_date r) (minus_days now (5 * 365))) fd
  else fd.

(** The [cases_per_100k] column. *)
Definition cases_per_100k (m : Frame.merged) : Q :=
  (true_divide (Z.of_nat (Frame.cases m)) (Frame.population m)
   * inject_Z 100000)%Q.

(** The frame behind the "Cases per 100,000 Population" bar chart:
  counts, inner-joined with the profiles, rated, and sorted by
  descending rate. *)
Definition per_100k_frame (fd : list Hiv.row)
           (population_data : list Pop.row) : list (Frame.merged * Q) :=
  let region_counts := Frame.value_counts (map Hiv.region fd) in
  let md := Frame.merge region_counts population_data in
  let md := map (fun m => (m, cases_per_100k m)) md in
  Frame.sort_values_desc snd (fun a b => Qle_bool b a) md.

(** What [update_regional_analysis] charts. *)
Inductive view : Type :=
  | CasesByRegion (bars : list (string * nat))
  | CasesPer100k (bars : list (Frame.merged * Q))
  | OtherChart.

Definition update_regional_analysis (now : datetime)
           (regional_analysis_var regional_time_var comparison_type : string)
           (hiv_data : list Hiv.row) (population_data : list Pop.row)
  : view :=
  let fd := filtered_data now regional_analysis_var regional_time_var
                          hiv_data in
  if String.eqb comparison_type "Cases by Region" then
    CasesByRegion
  (Frame.sort_values_desc snd (fun a b => Nat.leb b a)
     (Frame.value_counts (map Hiv.region fd)))
  else if String.eqb comparison_type "Cases per 100,000 Population" then
    CasesPer100k (per_100k_frame fd population_data)
  else OtherChart.

(** The rate mapping the bar chart shows: region to cases per 100,000. *)
Definition rate_mapping (bars : list (Frame.merged * Q))
  : list (string * Q) :=
  map (fun '(m, rate) => (Frame.region m, rate)) bars.

(** The statistics [assess_policy_impact] displays. [change] is [None]
  when no "Change" label is created. *)
Record impact : Type := mk_impact
  { pre_monthly : list (Z * nat);
    post_monthly : list (Z * nat);
    pre_mean : Q;
    pre_std : Frame.root;
    post_mean : Q;
    post_std : Frame.root;
    change : option Q }.

Definition is_empty {A} (l : list A) : bool :=
  match l with [] => true | _ => false end.

(** [assess_policy_impact]; [policy_date] is the result of [strptime]
  ([None] on ValueError, in which case the callback shows an error box
  and returns). Both sides of the policy date are resampled before any
  statistic is taken, so the callback ends in the exception of [resample]
  when a side has no record. *)
Definition assess_policy_impact (policy_date : option datetime)
           (regional_analysis_var : string) (hiv_data : list Hiv.row)
  : option (Py.result impact) :=
  match policy_date with
  | None => None
  | Some policy_date =>
      let fd := hiv_data in
      let fd :=
        if negb (String.eqb regional_analysis_var "All") then
          filter (fun r => String.eqb (Hiv.region r) regional_analysis_var) fd
        else fd in
      let pre_policy :=
        filter (fun r => ltb (Hiv.diagnosis_date r) policy_date) fd in
      let post_policy :=
        filter (fun r => geb (Hiv.diagnosis_date r) policy_date) fd in
      Some
        (Py.bind (Temporal.resample Temporal.Month
                                    (map Hiv.diagnosis_date pre_policy))
           (fun pre_monthly =>
         Py.bind (Temporal.resample Temporal.Month
                                    (map Hiv.diagnosis_date post_policy))
           (fun post_monthly =>
         let pre_mean :=
           if negb (is_empty pre_monthly)
           then Frame.mean (map snd pre_monthly) else 0%Q in
         let pre_std :=
           if negb (is_empty pre_monthly)
           then Frame.std (map snd pre_monthly) else Frame.Sqrt 0 in
         let post_mean :=
           if negb (is_empty post_monthly)
           then Frame.mean (map snd post_monthly) else 0%Q in
         let post_std :=
           if negb (is_empty post_monthly)
           then Frame.std (map snd post_monthly) else Frame.Sqrt 0 in
         let change :=
           if negb (Qle_bool pre_mean 0) then
             Some (((post_mean - pre_mean) / pre_mean) * inject_Z 100)%Q
           else None in
         Py.Ok (mk_impact pre_monthly post_monthly pre_mean pre_std
                          post_mean post_std change))))
  end.

End Regional.

(* ===================================================================== *)
(** ** Reference definitions, in the words of the specification           *)
(* ===================================================================== *)

Module Spec.

(** Position of the first occurrence of a label in a list of labels (the
  length of the list when it does not occur). *)
Fixpoint index_of (k : string) (l : list string) : nat :=
  match l with
  | [] => 0%nat
  | x :: l' => if String.eqb k x then 0%nat else S (index_of k l')
  end.

(** The population standard deviation: squared deviations over [n]. *)
Definition population_std (vals : list nat) : Frame.root :=
  Frame.std_ddof 0 vals.

(** Two closed-form roots denote the same float. *)
Definition root_eq (a b : Frame.root) : Prop :=
  match a, b with
  | Frame.NaN, Frame.NaN => True
  | Frame.Sqrt x, Frame.Sqrt y => (x == y)%Q
  | _, _ => False
  end.

(** The accepted thresholds: the interval (0, 1]. *)
Definition threshold_in_range (t : Q) : Prop := (0 < t /\ t <= 1)%Q.

(** [needle] occurs in [hay] as a contiguous substring. *)
Definition occurs_in (needle hay : string) : Prop :=
  exists pre post, hay = pre ++ needle ++ post.

End Spec.

(* ===================================================================== *)
(** ** Row predicates of the filters                                      *)
(* ===================================================================== *)

(** The case filter of [update_hiv_map] as one conjunctive mask. *)
Definition time_frame_pass (now : Calendar.datetime) (time_frame : string)
           (r : Hiv.row) : bool :=
  if String.eqb time_frame "Last Year" then
    Calendar.geb (Hiv.diagnosis_date r) (Calendar.minus_days now 365)
  else if String.eqb time_frame "Last 5 Years" then
    Calendar.geb (Hiv.diagnosis_date r) (Calendar.minus_days now (5 * 365))
  else true.

Definition field_pass (var : string) (value : string) : bool :=
  if negb (String.eqb var "All") then String.eqb value var else true.

Definition case_pass (now : Calendar.datetime) (v : HivMap.vars)
           (r : Hiv.row) : bool :=
  time_frame_pass now (HivMap.time_frame_var v) r
  && field_pass (HivMap.age_group_var v) (Hiv.age_group r)
  && field_pass (HivMap.gender_var v) (Hiv.gender r)
  && field_pass (HivMap.diagnosis_var v) (Hiv.diagnosis_status r).

(** The row mask of [update_facilities_map] for a non-empty selection. *)
Definition facility_pass (facilities_region_var facility_type_var : string)
           (selected : list string) (f : Fac.row) : bool :=
  field_pass facilities_region_var (Fac.region f)
  && field_pass facility_type_var (Fac.facility_type f)
  && Facilities.any_service selected (Fac.services f).

(** Sample facilities and checkbox states used to exercise the filter. *)
Module Samples.

Definition clinic (name region services : string) : Fac.row :=
  Fac.mk name region "District_1" "Clinic" (-22 # 1) (17 # 1) services
         "+264 61 100000" "8:00-17:00".

(** Offers two of the known tags. *)
Definition facility_1 : Fac.row :=
  clinic "Facility_1" "Khomas" (Data.services_cell ["HIV Testing"; "PrEP"]).

(** Offers two other known tags. *)
Definition facility_2 : Fac.row :=
  clinic "Facility_2" "Erongo"
         (Data.services_cell ["Counseling"; "Support Groups"]).

(** Its first entry merely starts with the tag "PrEP". *)
Definition facility_3 : Fac.row :=
  clinic "Facility_3" "Khomas" (join ", " ["PrEP Referral"; "Pharmacy"]).

(** The checkboxes with "PrEP" and "PMTCT" ticked. *)
Definition prep_and_pmtct : list (string * bool) :=
  map (fun s => (s, String.eqb s "PrEP" || String.eqb s "PMTCT"))
      Data.services.

(** The checkboxes with only "PrEP" ticked. *)
Definition prep_only : list (string * bool) :=
  map (fun s => (s, String.eqb s "PrEP")) Data.services.

(** The checkboxes with no box ticked. *)
Definition none_ticked : list (string * bool) :=
  map (fun s => (s, false)) Data.services.

End Samples.

(** The order of [datetime] values, field by field. *)
Definition before (a b : Calendar.datetime) : Prop :=
  Calendar.year a < Calendar.year b
  \/ (Calendar.year a = Calendar.year b
      /\ (Calendar.month a < Calendar.month b
          \/ (Calendar.month a = Calendar.month b
              /\ (Calendar.day a < Calendar.day b
                  \/ (Calendar.day a = Calendar.day b
                      /\ Calendar.usec a < Calendar.usec b))))).

(** A case record dated [d] in [region]; the other columns are fixed. *)
Definition case_on (region : string) (d : Calendar.datetime) : Hiv.row :=
  Hiv.mk region "District_1" "Female" "25-34" d "New" (-22 # 1) (17 # 1) true.

(** The region choice of [assess_policy_impact] applied to the cases. *)
Definition region_selection (regional_analysis_var : string)
           (hiv_data : list Hiv.row) : list Hiv.row :=
  filter (fun r => field_pass regional_analysis_var (Hiv.region r)) hiv_data.

(** One case in January 2020 and three in February 2020. *)
Definition cases_early_2020 : list Hiv.row :=
  [ case_on "Khomas" (Calendar.date 2020 1 5);
    case_on "Khomas" (Calendar.date 2020 2 3);
    case_on "Erongo" (Calendar.date 2020 2 10);
    case_on "Khomas" (Calendar.date 2020 2 20) ].

(** The selected cases diagnosed before the policy date, and those diagnosed
    on or after it. *)
Definition pre_side (policy_date : Calendar.datetime)
           (regional_analysis_var : string) (hiv_data : list Hiv.row)
  : list Hiv.row :=
  filter (fun r => Calendar.ltb (Hiv.diagnosis_date r) policy_date)
         (region_selection regional_analysis_var hiv_data).

Definition post_side (policy_date : Calendar.datetime)
           (regional_analysis_var : string) (hiv_data : list Hiv.row)
  : list Hiv.row :=
  filter (fun r => Calendar.geb (Hiv.diagnosis_date r) policy_date)
         (region_selection regional_analysis_var hiv_data).

(** One case in January 2020, three in February 2020 and one in March
    2020. *)
Definition cases_first_quarter_2020 : list Hiv.row :=
  [ case_on "Khomas" (Calendar.date 2020 1 5);
    case_on "Khomas" (Calendar.date 2020 2 3);
    case_on "Erongo" (Calendar.date 2020 2 10);
    case_on "Khomas" (Calendar.date 2020 2 20);
    case_on "Khomas" (Calendar.date 2020 3 10) ].

(** What [assess_policy_impact] reports for one side of the policy date,
    given the monthly values of that side: there is at least one month, the
    mean is the arithmetic mean, and the standard deviation has divisor
    [n - 1], which makes it NaN for a single month. *)
Definition side_statistics (vals : list nat) (mean : Q) (std : Frame.root)
  : Prop :=
  vals <> []
  /\ mean = (inject_Z (Z.of_nat (fold_right Nat.add 0%nat vals))
             / inject_Z (Z.of_nat (List.length vals)))%Q
  /\ (List.length vals = 1%nat -> std = Frame.NaN)
  /\ ((2 <= List.length vals)%nat ->
      std = Frame.Sqrt
              (fold_right
                 (fun x acc =>
                    ((inject_Z (Z.of_nat x) - mean)
                     * (inject_Z (Z.of_nat x) - mean) + acc)%Q)
                 0%Q vals
               / inject_Z (Z.of_nat (List.length vals - 1)))%Q).

(** An arrangement in which [sort_values(ascending=False)] can leave the
    rows of a count table: pandas sorts with an unstable algorithm, so every
    arrangement of the same rows by non-increasing count is possible. *)
Definition descending_arrangement (rows sorted : list (string * nat)) : Prop :=
  Permutation rows sorted
  /\ StronglySorted (fun a b => (snd b <= snd a)%nat) sorted.

(** "Highest Region" of [update_hiv_map] when the counts are arranged by
    [sort]: the [idxmax()] and [max()] of the arranged counts. *)
Definition highest_region_by
           (sort : list (string * nat) -> list (string * nat))
           (fd : list Hiv.row) : option (string * nat) :=
  match fd with
  | [] => None
  | _ => Frame.first_max (sort (Frame.value_count (map Hiv.region fd)))
  end.

(** [k] occurs in [l] at a position before which [k'] does not occur. *)
Definition precedes (k k' : string) (l : list string) : Prop :=
  exists pre post, l = (pre ++ k :: post)%list /\ ~ In k' pre.

(** The Tk variables of the case filter in their initial state. *)
Definition no_filter : HivMap.vars := HivMap.mk_vars "All Time" "All" "All" "All".

(** A case in Hardap recorded before a case in Erongo. *)
Definition hardap_then_erongo : list Hiv.row :=
  [ case_on "Hardap" (Calendar.date 2020 1 5);
    case_on "Erongo" (Calendar.date 2020 2 3) ].

(** The same two cases with the regions exchanged. *)
Definition erongo_then_hardap : list Hiv.row :=
  [ case_on "Erongo" (Calendar.date 2020 1 5);
    case_on "Hardap" (Calendar.date 2020 2 3) ].

(** A row of a count table under another label. *)
Definition relabel (rho : string -> string) (row : string * nat)
  : string * nat :=
  (rho (fst row), snd row).

(** [sort_values] arranges the rows of a count table from their counts alone
    (an [argsort] of the values); the labels are carried along and never
    looked at, so relabelling the rows relabels the arrangement. *)
Definition label_blind (sort : list (string * nat) -> list (string * nat))
  : Prop :=
  forall (rho : string -> string) (rows : list (string * nat)),
    sort (map (relabel rho) rows) = map (relabel rho) (sort rows).

(* ===================================================================== *)
(** ** Map views: choropleth, prevalence map, clicking a facility         *)
(* ===================================================================== *)

Module Choropleth.

(** The loop over [self.regions] of the "Choropleth" branch of
    [update_hiv_map]: the (region, intensity) pairs it draws, or the
    exception that ends it. *)
Fixpoint draw_regions (regions : list string)
         (region_counts : list (string * nat))
  : Py.result (list (string * Q)) :=
  match regions with
  | [] => Py.Ok []
  | region :: rest =>
      let count := Frame.get region_counts region 0 in
      Py.bind (Py.max2 (Py.DictValues (map snd region_counts)) (Py.Int 1))
        (fun m =>
      Py.bind (Py.truediv count m)
        (fun ratio =>
      let intensity := Py.min2 ratio 1 in
      Py.bind (draw_regions rest region_counts)
        (fun drawn => Py.Ok ((region, intensity) :: drawn))))
  end.

(** [update_hiv_map] with [vis_type_var] on "Choropleth". *)
Definition update_hiv_map (now : Calendar.datetime) (v : HivMap.vars)
           (regions : list string) (hiv_data : list Hiv.row)
  : Py.result (list (string * Q)) :=
  let fd := HivMap.filtered_data now v hiv_data in
  let region_counts := Frame.value_counts (map Hiv.region fd) in
  draw_regions regions region_counts.

End Choropleth.

Module PopulationMap.

(** [population_data.loc[population_data['region'] == region, col].values[0]]:
    the cell of the first matching row, IndexError when no row matches. *)
Definition loc_first {A : Type} (population_data : list Pop.row)
           (region : string) (col : Pop.row -> A) : Py.result A :=
  match filter (fun p => String.eqb (Pop.region p) region) population_data with
  | [] => Py.Raise Py.IndexError
  | p :: _ => Py.Ok (col p)
  end.

(** One drawn region of the "HIV Prevalence Rate" display. *)
Record shape : Type := mk_shape
  { region : string;
    prevalence : Q;
    intensity : Q }.

(** The loop over [self.regions] of the "HIV Prevalence Rate" branch of
    [update_population_map]. *)
Fixpoint draw_regions (regions : list string)
         (hiv_by_region : list (string * nat))
         (population_data : list Pop.row) : Py.result (list shape) :=
  match regions with
  | [] => Py.Ok []
  | region :: rest =>
      Py.bind (loc_first population_data region Pop.population)
        (fun population =>
      let cases := Frame.get hiv_by_region region 0 in
      let prevalence :=
        if 0 <? population then true_divide (Z.of_nat cases) population
        else 0%Q in
      let max_prevalence := (5 # 100)%Q in
      let intensity := Py.min2 (prevalence / max_prevalence)%Q 1 in
      Py.bind (draw_regions rest hiv_by_region population_data)
        (fun drawn => Py.Ok (mk_shape region prevalence intensity :: drawn)))
  end.

(** [update_population_map] with [pop_display_var] on "HIV Prevalence
    Rate". *)
Definition update_population_map (regions : list string)
           (hiv_data : list Hiv.row) (population_data : list Pop.row)
  : Py.result (list shape) :=
  let hiv_by_region := Frame.value_counts (map Hiv.region hiv_data) in
  draw_regions regions hiv_by_region population_data.

End PopulationMap.

Module Click.

(** The radicand of the [distance] column: squared offsets in longitude and
    latitude from the clicked point. *)
Definition distance2 (x y : Q) (f : Fac.row) : Q :=
  ((Fac.longitude f - x) * (Fac.longitude f - x)
   + (Fac.latitude f - y) * (Fac.latitude f - y))%Q.

(** The [distance] column, [np.sqrt(...)], in closed form. *)
Definition distance (x y : Q) (f : Fac.row) : Frame.root :=
  Frame.Sqrt (distance2 x y f).

(** [a < b] on two closed-form roots. *)
Definition root_ltb (a b : Frame.root) : bool :=
  match a, b with
  | Frame.Sqrt p, Frame.Sqrt q => Py.Qltb p q
  | _, _ => false
  end.

(** [filtered_facilities.loc[filtered_facilities['distance'].idxmin()]]: the
    first row of smallest distance. *)
Fixpoint closest (x y : Q) (ff : list Fac.row) : option Fac.row :=
  match ff with
  | [] => None
  | f :: rest =>
      match closest x y rest with
      | Some g =>
          if root_ltb (distance x y g) (distance x y f) then Some g
          else Some f
      | None => Some f
      end
  end.

(** [on_click]: the facility whose details are displayed, if any. [inaxes]
    tells whether the click fell inside the map axes. *)
Definition on_click (inaxes : bool) (x y : Q) (filtered_facilities : list Fac.row)
  : option Fac.row :=
  if negb inaxes then None
  else
    match closest x y filtered_facilities with
    | None => None
    | Some c =>
        if root_ltb (distance x y c) (Frame.Sqrt (1 # 4)) then Some c
        else None
    end.

(** [show_selected_facility] of [search_facilities], for the selected
    [facility]: the filters are set to its region and type and the map is
    updated; the result is the new content of the map. *)
Definition show_selected_facility (health_facilities : list Fac.row)
           (services_vars : list (string * bool)) (facility : Fac.row)
  : list Fac.row :=
  let facilities_region_var := Fac.region facility in
  let facility_type_var := Fac.facility_type facility in
  Facilities.update_facilities_map health_facilities facilities_region_var
                                   facility_type_var services_vars.

End Click.

(* ===================================================================== *)
(** ** Trend statistics: [update_trend_statistics]                        *)
(* ===================================================================== *)

Module Trend.

(** The "Change" line: a percentage, the float infinity or NaN that the
    division by a zero count yields, or "Insufficient data". *)
Inductive change : Type :=
| Pct (q : Q)
| PctInf
| PctNaN
| Insufficient.

(** [((last_period - prev_period) / prev_period) * 100] on two counts. *)
Definition pct_change (last_period prev_period : nat) : change :=
  if Nat.eqb prev_period 0 then
    if Nat.eqb last_period 0 then PctNaN else PctInf
  else
    Pct (inject_Z (Z.of_nat last_period - Z.of_nat prev_period)
         / inject_Z (Z.of_nat prev_period) * inject_Z 100)%Q.

Record stats : Type := mk_stats
  { mean : Q;
    std : Frame.root;
    minimum : nat;
    maximum : nat;
    latest : nat;
    change_text : change }.

(** [Series.min()] and [Series.max()] of a non-empty Series of counts. *)
Definition series_min (vals : list nat) : nat :=
  match vals with
  | [] => 0%nat
  | x :: rest => fold_left Nat.min rest x
  end.

Definition series_max (vals : list nat) : nat :=
  match vals with
  | [] => 0%nat
  | x :: rest => fold_left Nat.max rest x
  end.

(** [time_series.iloc[-k]] for [k] = 1, 2. *)
Definition iloc_back (vals : list nat) (k : nat) : nat :=
  nth (List.length vals - k) vals 0%nat.

(** The statistics written into the text box; [None] stands for the text
    "No data available for the selected filters." *)
Definition update_trend_statistics (time_series : list (Z * nat))
  : option stats :=
  match time_series with
  | [] => None
  | _ =>
      let vals := map snd time_series in
      let change_text :=
        if Nat.leb 2 (List.length vals) then
          let last_period := iloc_back vals 1 in
          let prev_period := iloc_back vals 2 in
          pct_change last_period prev_period
        else Insufficient in
      Some (mk_stats (Frame.mean vals) (Frame.std vals)
                     (series_min vals) (series_max vals)
                     (iloc_back vals 1) change_text)
  end.

End Trend.

(* ===================================================================== *)
(** ** Export: [export_current_view] and [export_filtered_data]           *)
(* ===================================================================== *)

Module ExportView.
Import Calendar.

(** Everything the export reads: the tables, the clock and the Tk
    variables of the five tabs. [date_range] is the result of the two
    [strptime] calls of the temporal tab ([None] on ValueError). *)
Record app : Type := mk_app
  { hiv_data : list Hiv.row;
    population_data : list Pop.row;
    health_facilities : list Fac.row;
    now : datetime;
    hiv_vars : HivMap.vars;
    facilities_region_var : string;
    facility_type_var : string;
    services_vars : list (string * bool);
    regional_analysis_var : string;
    regional_time_var : string;
    temporal_region_var : string;
    date_range : option (datetime * datetime) }.

(** [data_to_export]. *)
Inductive frame : Type :=
| Cases (rows : list Hiv.row)
| Prevalence (rows : list (Frame.merged * Q))
| Facilities (rows : list Fac.row).

(** What the callback ends with: nothing (dialog cancelled), the "Invalid
    date format" box, a file written by [to_excel] or by [to_csv], or the
    "Export Error" box of the [except Exception] handler. *)
Inductive outcome : Type :=
| Cancelled
| DateError
| Excel (data : frame)
| Csv (data : frame)
| ExportError (e : Py.exn).

(** The [try] body up to [data_to_export], a name that stays unbound for an
    unknown [data_type]. *)
Definition data_to_export (a : app) (data_type : string)
  : option (Py.result frame) :=
  if String.eqb data_type "hiv" then
    let fd := hiv_data a in
    let fd :=
      if String.eqb (HivMap.time_frame_var (hiv_vars a)) "Last Year" then
        filter (fun r => geb (Hiv.diagnosis_date r) (minus_days (now a) 365))
               fd
      else if String.eqb (HivMap.time_frame_var (hiv_vars a)) "Last 5 Years"
      then
        filter (fun r => geb (Hiv.diagnosis_date r)
                             (minus_days (now a) (5 * 365))) fd
      else fd in
    let fd :=
      if negb (String.eqb (HivMap.age_group_var (hiv_vars a)) "All") then
        filter (fun r => String.eqb (Hiv.age_group r)
                                    (HivMap.age_group_var (hiv_vars a))) fd
      else fd in
    let fd :=
      if negb (String.eqb (HivMap.gender_var (hiv_vars a)) "All") then
        filter (fun r => String.eqb (Hiv.gender r)
                                    (HivMap.gender_var (hiv_vars a))) fd
      else fd in
    let fd :=
      if negb (String.eqb (HivMap.diagnosis_var (hiv_vars a)) "All") then
        filter (fun r => String.eqb (Hiv.diagnosis_status r)
                                    (HivMap.diagnosis_var (hiv_vars a))) fd
      else fd in
    Some (Py.Ok (Cases fd))
  else if String.eqb data_type "population" then
    let hiv_counts := Frame.value_counts (map Hiv.region (hiv_data a)) in
    let merged := Frame.merge hiv_counts (population_data a) in
    Some (Py.Ok (Prevalence
                   (map (fun m =>
                           (m, true_divide (Z.of_nat (Frame.cases m))
                                           (Frame.population m)))
                        merged)))
  else if String.eqb data_type "facilities" then
    let ff := health_facilities a in
    let ff :=
      if negb (String.eqb (facilities_region_var a) "All") then
        filter (fun f => String.eqb (Fac.region f) (facilities_region_var a))
               ff
      else ff in
    let ff :=
      if negb (String.eqb (facility_type_var a) "All") then
        filter (fun f => String.eqb (Fac.facility_type f)
                                    (facility_type_var a)) ff
      else ff in
    let selected_services := map fst (filter snd (services_vars a)) in
    let ff :=
      match selected_services with
      | [] => ff
      | _ =>
          filter (fun f =>
                    existsb (fun service =>
                               Facilities.str_contains service (Fac.services f))
                            selected_services) ff
      end in
    Some (Py.Ok (Facilities ff))
  else if String.eqb data_type "regional" then
    let fd := hiv_data a in
    let fd :=
      if negb (String.eqb (regional_analysis_var a) "All") then
        filter (fun r => String.eqb (Hiv.region r) (regional_analysis_var a))
               fd
      else fd in
    let fd :=
      if String.eqb (regional_time_var a) "Last Year" then
        filter (fun r => geb (Hiv.diagnosis_date r) (minus_days (now a) 365))
               fd
      else if String.eqb (regional_time_var a) "Last 3 Years" then
        filter (fun r => geb (Hiv.diagnosis_date r)
                             (minus_days (now a) (3 * 365))) fd
      else if String.eqb (regional_time_var a) "Last 5 Years" then
        filter (fun r => geb (Hiv.diagnosis_date r)
                             (minus_days (now a) (5 * 365))) fd
      else fd in
    Some (Py.Ok (Cases fd))
  else if String.eqb data_type "temporal" then
    let fd := hiv_data a in
    let fd :=
      if negb (String.eqb (temporal_region_var a) "All") then
        filter (fun r => String.eqb (Hiv.region r) (temporal_region_var a)) fd
      else fd in
    match date_range a with
    | None => None
    | Some (start_date, end_date) =>
        Some (Py.Ok (Cases
                       (filter (fun r =>
                                  geb (Hiv.diagnosis_date r) start_date
                                  && leb (Hiv.diagnosis_date r) end_date)
                               fd)))
    end
  else Some (Py.Raise Py.NameError).

(** [export_filtered_data]; [file_path] is the answer of the save dialog
    (empty when cancelled). Writing the file itself is taken to succeed. *)
Definition export_filtered_data (a : app) (file_path data_type : string)
  : outcome :=
  if String.eqb file_path "" then Cancelled
  else
    match data_to_export a data_type with
    | None => DateError
    | Some (Py.Raise e) => ExportError e
    | Some (Py.Ok data) =>
        if Py.endswith file_path ".xlsx" then Excel data else Csv data
    end.

(** [export_current_view]; [current_tab] is the index of the selected tab.
    [None]: no branch is taken and nothing happens. *)
Definition export_current_view (a : app) (current_tab : Z)
           (file_path : string) : option outcome :=
  if current_tab =? 0 then Some (export_filtered_data a file_path "hiv")
  else if current_tab =? 1 then
    Some (export_filtered_data a file_path "population")
  else if current_tab =? 2 then
    Some (export_filtered_data a file_path "facilities")
  else if current_tab =? 3 then
    Some (export_filtered_data a file_path "regional")
  else if current_tab =? 4 then
    Some (export_filtered_data a file_path "temporal")
  else None.

(** The frame of an outcome that wrote a file. *)
Definition written (o : outcome) : option frame :=
  match o with
  | Excel data | Csv data => Some data
  | _ => None
  end.

End ExportView.


(* ===================================================================== *)
(** * Properties                                                          *)
(* ===================================================================== *)

(** ** The model on small inputs *)

Example minus_days_one_year :
  Calendar.minus_days (Calendar.mk_datetime 2026 11 4 1234) 365
  = Calendar.mk_datetime 2025 11 4 1234.
Proof. reflexivity. Qed.

Example minus_days_across_leap_day :
  Calendar.minus_days (Calendar.date 2024 3 1) 1 = Calendar.date 2024 2 29.
Proof. reflexivity. Qed.

Example value_counts_orders_by_count :
  Frame.value_counts ["Erongo"; "Khomas"; "Hardap"; "Khomas"; "Hardap"]
  = [("Khomas", 2%nat); ("Hardap", 2%nat); ("Erongo", 1%nat)].
Proof. reflexivity. Qed.

Example services_cell_joins_with_comma :
  Data.services_cell ["HIV Testing"; "PrEP"] = "HIV Testing, PrEP".
Proof. reflexivity. Qed.

Example str_contains_examples :
  Facilities.str_contains "PrEP" "HIV Testing, PrEP" = true
  /\ Facilities.str_contains "PMTCT" "HIV Testing, PrEP" = false
  /\ Facilities.str_contains "" "" = true.
Proof. repeat split. Qed.

Example resample_by_quarter :
  Temporal.resample_size Temporal.Quarter
    [Calendar.date 2020 2 10; Calendar.date 2020 11 30; Calendar.date 2020 3 1]
  = [(2020 * 4 + 0, 2%nat); (2020 * 4 + 1, 0%nat);
     (2020 * 4 + 2, 0%nat); (2020 * 4 + 3, 1%nat)].
Proof. reflexivity. Qed.

Example population_data_first_row :
  map Pop.region (firstn 2 Data.population_data) = ["Erongo"; "Hardap"]
  /\ map Pop.population (firstn 2 Data.population_data) = [150000; 87000].
Proof. split; reflexivity. Qed.

(** ** Boolean-mask selection *)

Section Masks.
Context {A : Type}.

Lemma filter_twice (f g : A -> bool) (l : list A) :
  filter f (filter g l) = filter (fun x => g x && f x) l.
Proof.
  induction l as [|x l IH]; simpl; [reflexivity|].
  destruct (g x); simpl; [destruct (f x)|]; now rewrite IH.
Qed.

Lemma filter_same (f : A -> bool) (l : list A) :
  filter f (filter f l) = filter f l.
Proof.
  rewrite filter_twice. apply filter_ext. intro x. now destruct (f x).
Qed.

Lemma filter_all (l : list A) : filter (fun _ => true) l = l.
Proof. induction l; simpl; congruence. Qed.

(** An optional mask: applied when [active], skipped otherwise. *)
Lemma optional_mask (active : bool) (f : A -> bool) (l : list A) :
  (if active then filter f l else l)
  = filter (fun x => if active then f x else true) l.
Proof. destruct active; [reflexivity | now rewrite filter_all]. Qed.
End Masks.

Lemma filtered_data_mask now v hiv_data :
  HivMap.filtered_data now v hiv_data = filter (case_pass now v) hiv_data.
Proof.
  unfold HivMap.filtered_data, case_pass, time_frame_pass, field_pass.
  cbv zeta.
  destruct (String.eqb (HivMap.time_frame_var v) "Last Year"),
           (String.eqb (HivMap.time_frame_var v) "Last 5 Years"),
           (String.eqb (HivMap.age_group_var v) "All"),
           (String.eqb (HivMap.gender_var v) "All"),
           (String.eqb (HivMap.diagnosis_var v) "All");
    cbn [negb]; rewrite ?filter_twice;
    try (now rewrite filter_all);
    apply filter_ext; intro r;
    rewrite ?andb_true_r, ?andb_assoc; reflexivity.
Qed.

(** C9. Applying the case filter of [update_hiv_map] to its own output, with
    the same Tk variables and the same evaluation time [now], changes
    nothing: the filter is idempotent. *)
Theorem filtered_data_idempotent :
  forall (now : Calendar.datetime) (v : HivMap.vars) (records : list Hiv.row),
    HivMap.filtered_data now v (HivMap.filtered_data now v records)
    = HivMap.filtered_data now v records.
Proof.
  intros now v records. rewrite !filtered_data_mask. apply filter_same.
Qed.

(** ** Substring tests *)

Lemma starts_with_iff (p s : string) :
  Facilities.starts_with p s = true <-> exists post, s = p ++ post.
Proof.
  revert s. induction p as [|a p IH]; intros s; simpl.
  - split; [intros _; now exists s | reflexivity].
  - destruct s as [|b s].
    + split; [discriminate | intros [post H]; discriminate].
    + rewrite andb_true_iff, Ascii.eqb_eq, IH. split.
      * intros [-> [post ->]]. now exists post.
      * intros [post H]. injection H as -> ->. split; [reflexivity|].
        now exists post.
Qed.

Lemma str_contains_iff (needle hay : string) :
  Facilities.str_contains needle hay = true <-> Spec.occurs_in needle hay.
Proof.
  unfold Spec.occurs_in.
  induction hay as [|c hay IH]; simpl; rewrite orb_true_iff, starts_with_iff.
  - split.
    + intros [[post H] | H]; [|discriminate]. now exists EmptyString, post.
    + intros [pre [post H]]. left. destruct pre; [|discriminate].
      now exists post.
  - rewrite IH. split.
    + intros [[post H] | [pre [post H]]].
      * now exists EmptyString, post.
      * exists (String c pre), post. simpl. now rewrite H.
    + intros [pre [post H]]. destruct pre as [|c' pre]; simpl in H.
      * left. now exists post.
      * right. injection H as _ H. now exists pre, post.
Qed.

Lemma any_service_iff (selected : list string) (x : string) :
  Facilities.any_service selected x = true
  <-> exists tag, In tag selected /\ Spec.occurs_in tag x.
Proof.
  unfold Facilities.any_service. rewrite existsb_exists.
  split; intros [tag [H1 H2]]; exists tag; split; auto;
    now apply str_contains_iff.
Qed.

Lemma field_pass_iff (var value : string) :
  field_pass var value = true <-> var = "All" \/ value = var.
Proof.
  unfold field_pass. destruct (String.eqb_spec var "All") as [E|E]; simpl.
  - split; auto.
  - rewrite String.eqb_eq. split; [auto | intros [H|H]; [contradiction|auto]].
Qed.

(** With a non-empty selection the facility filter is one conjunctive mask. *)
Lemma update_facilities_map_mask table rv tv svars :
  Facilities.selected_services svars <> [] ->
  Facilities.update_facilities_map table rv tv svars
  = filter (facility_pass rv tv (Facilities.selected_services svars)) table.
Proof.
  intro Hsel. unfold Facilities.update_facilities_map, facility_pass.
  cbv zeta. destruct (Facilities.selected_services svars) as [|s0 sel] eqn:E;
    [contradiction|].
  rewrite !optional_mask, !filter_twice. apply filter_ext. intro f.
  unfold field_pass. now rewrite andb_assoc.
Qed.

(** In a services cell built from the known tags, a known tag occurs as a
    substring exactly when it is one of the joined tags. *)
Lemma cell_contains_tag (tags : list string) (tag : string) :
  Forall (fun t => In t Data.services) tags ->
  In tag Data.services ->
  Facilities.str_contains tag (Data.services_cell tags)
  = existsb (String.eqb tag) tags.
Proof.
  unfold Data.services_cell. intros Htags Htag.
  induction Htags as [|t rest Ht Hrest IH].
  { unfold Data.services in Htag. simpl in Htag.
    repeat (destruct Htag as [Htag|Htag]; [subst tag|]);
      try contradiction; reflexivity. }
  destruct rest as [|t2 rest].
  - cbn [join existsb]. rewrite orb_false_r.
    unfold Data.services in Ht, Htag. simpl in Ht, Htag.
    repeat (destruct Ht as [Ht|Ht]; [subst t|]); try contradiction;
      repeat (destruct Htag as [Htag|Htag]; [subst tag|]);
      try contradiction; reflexivity.
  - change (join ", " (t :: t2 :: rest))
      with (t ++ ", " ++ join ", " (t2 :: rest)).
    change (existsb (String.eqb tag) (t :: t2 :: rest))
      with (String.eqb tag t || existsb (String.eqb tag) (t2 :: rest)).
    rewrite <- IH. generalize (join ", " (t2 :: rest)) as R. intro R.
    unfold Data.services in Ht, Htag. simpl in Ht, Htag.
    repeat (destruct Ht as [Ht|Ht]; [subst t|]); try contradiction;
      repeat (destruct Htag as [Htag|Htag]; [subst tag|]);
      try contradiction; reflexivity.
Qed.

Lemma selected_in_keys (svars : list (string * bool)) (tag : string) :
  In tag (Facilities.selected_services svars) -> In tag (map fst svars).
Proof.
  unfold Facilities.selected_services. rewrite !in_map_iff.
  intros [x [E H]]. exists x. apply filter_In in H. tauto.
Qed.

(** C3. With at least one service ticked, a facility whose services cell is
    built from the known tags is kept by [update_facilities_map] exactly when
    it passes the region filter AND the facility-type filter (each only if
    active) AND offers at least one of the ticked tags (OR among the tags). *)
Theorem facility_service_filter_any_of :
  forall (table : list Fac.row) (rv tv : string)
         (svars : list (string * bool)) (f : Fac.row) (tags : list string),
    map fst svars = Data.services ->
    Facilities.selected_services svars <> [] ->
    Forall (fun t => In t Data.services) tags ->
    Fac.services f = Data.services_cell tags ->
    (In f (Facilities.update_facilities_map table rv tv svars)
     <-> In f table
         /\ (rv = "All" \/ Fac.region f = rv)
         /\ (tv = "All" \/ Fac.facility_type f = tv)
         /\ exists tag,
              In tag (Facilities.selected_services svars) /\ In tag tags).
Proof.
  intros table rv tv svars f tags Hkeys Hsel Htags Hcell.
  rewrite update_facilities_map_mask by assumption.
  rewrite filter_In. unfold facility_pass.
  rewrite !andb_true_iff, !field_pass_iff.
  unfold Facilities.any_service. rewrite existsb_exists, Hcell.
  assert (Hany :
    (exists x, In x (Facilities.selected_services svars)
               /\ Facilities.str_contains x (Data.services_cell tags) = true)
    <-> (exists tag, In tag (Facilities.selected_services svars)
                     /\ In tag tags)).
  { split; intros [tag [H1 H2]]; exists tag; split; auto.
    - rewrite cell_contains_tag in H2; auto.
      + apply existsb_exists in H2. destruct H2 as [t [H3 H4]].
        apply String.eqb_eq in H4. now subst.
      + rewrite <- Hkeys. now apply selected_in_keys.
    - rewrite cell_contains_tag; auto.
      + apply existsb_exists. exists tag. split; auto. apply String.eqb_refl.
      + rewrite <- Hkeys. now apply selected_in_keys. }
  rewrite Hany. tauto.
Qed.

(** [facility_1] offers "PrEP" but not "PMTCT"; with both ticked and the
    region filter on "Khomas" it is kept. *)
Lemma facility_service_filter_any_of_witness :
  In Samples.facility_1
     (Facilities.update_facilities_map
        [Samples.facility_1; Samples.facility_2] "Khomas" "All"
        Samples.prep_and_pmtct).
Proof.
  apply (facility_service_filter_any_of
           [Samples.facility_1; Samples.facility_2] "Khomas" "All"
           Samples.prep_and_pmtct Samples.facility_1 ["HIV Testing"; "PrEP"]).
  - reflexivity.
  - vm_compute. discriminate.
  - repeat constructor; vm_compute; tauto.
  - reflexivity.
  - split; [left; reflexivity|].
    split; [right; reflexivity|].
    split; [left; reflexivity|].
    exists "PrEP". split; vm_compute; tauto.
Defined.

(** C10. The service test of [update_facilities_map] is a substring test on
    the services cell: a cell passes exactly when some ticked tag occurs in it
    as a contiguous substring, and with the two other filters on "All" the
    result is the table under that test. So [facility_3], whose entries are
    "PrEP Referral" and "Pharmacy", passes for the ticked tag "PrEP" although
    "PrEP" is none of its entries. *)
Theorem facility_service_filter_is_substring_test :
  (forall (selected : list string) (cell : string),
      Facilities.any_service selected cell = true
      <-> exists tag, In tag selected /\ Spec.occurs_in tag cell)
  /\ (forall (table : list Fac.row) (svars : list (string * bool)),
         Facilities.selected_services svars <> [] ->
         Facilities.update_facilities_map table "All" "All" svars
         = filter (fun f => Facilities.any_service
                              (Facilities.selected_services svars)
                              (Fac.services f)) table)
  /\ (Fac.services Samples.facility_3 = join ", " ["PrEP Referral"; "Pharmacy"]
      /\ ~ In "PrEP" ["PrEP Referral"; "Pharmacy"]
      /\ Facilities.update_facilities_map [Samples.facility_3] "All" "All"
                                          Samples.prep_only
         = [Samples.facility_3]).
Proof.
  split; [exact any_service_iff|]. split.
  - intros table svars Hsel. rewrite update_facilities_map_mask by assumption.
    apply filter_ext. intro f. reflexivity.
  - split; [reflexivity|]. split; [|reflexivity].
    simpl. intros [H|[H|[]]]; discriminate.
Qed.

Lemma facility_service_filter_is_substring_test_witness :
  Facilities.update_facilities_map
    [Samples.facility_3; Samples.facility_2] "All" "All" Samples.prep_only
  = filter (fun f => Facilities.any_service
                       (Facilities.selected_services Samples.prep_only)
                       (Fac.services f))
           [Samples.facility_3; Samples.facility_2].
Proof.
  apply (proj1 (proj2 facility_service_filter_is_substring_test)).
  vm_compute. discriminate.
Defined.

(** ** Dates and calendar buckets *)

Ltac split_compare :=
  repeat match goal with
         | |- context [Z.compare ?x ?y] => destruct (Z.compare_spec x y)
         end.

Lemma ltb_before (a b : Calendar.datetime) :
  Calendar.ltb a b = true <-> before a b.
Proof.
  unfold Calendar.ltb, Calendar.cmp, before.
  split_compare; split; intro Hx; try reflexivity; try discriminate; lia.
Qed.

Lemma leb_not_before (a b : Calendar.datetime) :
  Calendar.leb a b = true <-> ~ before b a.
Proof.
  unfold Calendar.leb, Calendar.cmp, before.
  split_compare; split; intro Hx; try reflexivity; try discriminate; lia.
Qed.

Lemma valid_month (d : Calendar.datetime) :
  Calendar.valid d = true -> 1 <= Calendar.month d <= 12.
Proof.
  unfold Calendar.valid. rewrite !andb_true_iff, !Z.leb_le. lia.
Qed.

(** Bucket numbers follow the order of the dates. *)
Lemma bucket_monotone (f : Temporal.freq) (a b : Calendar.datetime) :
  1 <= Calendar.month a <= 12 -> 1 <= Calendar.month b <= 12 ->
  ~ before b a -> Temporal.bucket f a <= Temporal.bucket f b.
Proof.
  unfold before, Temporal.bucket. intros Ha Hb H.
  destruct f; [lia | | lia].
  Z.div_mod_to_equations. lia.
Qed.

Lemma before_trans (a b c : Calendar.datetime) :
  before a b -> before b c -> before a c.
Proof. unfold before. lia. Qed.

Lemma before_irrefl (a : Calendar.datetime) : ~ before a a.
Proof. unfold before. lia. Qed.

Lemma earliest_spec (rest : list Calendar.datetime) (d0 : Calendar.datetime) :
  In (Temporal.earliest d0 rest) (d0 :: rest)
  /\ forall d, In d (d0 :: rest) -> ~ before d (Temporal.earliest d0 rest).
Proof.
  unfold Temporal.earliest. revert d0.
  induction rest as [|x rest IH]; intro d0; simpl.
  - split; [now left|]. intros d [<-|[]]. apply before_irrefl.
  - destruct (Calendar.ltb x d0) eqn:E.
    + destruct (IH x) as [Hin Hmin]. split.
      * simpl in Hin. tauto.
      * intros d [<-|[<-|Hd]].
        -- intro Hb. apply ltb_before in E.
           apply (Hmin x); [now left|]. eapply before_trans; eauto.
        -- apply Hmin. now left.
        -- apply Hmin. now right.
    + destruct (IH d0) as [Hin Hmin]. split.
      * simpl in Hin. tauto.
      * intros d [<-|[<-|Hd]].
        -- apply Hmin. now left.
        -- intro Hb. assert (Hn : ~ before x d0).
           { intro Hc. apply ltb_before in Hc. congruence. }
           pose proof (Hmin d0 (or_introl eq_refl)) as H0.
           revert Hb H0 Hn. unfold before. clear. lia.
        -- apply Hmin. now right.
Qed.

Lemma latest_spec (rest : list Calendar.datetime) (d0 : Calendar.datetime) :
  In (Temporal.latest d0 rest) (d0 :: rest)
  /\ forall d, In d (d0 :: rest) -> ~ before (Temporal.latest d0 rest) d.
Proof.
  unfold Temporal.latest. revert d0.
  induction rest as [|x rest IH]; intro d0; simpl.
  - split; [now left|]. intros d [<-|[]]. apply before_irrefl.
  - destruct (Calendar.ltb d0 x) eqn:E.
    + destruct (IH x) as [Hin Hmax]. split.
      * simpl in Hin. tauto.
      * intros d [<-|[<-|Hd]].
        -- intro Hb. apply ltb_before in E.
           apply (Hmax x); [now left|]. eapply before_trans; eauto.
        -- apply Hmax. now left.
        -- apply Hmax. now right.
    + destruct (IH d0) as [Hin Hmax]. split.
      * simpl in Hin. tauto.
      * intros d [<-|[<-|Hd]].
        -- apply Hmax. now left.
        -- intro Hb. assert (Hn : ~ before d0 x).
           { intro Hc. apply ltb_before in Hc. congruence. }
           pose proof (Hmax d0 (or_introl eq_refl)) as H0.
           revert Hb H0 Hn. unfold before. clear. lia.
        -- apply Hmax. now right.
Qed.

Lemma bucket_range_length (lo hi : Z) :
  List.length (Temporal.bucket_range lo hi) = Z.to_nat (hi - lo + 1).
Proof. unfold Temporal.bucket_range. now rewrite length_map, length_seq. Qed.

Lemma bucket_range_nth (lo hi : Z) (i : nat) :
  (i < Z.to_nat (hi - lo + 1))%nat ->
  nth i (Temporal.bucket_range lo hi) 0 = lo + Z.of_nat i.
Proof.
  intro Hi. unfold Temporal.bucket_range.
  rewrite (nth_indep _ 0 ((fun i => lo + Z.of_nat i) 0%nat))
    by now rewrite length_map, length_seq.
  rewrite (map_nth (fun i => lo + Z.of_nat i)), seq_nth by assumption.
  reflexivity.
Qed.

Lemma bucket_range_In (lo hi b : Z) :
  In b (Temporal.bucket_range lo hi) <-> lo <= b <= hi.
Proof.
  unfold Temporal.bucket_range. rewrite in_map_iff. split.
  - intros [i [<- Hi]]. apply in_seq in Hi. lia.
  - intros Hb. exists (Z.to_nat (b - lo)). split; [lia|].
    apply in_seq. lia.
Qed.

(** The shape of a resampled Series over a non-empty list of valid dates. *)
Lemma resample_size_shape (f : Temporal.freq) (dates : list Calendar.datetime) :
  dates <> [] ->
  Forall (fun d => Calendar.valid d = true) dates ->
  exists first last,
    In first dates /\ In last dates
    /\ (forall d, In d dates ->
                  Calendar.leb first d = true /\ Calendar.leb d last = true)
    /\ Temporal.bucket f first <= Temporal.bucket f last
    /\ Temporal.resample_size f dates
       = map (fun b => (b, Temporal.bin_size f dates b))
             (Temporal.bucket_range (Temporal.bucket f first)
                                    (Temporal.bucket f last)).
Proof.
  intros Hne Hvalid. destruct dates as [|d0 rest]; [contradiction|].
  destruct (earliest_spec rest d0) as [Hin1 Hmin].
  destruct (latest_spec rest d0) as [Hin2 Hmax].
  exists (Temporal.earliest d0 rest), (Temporal.latest d0 rest).
  split; [assumption|]. split; [assumption|]. split; [|split].
  - intros d Hd. split; apply leb_not_before; auto.
  - rewrite Forall_forall in Hvalid.
    apply bucket_monotone; try (apply valid_month; auto).
    now apply Hmax.
  - reflexivity.
Qed.

Lemma bin_size_records (f : Temporal.freq) (fd : list Hiv.row) (b : Z) :
  Temporal.bin_size f (map Hiv.diagnosis_date fd) b
  = List.length
      (filter (fun r => Temporal.bucket f (Hiv.diagnosis_date r) =? b) fd).
Proof.
  unfold Temporal.bin_size. induction fd as [|r fd IH]; simpl; [reflexivity|].
  destruct (Temporal.bucket f (Hiv.diagnosis_date r) =? b); simpl; congruence.
Qed.

(** C2. For a non-empty frame of validly dated records and each of the three
    frequencies, the resampled Series has exactly one entry per calendar
    bucket from the bucket of the earliest record to the bucket of the latest,
    inclusive and in ascending order; the value of an entry is the number of
    records in its bucket, so a bucket without records is present with value
    0. Records dated 2020-01-15 and 2020-03-10 give, by month, the three
    buckets January, February, March 2020 with values 1, 0, 1. *)
Theorem resample_covers_every_bucket :
  (forall (f : Temporal.freq) (fd : list Hiv.row),
      fd <> [] ->
      Forall (fun r => Calendar.valid (Hiv.diagnosis_date r) = true) fd ->
      exists first last : Hiv.row,
        In first fd /\ In last fd
        /\ (forall r, In r fd ->
              Calendar.leb (Hiv.diagnosis_date first) (Hiv.diagnosis_date r)
              = true
              /\ Calendar.leb (Hiv.diagnosis_date r) (Hiv.diagnosis_date last)
                 = true)
        /\ let series :=
             Temporal.resample_size f (map Hiv.diagnosis_date fd) in
           let lo := Temporal.bucket f (Hiv.diagnosis_date first) in
           let hi := Temporal.bucket f (Hiv.diagnosis_date last) in
           lo <= hi
           /\ List.length series = Z.to_nat (hi - lo + 1)
           /\ (forall i, (i < List.length series)%nat ->
                 nth i series (0, 0%nat)
                 = (lo + Z.of_nat i,
                    List.length
                      (filter (fun r =>
                                 Temporal.bucket f (Hiv.diagnosis_date r)
                                 =? lo + Z.of_nat i) fd)))
           /\ (forall b, lo <= b <= hi ->
                 (forall r, In r fd ->
                            Temporal.bucket f (Hiv.diagnosis_date r) <> b) ->
                 In (b, 0%nat) series))
  /\ Temporal.resample_size Temporal.Month
       (map Hiv.diagnosis_date
            [case_on "Khomas" (Calendar.date 2020 1 15);
             case_on "Khomas" (Calendar.date 2020 3 10)])
     = [(2020 * 12 + 0, 1%nat); (2020 * 12 + 1, 0%nat); (2020 * 12 + 2, 1%nat)].
Proof.
  split; [|reflexivity].
  intros f fd Hne Hvalid.
  destruct (resample_size_shape f (map Hiv.diagnosis_date fd))
    as [d1 [d2 [H1 [H2 [Hord [Hle Hshape]]]]]].
  { destruct fd; [contradiction | discriminate]. }
  { rewrite Forall_forall in *. intros d Hd. apply in_map_iff in Hd.
    destruct Hd as [r [<- Hr]]. auto. }
  apply in_map_iff in H1. destruct H1 as [first [E1 Hfirst]].
  apply in_map_iff in H2. destruct H2 as [last [E2 Hlast]].
  subst d1 d2. exists first, last.
  split; [assumption|]. split; [assumption|]. split.
  { intros r Hr. apply Hord. now apply in_map. }
  cbv zeta. rewrite Hshape. split; [assumption|].
  rewrite length_map, bucket_range_length. split; [reflexivity|]. split.
  - intros i Hi.
    set (lo := Temporal.bucket f (Hiv.diagnosis_date first)) in *.
    set (hi := Temporal.bucket f (Hiv.diagnosis_date last)) in *.
    rewrite (nth_indep _ (0, 0%nat)
               ((fun b => (b, Temporal.bin_size f
                                (map Hiv.diagnosis_date fd) b)) 0))
      by now rewrite length_map, bucket_range_length.
    rewrite (map_nth (fun b => (b, Temporal.bin_size f
                                     (map Hiv.diagnosis_date fd) b))).
    rewrite bucket_range_nth by assumption.
    now rewrite bin_size_records.
  - intros b Hb Hnone. apply in_map_iff. exists b. split.
    + f_equal. rewrite bin_size_records.
      rewrite (filter_ext_in _ (fun _ => false)).
      * assert (E : forall l : list Hiv.row, filter (fun _ => false) l = [])
          by (induction l; auto).
        now rewrite E.
      * intros r Hr. apply Z.eqb_neq. now apply Hnone.
    + now apply bucket_range_In.
Qed.

(** The January-to-March example is an instance of the general shape. *)
Lemma resample_covers_every_bucket_witness :
  exists first last : Hiv.row,
    In first [case_on "Khomas" (Calendar.date 2020 1 15);
              case_on "Khomas" (Calendar.date 2020 3 10)]
    /\ In last [case_on "Khomas" (Calendar.date 2020 1 15);
                case_on "Khomas" (Calendar.date 2020 3 10)]
    /\ Temporal.bucket Temporal.Month (Hiv.diagnosis_date first)
       <= Temporal.bucket Temporal.Month (Hiv.diagnosis_date last).
Proof.
  destruct (proj1 resample_covers_every_bucket Temporal.Month
              [case_on "Khomas" (Calendar.date 2020 1 15);
               case_on "Khomas" (Calendar.date 2020 3 10)])
    as [first [last [H1 [H2 [_ [H3 _]]]]]].
  - discriminate.
  - repeat constructor.
  - exists first, last. auto.
Defined.

(** "New Cases Over Time" charts the resampled Series of the records kept by
    the region and date-range filters, whenever the two dates parse and some
    record is kept. *)
Lemma update_temporal_trends_series
      (hiv_data : list Hiv.row) (region_var granularity_var : string)
      (start_date end_date : Calendar.datetime) :
  let fd :=
    filter (fun r =>
              field_pass region_var (Hiv.region r)
              && (Calendar.geb (Hiv.diagnosis_date r) start_date
                  && Calendar.leb (Hiv.diagnosis_date r) end_date))
           hiv_data in
  fd <> [] ->
  Temporal.update_temporal_trends hiv_data region_var
                                  (Some (start_date, end_date))
                                  granularity_var
  = Some (Temporal.resample_size (Temporal.granularity granularity_var)
                                 (map Hiv.diagnosis_date fd)).
Proof.
  cbv zeta. intro Hne. unfold Temporal.update_temporal_trends. cbv zeta.
  rewrite optional_mask, filter_twice. unfold field_pass in *.
  destruct (filter _ hiv_data); [contradiction | reflexivity].
Qed.

(** ** Policy impact *)

Lemma In_le_sum (x : nat) (l : list nat) : In x l -> (x <= Frame.sum l)%nat.
Proof.
  unfold Frame.sum. induction l as [|y l IH]; simpl; [tauto|].
  intros [->|H]; [lia|]. specialize (IH H). lia.
Qed.

(** A non-empty frame of valid dates resamples to a non-empty Series whose
    values do not all vanish. *)
Lemma resample_size_positive (f : Temporal.freq)
      (dates : list Calendar.datetime) :
  dates <> [] ->
  Forall (fun d => Calendar.valid d = true) dates ->
  Temporal.resample_size f dates <> []
  /\ (0 < Frame.sum (map snd (Temporal.resample_size f dates)))%nat.
Proof.
  intros Hne Hvalid.
  destruct (resample_size_shape f dates Hne Hvalid)
    as [d1 [d2 [H1 [H2 [_ [Hle Hshape]]]]]].
  assert (Hin : In (Temporal.bucket f d1, Temporal.bin_size f dates
                                            (Temporal.bucket f d1))
                   (Temporal.resample_size f dates)).
  { rewrite Hshape. apply in_map_iff. exists (Temporal.bucket f d1).
    split; [reflexivity|]. apply bucket_range_In. lia. }
  split.
  - intro E. rewrite E in Hin. exact Hin.
  - apply (in_map snd) in Hin. apply In_le_sum in Hin. simpl in Hin.
    assert (0 < Temporal.bin_size f dates (Temporal.bucket f d1))%nat; [|lia].
    unfold Temporal.bin_size.
    assert (Hf : In d1 (filter (fun d => Temporal.bucket f d
                                         =? Temporal.bucket f d1) dates)).
    { apply filter_In. split; [assumption | apply Z.eqb_refl]. }
    destruct (filter _ dates); [contradiction | simpl; lia].
Qed.

Lemma mean_positive (vals : list nat) :
  (0 < Frame.sum vals)%nat -> (0 < Frame.mean vals)%Q.
Proof.
  intro Hs. unfold Frame.mean.
  assert (Hl : (0 < List.length vals)%nat).
  { destruct vals; [simpl in Hs; lia | simpl; lia]. }
  apply Qlt_shift_div_l.
  - change 0%Q with (inject_Z 0). rewrite <- Zlt_Qlt. lia.
  - rewrite Qmult_0_l. change 0%Q with (inject_Z 0). rewrite <- Zlt_Qlt. lia.
Qed.

Lemma assess_region_selection rv hiv_data :
  (if negb (String.eqb rv "All")
   then filter (fun r => String.eqb (Hiv.region r) rv) hiv_data
   else hiv_data)
  = region_selection rv hiv_data.
Proof.
  unfold region_selection, field_pass.
  destruct (negb (String.eqb rv "All")); [reflexivity|].
  now rewrite filter_all.
Qed.

Lemma geb_ltb (a c : Calendar.datetime) :
  Calendar.geb a c = negb (Calendar.ltb a c).
Proof.
  unfold Calendar.geb. destruct (Calendar.ltb a c) eqn:E; simpl.
  - apply ltb_before in E. destruct (Calendar.leb c a) eqn:F; [|reflexivity].
    apply leb_not_before in F. contradiction.
  - apply leb_not_before. intro H. apply ltb_before in H. congruence.
Qed.

Lemma all_before_split (cutoff : Calendar.datetime) (l : list Hiv.row) :
  (forall x, In x l -> Calendar.ltb (Hiv.diagnosis_date x) cutoff = true) ->
  filter (fun r => Calendar.ltb (Hiv.diagnosis_date r) cutoff) l = l
  /\ filter (fun r => Calendar.geb (Hiv.diagnosis_date r) cutoff) l = [].
Proof.
  induction l as [|x l IH]; intro H; simpl; [split; reflexivity|].
  rewrite geb_ltb, (H x (or_introl eq_refl)). simpl.
  destruct IH as [IH1 IH2]; [intros y Hy; apply H; now right|].
  now rewrite IH1, IH2.
Qed.

Lemma resample_nonempty (f : Temporal.freq) (rows : list Hiv.row) :
  rows <> [] ->
  Temporal.resample f (map Hiv.diagnosis_date rows)
  = Py.Ok (Temporal.resample_size f (map Hiv.diagnosis_date rows)).
Proof. destruct rows; [contradiction | reflexivity]. Qed.

(** With a record on each side of the policy date the assessment completes,
    and its fields are the ones the callback computes from the two resampled
    Series. *)
Lemma assess_both_sides (cutoff : Calendar.datetime) (rv : string)
      (hiv_data : list Hiv.row) :
  pre_side cutoff rv hiv_data <> [] ->
  post_side cutoff rv hiv_data <> [] ->
  exists r : Regional.impact,
    Regional.assess_policy_impact (Some cutoff) rv hiv_data = Some (Py.Ok r)
    /\ Regional.pre_monthly r
       = Temporal.resample_size
           Temporal.Month
           (map Hiv.diagnosis_date (pre_side cutoff rv hiv_data))
    /\ Regional.post_monthly r
       = Temporal.resample_size
           Temporal.Month
           (map Hiv.diagnosis_date (post_side cutoff rv hiv_data))
    /\ Regional.pre_mean r
       = (if negb (Regional.is_empty (Regional.pre_monthly r))
          then Frame.mean (map snd (Regional.pre_monthly r)) else 0%Q)
    /\ Regional.pre_std r
       = (if negb (Regional.is_empty (Regional.pre_monthly r))
          then Frame.std (map snd (Regional.pre_monthly r))
          else Frame.Sqrt 0)
    /\ Regional.post_mean r
       = (if negb (Regional.is_empty (Regional.post_monthly r))
          then Frame.mean (map snd (Regional.post_monthly r)) else 0%Q)
    /\ Regional.post_std r
       = (if negb (Regional.is_empty (Regional.post_monthly r))
          then Frame.std (map snd (Regional.post_monthly r))
          else Frame.Sqrt 0)
    /\ Regional.change r
       = (if negb (Qle_bool (Regional.pre_mean r) 0)
          then Some (((Regional.post_mean r - Regional.pre_mean r)
                      / Regional.pre_mean r) * inject_Z 100)%Q
          else None).
Proof.
  intros Hpre Hpost. unfold Regional.assess_policy_impact. cbv zeta.
  rewrite assess_region_selection.
  fold (pre_side cutoff rv hiv_data). fold (post_side cutoff rv hiv_data).
  rewrite (resample_nonempty _ _ Hpre), (resample_nonempty _ _ Hpost).
  cbn [Py.bind]. eexists. split; [reflexivity|].
  cbn [Regional.pre_monthly Regional.post_monthly Regional.pre_mean
       Regional.post_mean Regional.pre_std Regional.post_std Regional.change].
  repeat split.
Qed.

(** With no record on one side of the policy date the assessment ends in
    the AttributeError of the resampling of that side. *)
Lemma assess_empty_side (cutoff : Calendar.datetime) (rv : string)
      (hiv_data : list Hiv.row) :
  pre_side cutoff rv hiv_data = [] \/ post_side cutoff rv hiv_data = [] ->
  Regional.assess_policy_impact (Some cutoff) rv hiv_data
  = Some (Py.Raise Py.AttributeError).
Proof.
  intro H. unfold Regional.assess_policy_impact. cbv zeta.
  rewrite assess_region_selection.
  fold (pre_side cutoff rv hiv_data). fold (post_side cutoff rv hiv_data).
  destruct (pre_side cutoff rv hiv_data) as [|x pre] eqn:Epre;
    [reflexivity|].
  destruct H as [H|H]; [discriminate|]. rewrite H. reflexivity.
Qed.

(** C4. The claim holds of the intended behaviour and not of the code: when
    every selected record is before the policy date, and more generally
    whenever one side of the policy date has no record, [assess_policy_impact]
    ends in the AttributeError of [resample] on the empty side, before any
    mean or change exists; the fallback to 0 for an empty side and the
    change of -100 are never reached. *)
Theorem policy_empty_side_raises :
  forall (cutoff : Calendar.datetime) (rv : string) (hiv_data : list Hiv.row),
    (pre_side cutoff rv hiv_data = [] \/ post_side cutoff rv hiv_data = [] ->
     Regional.assess_policy_impact (Some cutoff) rv hiv_data
     = Some (Py.Raise Py.AttributeError))
    /\ ((forall x, In x (region_selection rv hiv_data) ->
                   Calendar.ltb (Hiv.diagnosis_date x) cutoff = true) ->
        Regional.assess_policy_impact (Some cutoff) rv hiv_data
        = Some (Py.Raise Py.AttributeError)).
Proof.
  intros cutoff rv hiv_data. split; [apply assess_empty_side|].
  intro Hall. apply assess_empty_side. right. unfold post_side.
  now destruct (all_before_split cutoff _ Hall).
Qed.

(** Four cases in early 2020 and a policy dated 2021-01-01: every case is
    before the policy date, and the assessment raises. *)
Lemma policy_empty_side_raises_witness :
  Regional.assess_policy_impact (Some (Calendar.date 2021 1 1)) "All"
                                cases_early_2020
  = Some (Py.Raise Py.AttributeError).
Proof.
  apply (proj2 (policy_empty_side_raises (Calendar.date 2021 1 1) "All"
                                         cases_early_2020)).
  intros x Hx. vm_compute in Hx.
  repeat (destruct Hx as [<-|Hx]; [reflexivity|]). contradiction.
Defined.

Lemma side_statistics_holds (series : list (Z * nat)) :
  series <> [] ->
  side_statistics
    (map snd series)
    (if negb (Regional.is_empty series) then Frame.mean (map snd series)
     else 0%Q)
    (if negb (Regional.is_empty series) then Frame.std (map snd series)
     else Frame.Sqrt 0).
Proof.
  unfold side_statistics. destruct series as [|p series]; [contradiction|].
  intros _. cbn [Regional.is_empty negb]. split; [discriminate|].
  split; [reflexivity|]. unfold Frame.std, Frame.std_ddof. split.
  - intro H1. now rewrite H1.
  - intro H2. destruct (Nat.leb_spec (List.length (map snd (p :: series))) 1);
      [lia | reflexivity].
Qed.

Lemma valid_side (p : Hiv.row -> bool) (l : list Hiv.row) :
  Forall (fun x => Calendar.valid (Hiv.diagnosis_date x) = true) l ->
  Forall (fun d => Calendar.valid d = true)
         (map Hiv.diagnosis_date (filter p l)).
Proof.
  rewrite !Forall_forall. intros H d Hd. apply in_map_iff in Hd.
  destruct Hd as [x [<- Hx]]. apply filter_In in Hx. apply H. tauto.
Qed.

Lemma side_series_nonempty (side : list Hiv.row) :
  side <> [] ->
  Forall (fun d => Calendar.valid d = true) (map Hiv.diagnosis_date side) ->
  Temporal.resample_size Temporal.Month (map Hiv.diagnosis_date side) <> []
  /\ (0 < Frame.sum
            (map snd (Temporal.resample_size
                        Temporal.Month (map Hiv.diagnosis_date side))))%nat.
Proof.
  intros Hne Hvalid. apply resample_size_positive; [|assumption].
  destruct side; [contradiction | discriminate].
Qed.

(** C5 (as the code has it). When the selected records are validly dated
    and each side of the policy date has at least one of them,
    [assess_policy_impact] takes each side's statistics over all monthly
    buckets of that side's resampled Series, zero-count buckets included.
    The mean is the arithmetic mean (sum over [n]). The standard deviation
    is the sample standard deviation: squared deviations from the mean over
    [n - 1], NaN for a single bucket. *)
Theorem policy_mean_and_sample_std :
  forall (cutoff : Calendar.datetime) (rv : string) (hiv_data : list Hiv.row),
    Forall (fun x => Calendar.valid (Hiv.diagnosis_date x) = true)
           (region_selection rv hiv_data) ->
    pre_side cutoff rv hiv_data <> [] ->
    post_side cutoff rv hiv_data <> [] ->
    exists r : Regional.impact,
      Regional.assess_policy_impact (Some cutoff) rv hiv_data = Some (Py.Ok r)
      /\ Regional.pre_monthly r
         = Temporal.resample_size
             Temporal.Month
             (map Hiv.diagnosis_date (pre_side cutoff rv hiv_data))
      /\ Regional.post_monthly r
         = Temporal.resample_size
             Temporal.Month
             (map Hiv.diagnosis_date (post_side cutoff rv hiv_data))
      /\ side_statistics (map snd (Regional.pre_monthly r))
                         (Regional.pre_mean r) (Regional.pre_std r)
      /\ side_statistics (map snd (Regional.post_monthly r))
                         (Regional.post_mean r) (Regional.post_std r).
Proof.
  intros cutoff rv hiv_data Hvalid Hpre Hpost.
  destruct (assess_both_sides cutoff rv hiv_data Hpre Hpost)
    as [r [Hr [Epre [Epost [Em1 [Es1 [Em2 [Es2 _]]]]]]]].
  exists r. split; [exact Hr|]. split; [exact Epre|]. split; [exact Epost|].
  split.
  - rewrite Em1, Es1. apply side_statistics_holds. rewrite Epre.
    apply side_series_nonempty; [assumption|]. now apply valid_side.
  - rewrite Em2, Es2. apply side_statistics_holds. rewrite Epost.
    apply side_series_nonempty; [assumption|]. now apply valid_side.
Qed.

(** Cases from January to March 2020 and a policy dated 2020-03-01: both
    sides have records. *)
Lemma policy_mean_and_sample_std_witness :
  exists r : Regional.impact,
    Regional.assess_policy_impact (Some (Calendar.date 2020 3 1)) "All"
                                  cases_first_quarter_2020 = Some (Py.Ok r)
    /\ side_statistics (map snd (Regional.pre_monthly r))
                       (Regional.pre_mean r) (Regional.pre_std r)
    /\ side_statistics (map snd (Regional.post_monthly r))
                       (Regional.post_mean r) (Regional.post_std r).
Proof.
  destruct (policy_mean_and_sample_std (Calendar.date 2020 3 1) "All"
                                       cases_first_quarter_2020)
    as [r [Hr [_ [_ [H1 H2]]]]].
  - repeat constructor.
  - discriminate.
  - discriminate.
  - exists r. split; [exact Hr|]. split; [exact H1 | exact H2].
Defined.

(** C5 (as stated) fails: with one case in January 2020, three in February
    2020 and one in March 2020, and a policy dated 2020-03-01, both sides
    have records and the assessment completes; the pre-policy monthly values
    are 1 and 3, the reported standard deviation is the root of 2, and the
    population formula gives the root of 1. *)
Lemma policy_std_is_not_population_std :
  exists r : Regional.impact,
    Regional.assess_policy_impact (Some (Calendar.date 2020 3 1)) "All"
                                  cases_first_quarter_2020 = Some (Py.Ok r)
    /\ map snd (Regional.pre_monthly r) = [1%nat; 3%nat]
    /\ map snd (Regional.post_monthly r) = [1%nat]
    /\ Spec.root_eq (Regional.pre_std r) (Frame.Sqrt (2 # 1))
    /\ Spec.root_eq (Spec.population_std (map snd (Regional.pre_monthly r)))
                    (Frame.Sqrt (1 # 1))
    /\ ~ Spec.root_eq (Regional.pre_std r)
                      (Spec.population_std (map snd (Regional.pre_monthly r))).
Proof.
  eexists. split; [reflexivity|]. split; [reflexivity|].
  split; [reflexivity|]. split; [reflexivity|]. split; [reflexivity|].
  vm_compute. discriminate.
Qed.

(** ** Counting labels: [value_counts] *)

Lemma value_count_snoc (l : list string) (x : string) :
  Frame.value_count (l ++ [x])%list = Frame.bump x (Frame.value_count l).
Proof. unfold Frame.value_count. now rewrite fold_left_app. Qed.

Lemma get_bump (x k : string) (T : list (string * nat)) :
  Frame.get (Frame.bump x T) k 0
  = if String.eqb k x then S (Frame.get T x 0) else Frame.get T k 0.
Proof.
  induction T as [|[k' c] T IH]; simpl.
  - reflexivity.
  - destruct (String.eqb_spec x k') as [->|Hx]; simpl.
    + now destruct (String.eqb k k').
    + destruct (String.eqb_spec k k') as [->|Hk].
      * destruct (String.eqb_spec k' x); [congruence | reflexivity].
      * rewrite IH. destruct (String.eqb_spec k x); [|reflexivity].
        destruct (String.eqb_spec x k'); [congruence | reflexivity].
Qed.

Lemma keys_bump (x : string) (T : list (string * nat)) :
  (In x (map fst T) /\ map fst (Frame.bump x T) = map fst T)
  \/ (~ In x (map fst T) /\ map fst (Frame.bump x T) = (map fst T ++ [x])%list).
Proof.
  induction T as [|[k' c] T IH]; simpl.
  - right. tauto.
  - destruct (String.eqb_spec x k') as [->|Hx]; simpl.
    + left. tauto.
    + destruct IH as [[H1 H2]|[H1 H2]]; rewrite H2.
      * left. tauto.
      * right. split; [|reflexivity]. intros [H|H]; [congruence | tauto].
Qed.

Lemma get_value_count (l : list string) (k : string) :
  Frame.get (Frame.value_count l) k 0 = count_occ string_dec l k.
Proof.
  induction l as [|x l IH] using rev_ind; [reflexivity|].
  rewrite value_count_snoc, get_bump, count_occ_app. simpl.
  destruct (String.eqb_spec k x) as [->|Hk].
  - rewrite IH. destruct (string_dec x x); [lia | congruence].
  - rewrite IH. destruct (string_dec x k); [congruence | lia].
Qed.

Lemma keys_value_count (l : list string) :
  NoDup (map fst (Frame.value_count l))
  /\ (forall k, In k (map fst (Frame.value_count l)) <-> In k l)
  /\ (forall k k', k <> k' ->
                   precedes k k' (map fst (Frame.value_count l)) ->
                   precedes k k' l).
Proof.
  induction l as [|x l [IH1 [IH2 IH3]]] using rev_ind.
  - split; [constructor|]. split; [tauto|].
    intros k k' _ [pre [post [H _]]]. destruct pre; discriminate.
  - rewrite value_count_snoc.
    destruct (keys_bump x (Frame.value_count l)) as [[H1 H2]|[H1 H2]];
      rewrite H2.
    + split; [assumption|]. split.
      * intro k. rewrite in_app_iff, IH2. simpl. split; [tauto|].
        intros [H|[<-|[]]]; [assumption | now apply IH2].
      * intros k k' Hne Hp. destruct (IH3 k k' Hne Hp) as [pre [post [E Hn]]].
        exists pre, (post ++ [x])%list. split; [|assumption].
        rewrite E, <- app_assoc. reflexivity.
    + split.
      * apply NoDup_app; [assumption | repeat constructor; simpl; tauto |].
        intros a Ha [<-|[]]. contradiction.
      * split.
        -- intro k. rewrite !in_app_iff, IH2. tauto.
        -- intros k k' Hne [pre [post [E Hn]]].
           destruct post as [|p post] using rev_ind.
           ++ apply app_inj_tail in E. destruct E as [E ->].
              exists l, []. split; [reflexivity|].
              intro Hk. apply Hn. rewrite <- E. now apply IH2.
           ++ clear IHpost.
              change (pre ++ k :: post ++ [p])%list
                with (pre ++ (k :: post) ++ [p])%list in E.
              rewrite app_assoc in E. apply app_inj_tail in E.
              destruct E as [E ->].
              destruct (IH3 k k' Hne) as [pre' [post' [E' Hn']]].
              { exists pre, post. split; assumption. }
              exists pre', (post' ++ [p])%list. split; [|assumption].
              rewrite E', <- app_assoc. reflexivity.
Qed.

Lemma get_In (T : list (string * nat)) (k : string) (c : nat) :
  NoDup (map fst T) -> (In (k, c) T <-> In k (map fst T) /\ Frame.get T k 0 = c).
Proof.
  induction T as [|[k' c'] T IH]; simpl; intro Hnd; [tauto|].
  inversion Hnd as [|? ? Hnotin Hnd']; subst.
  destruct (String.eqb_spec k k') as [->|Hk].
  - split.
    + intros [H|H]; [injection H as ->; tauto|].
      exfalso. apply Hnotin. apply in_map_iff. now exists (k', c).
    + intros [_ ->]. now left.
  - rewrite (IH Hnd'). split.
    + intros [H|H]; [congruence | tauto].
    + intros [[H|H] H']; [congruence | tauto].
Qed.

(** The rows of the hash pass: one per label that occurs, with its number of
    occurrences. *)
Lemma value_count_In (l : list string) (k : string) (c : nat) :
  In (k, c) (Frame.value_count l) <-> In k l /\ c = count_occ string_dec l k.
Proof.
  destruct (keys_value_count l) as [Hnd [Hkeys _]].
  rewrite (get_In _ _ _ Hnd), Hkeys, get_value_count.
  split; intros [H1 H2]; split; congruence.
Qed.

(** ** Sorting rows *)

Section SortFacts.
Context {A K : Type} (key : A -> K) (geb : K -> K -> bool).

Lemma insert_desc_In (x y : A) (l : list A) :
  In y (Frame.insert_desc key geb x l) <-> y = x \/ In y l.
Proof.
  induction l as [|z l IH]; simpl.
  - split; [intros [H|[]]; auto | intros [H|[]]; auto].
  - destruct (geb (key x) (key z)); simpl; [|rewrite IH];
      intuition congruence.
Qed.

Lemma sort_values_desc_In (y : A) (l : list A) :
  In y (Frame.sort_values_desc key geb l) <-> In y l.
Proof.
  induction l as [|x l IH]; simpl; [tauto|].
  rewrite insert_desc_In, IH. intuition congruence.
Qed.
End SortFacts.

Lemma value_counts_In (l : list string) (k : string) (c : nat) :
  In (k, c) (Frame.value_counts l) <-> In k l /\ c = count_occ string_dec l k.
Proof.
  unfold Frame.value_counts. rewrite sort_values_desc_In.
  apply value_count_In.
Qed.

Section SortOrder.
Context {A K : Type} (key : A -> K) (geb : K -> K -> bool).
Hypothesis geb_total : forall a b, geb a b = true \/ geb b a = true.
Hypothesis geb_trans :
  forall a b c, geb a b = true -> geb b c = true -> geb a c = true.

Lemma insert_desc_Permutation (x : A) (l : list A) :
  Permutation (x :: l) (Frame.insert_desc key geb x l).
Proof.
  induction l as [|y l IH]; simpl; [reflexivity|].
  destruct (geb (key x) (key y)); [reflexivity|].
  rewrite perm_swap. now constructor.
Qed.

Lemma sort_values_desc_Permutation (l : list A) :
  Permutation l (Frame.sort_values_desc key geb l).
Proof.
  induction l as [|x l IH]; simpl; [constructor|].
  rewrite <- insert_desc_Permutation. now constructor.
Qed.

Lemma insert_desc_sorted (x : A) (l : list A) :
  StronglySorted (fun a b => geb (key a) (key b) = true) l ->
  StronglySorted (fun a b => geb (key a) (key b) = true)
                 (Frame.insert_desc key geb x l).
Proof.
  induction 1 as [|y l Hs IH Hy]; simpl.
  - constructor; constructor.
  - destruct (geb (key x) (key y)) eqn:E.
    + constructor; [now constructor|]. constructor; [assumption|].
      rewrite Forall_forall in *. intros z Hz. eapply geb_trans; eauto.
    + constructor; [assumption|].
      rewrite Forall_forall in *. intros z Hz.
      apply insert_desc_In in Hz. destruct Hz as [->|Hz]; [|auto].
      destruct (geb_total (key x) (key y)); congruence.
Qed.

Lemma sort_values_desc_sorted (l : list A) :
  StronglySorted (fun a b => geb (key a) (key b) = true)
                 (Frame.sort_values_desc key geb l).
Proof.
  induction l as [|x l IH]; simpl; [constructor|].
  now apply insert_desc_sorted.
Qed.
End SortOrder.

Lemma nat_geb_total (a b : nat) : Nat.leb b a = true \/ Nat.leb a b = true.
Proof. rewrite !Nat.leb_le. lia. Qed.

Lemma nat_geb_trans (a b c : nat) :
  Nat.leb b a = true -> Nat.leb c b = true -> Nat.leb c a = true.
Proof. rewrite !Nat.leb_le. lia. Qed.

Lemma StronglySorted_weaken {A : Type} (P R : A -> A -> Prop) (l : list A) :
  (forall a b, P a b -> R a b) -> StronglySorted P l -> StronglySorted R l.
Proof.
  intros HPR. induction 1 as [|x l Hs IH Hx]; constructor; [assumption|].
  rewrite Forall_forall in *. auto.
Qed.

(** ** Joining counts with region profiles *)

Lemma merge_In (m : Frame.merged) (counts : list (string * nat))
      (pop : list Pop.row) :
  In m (Frame.merge counts pop)
  <-> exists c p,
        In (Frame.region m, c) counts /\ In p pop
        /\ Pop.region p = Frame.region m
        /\ m = Frame.mk_merged (Frame.region m) c (Pop.population p)
                               (Pop.area_sqkm p) (Pop.density p).
Proof.
  unfold Frame.merge. rewrite in_flat_map. split.
  - intros [[r c] [Hrc Hm]]. apply in_map_iff in Hm.
    destruct Hm as [p [<- Hp]]. apply filter_In in Hp.
    destruct Hp as [Hp Hr]. apply String.eqb_eq in Hr. simpl.
    exists c, p. subst r. auto.
  - intros [c [p [Hc [Hp [Hr Hm]]]]]. exists (Frame.region m, c).
    split; [assumption|]. apply in_map_iff. exists p. split; [now symmetry|].
    apply filter_In. split; [assumption | now apply String.eqb_eq].
Qed.

(** The regions of the joined frame: those with a case and a profile. *)
Lemma merge_value_counts_regions (col : list string) (pop : list Pop.row)
      (region : string) :
  (exists m, In m (Frame.merge (Frame.value_counts col) pop)
             /\ Frame.region m = region)
  <-> In region col /\ In region (map Pop.region pop).
Proof.
  split.
  - intros [m [Hm <-]]. apply merge_In in Hm.
    destruct Hm as [c [p [Hc [Hp [Hr _]]]]]. apply value_counts_In in Hc.
    split; [tauto|]. apply in_map_iff. now exists p.
  - intros [Hcol Hpop]. apply in_map_iff in Hpop. destruct Hpop as [p [Hr Hp]].
    exists (Frame.mk_merged region (count_occ string_dec col region)
                            (Pop.population p) (Pop.area_sqkm p)
                            (Pop.density p)).
    split; [|reflexivity]. apply merge_In. simpl.
    exists (count_occ string_dec col region), p.
    split; [now apply value_counts_In|]. auto.
Qed.

(** C1 (as the code has it). The "Cases per 100,000 Population" chart and
    the prevalence frame of the high-risk analysis are built by an inner join
    of the region counts with the profile table: a region has an entry
    exactly when it has at least one (filtered) case record and a profile, and
    its rate is its count over its population, times 100,000. A profile
    region without case records has no entry. *)
Theorem per_capita_rates_cover_regions_with_cases :
  forall (now : Calendar.datetime) (rv tv : string)
         (hiv_data : list Hiv.row) (population_data : list Pop.row),
  exists bars,
    Regional.update_regional_analysis
      now rv tv "Cases per 100,000 Population" hiv_data population_data
    = Regional.CasesPer100k bars
    /\ (forall region,
           (exists rate, In (region, rate) (Regional.rate_mapping bars))
           <-> In region
                  (map Hiv.region (Regional.filtered_data now rv tv hiv_data))
               /\ In region (map Pop.region population_data))
    /\ (forall m rate,
           In (m, rate) bars ->
           Frame.cases m
           = count_occ string_dec
               (map Hiv.region (Regional.filtered_data now rv tv hiv_data))
               (Frame.region m)
           /\ rate = (true_divide (Z.of_nat (Frame.cases m))
                                  (Frame.population m) * inject_Z 100000)%Q)
    /\ (forall region,
           (exists m, In m (Population.merged_data hiv_data population_data)
                      /\ Frame.region m = region)
           <-> In region (map Hiv.region hiv_data)
               /\ In region (map Pop.region population_data)).
Proof.
  intros now rv tv hiv_data population_data.
  eexists. split; [reflexivity|].
  set (fd := Regional.filtered_data now rv tv hiv_data).
  unfold Regional.per_100k_frame, Regional.rate_mapping. cbv zeta.
  split; [|split].
  - intro region.
    rewrite <- (merge_value_counts_regions (map Hiv.region fd)
                  population_data region).
    split.
    + intros [rate H]. apply in_map_iff in H. destruct H as [[m q] [E H]].
      injection E as <- <-. apply sort_values_desc_In in H.
      apply in_map_iff in H. destruct H as [m' [E H]].
      injection E as -> _. now exists m.
    + intros [m [Hm <-]]. exists (Regional.cases_per_100k m).
      apply in_map_iff. exists (m, Regional.cases_per_100k m).
      split; [reflexivity|]. apply sort_values_desc_In.
      apply in_map_iff. now exists m.
  - intros m rate H. apply sort_values_desc_In in H.
    apply in_map_iff in H. destruct H as [m' [E H]]. injection E as -> <-.
    split; [|reflexivity]. apply merge_In in H.
    destruct H as [c [p [Hc [_ [_ Hm]]]]]. apply value_counts_In in Hc.
    rewrite Hm. simpl. tauto.
  - intro region. apply merge_value_counts_regions.
Qed.

(** C1 (as stated) fails: with the fourteen profiles of [load_dummy_data] and
    a single case in Erongo, the rate mapping has the one entry "Erongo";
    "Hardap" has a profile and no entry, in the chart frame and in the
    prevalence frame alike. *)
Lemma region_without_cases_is_omitted :
  exists bars,
    Regional.update_regional_analysis
      (Calendar.date 2026 11 4) "All" "All Time"
      "Cases per 100,000 Population"
      [case_on "Erongo" (Calendar.date 2020 1 5)] Data.population_data
    = Regional.CasesPer100k bars
    /\ map fst (Regional.rate_mapping bars) = ["Erongo"]
    /\ map Frame.region
           (Population.merged_data
              [case_on "Erongo" (Calendar.date 2020 1 5)]
              Data.population_data) = ["Erongo"]
    /\ In "Hardap" (map Pop.region Data.population_data)
    /\ ~ In "Hardap" (map fst (Regional.rate_mapping bars)).
Proof.
  eexists. split; [reflexivity|]. split; [reflexivity|].
  split; [reflexivity|]. split; [vm_compute; tauto|].
  vm_compute. intros [H|[]]. discriminate.
Qed.

(** ** High-risk areas and correlation *)

(** C7 (as the code has it). [update_high_risk_areas] makes no check of the
    threshold: for every threshold, a row of the merged frame is in the
    high-risk frame exactly when its prevalence is greater than or equal to
    the threshold, and a region is coloured high-risk exactly when it has
    such a row. *)
Theorem high_risk_is_inclusive_threshold_filter :
  forall (hiv_data : list Hiv.row) (population_data : list Pop.row)
         (threshold : Q),
    (forall m,
        In m (Population.update_high_risk_areas hiv_data population_data
                                                threshold)
        <-> In m (Population.merged_data hiv_data population_data)
            /\ (threshold <= Population.prevalence m)%Q)
    /\ (forall region,
           Population.is_high_risk
             (Population.update_high_risk_areas hiv_data population_data
                                                threshold) region = true
           <-> exists m,
                 In m (Population.merged_data hiv_data population_data)
                 /\ Frame.region m = region
                 /\ (threshold <= Population.prevalence m)%Q).
Proof.
  intros hiv_data population_data threshold.
  assert (H : forall m,
    In m (Population.update_high_risk_areas hiv_data population_data threshold)
    <-> In m (Population.merged_data hiv_data population_data)
        /\ (threshold <= Population.prevalence m)%Q).
  { intro m. unfold Population.update_high_risk_areas. cbv zeta.
    now rewrite filter_In, Qle_bool_iff. }
  split; [exact H|]. intro region. unfold Population.is_high_risk.
  rewrite existsb_exists. split.
  - intros [m [Hm Hr]]. apply String.eqb_eq in Hr. apply H in Hm.
    exists m. tauto.
  - intros [m [Hm [Hr Ht]]]. exists m. split; [apply H; tauto|].
    now apply String.eqb_eq.
Qed.

(** C7 (as stated) fails: thresholds outside (0, 1] are not rejected. With
    the cases of early 2020, the threshold 2 yields the empty high-risk frame
    and the threshold 0 yields every merged region. *)
Lemma high_risk_accepts_any_threshold :
  ~ Spec.threshold_in_range (2 # 1)
  /\ Population.update_high_risk_areas cases_early_2020 Data.population_data
                                       (2 # 1) = []
  /\ ~ Spec.threshold_in_range 0
  /\ map Frame.region
         (Population.update_high_risk_areas cases_early_2020
                                            Data.population_data 0)
     = ["Khomas"; "Erongo"].
Proof.
  split; [|split; [reflexivity | split; [|reflexivity]]].
  - intros [_ H]. revert H. vm_compute. intro H. now apply H.
  - intros [H _]. revert H. vm_compute. discriminate.
Qed.

(** C6 (as the code has it). [show_correlation_analysis] makes no check of
    the number of paired observations: it always yields a value for
    [corr_result_var], and with fewer than two merged rows that value is
    NaN. *)
Theorem correlation_of_few_points_is_nan :
  forall (hiv_data : list Hiv.row) (population_data : list Pop.row),
    (List.length (Population.merged_data hiv_data population_data) < 2)%nat ->
    Population.show_correlation_analysis hiv_data population_data
    = Frame.PNaN.
Proof.
  intros hiv_data population_data H.
  unfold Population.show_correlation_analysis, Frame.corr. cbv zeta.
  rewrite length_map.
  destruct (Nat.ltb_spec
              (List.length (Population.merged_data hiv_data population_data))
              2); [reflexivity | lia].
Qed.

Lemma correlation_of_few_points_is_nan_witness :
  Population.show_correlation_analysis
    [case_on "Khomas" (Calendar.date 2020 1 5)] Data.population_data
  = Frame.PNaN.
Proof.
  apply (correlation_of_few_points_is_nan
           [case_on "Khomas" (Calendar.date 2020 1 5)] Data.population_data).
  vm_compute. lia.
Defined.

(** C6 (as stated) fails: with a single case, in Erongo, there is one paired
    observation, and the analysis yields NaN as its correlation instead of
    failing. *)
Lemma correlation_of_one_point_is_returned :
  List.length (Population.merged_data
                 [case_on "Erongo" (Calendar.date 2020 1 5)]
                 Data.population_data) = 1%nat
  /\ Population.show_correlation_analysis
       [case_on "Erongo" (Calendar.date 2020 1 5)] Data.population_data
     = Frame.PNaN.
Proof. split; reflexivity. Qed.

(** ** The region with the highest count *)

Lemma first_max_insert (x : string * nat) (s : list (string * nat)) :
  Frame.first_max (Frame.insert_desc snd (fun a b => Nat.leb b a) x s)
  = Frame.first_max (x :: s).
Proof.
  induction s as [|y s IH]; [reflexivity|].
  cbn [Frame.insert_desc]. destruct (Nat.leb_spec (snd y) (snd x)) as [H|H];
    [reflexivity|].
  cbn [Frame.first_max] in *. rewrite IH.
  destruct (Frame.first_max s) as [b|].
  - destruct (Nat.ltb_spec (snd x) (snd b)), (Nat.ltb_spec (snd y) (snd b));
      cbn [snd]; try reflexivity;
      repeat match goal with
             | |- context [Nat.ltb ?a ?b] => destruct (Nat.ltb_spec a b)
             end; try reflexivity; lia.
  - destruct (Nat.ltb_spec (snd y) (snd x)), (Nat.ltb_spec (snd x) (snd y));
      try reflexivity; lia.
Qed.

(** The stable descending sort does not change which row [idxmax] finds. *)
Lemma first_max_sort (s : list (string * nat)) :
  Frame.first_max (Frame.sort_values_desc snd (fun a b => Nat.leb b a) s)
  = Frame.first_max s.
Proof.
  induction s as [|x s IH]; [reflexivity|].
  cbn [Frame.sort_values_desc]. rewrite first_max_insert.
  cbn [Frame.first_max]. now rewrite IH.
Qed.

Lemma first_max_nonempty (s : list (string * nat)) :
  s <> [] -> exists b, Frame.first_max s = Some b.
Proof.
  destruct s as [|x s]; [contradiction|]. intros _. cbn [Frame.first_max].
  destruct (Frame.first_max s) as [b|]; [|eauto].
  destruct (Nat.ltb (snd x) (snd b)); eauto.
Qed.

(** [first_max] finds a row of largest value. *)
Lemma first_max_max (s : list (string * nat)) (k : string) (c : nat) :
  Frame.first_max s = Some (k, c) ->
  In (k, c) s /\ forall k' c', In (k', c') s -> (c' <= c)%nat.
Proof.
  revert k c. induction s as [|[kx cx] s IH]; intros k c H; [discriminate|].
  cbn [Frame.first_max] in H.
  destruct (Frame.first_max s) as [[kb cb]|] eqn:E.
  - destruct (IH kb cb eq_refl) as [Hin Hmax]. cbn [snd] in H.
    destruct (Nat.ltb_spec cx cb) as [Hlt|Hge]; injection H as <- <-.
    + split; [now right|]. intros k' c' [Hx|Hs].
      * injection Hx as <- <-. lia.
      * now apply (Hmax k' c').
    + split; [now left|]. intros k' c' [Hx|Hs].
      * injection Hx as <- <-. lia.
      * specialize (Hmax k' c' Hs). lia.
  - injection H as <- <-. split; [now left|].
    destruct s as [|y s].
    + intros k' c' [Hx|[]]. injection Hx as <- <-. lia.
    + exfalso. destruct (first_max_nonempty (y :: s)) as [b Hb];
        [discriminate | congruence].
Qed.

(** On rows arranged by non-increasing count, [idxmax] finds the first
    row. *)
Lemma first_max_sorted (s : list (string * nat)) :
  StronglySorted (fun a b => (snd b <= snd a)%nat) s ->
  Frame.first_max s = hd_error s.
Proof.
  intro Hs. destruct s as [|x s]; [reflexivity|].
  inversion Hs as [|? ? _ Hx]; subst. cbn [Frame.first_max hd_error].
  destruct (Frame.first_max s) as [[kb cb]|] eqn:E; [|reflexivity].
  destruct (first_max_max s kb cb E) as [Hin _].
  rewrite Forall_forall in Hx. specialize (Hx _ Hin). cbn [snd] in *.
  destruct (Nat.ltb_spec (snd x) cb); [lia | reflexivity].
Qed.

(** The arrangement of [Frame.value_counts] is one of the admissible ones. *)
Lemma sort_values_desc_arrangement (rows : list (string * nat)) :
  descending_arrangement
    rows (Frame.sort_values_desc snd (fun a b => Nat.leb b a) rows).
Proof.
  split; [apply sort_values_desc_Permutation|].
  eapply StronglySorted_weaken;
    [|apply (sort_values_desc_sorted snd (fun a b => Nat.leb b a))].
  - intros a b H. cbv beta in H. now apply Nat.leb_le in H.
  - intros a b. apply nat_geb_total.
  - intros a b c. apply nat_geb_trans.
Qed.

Lemma highest_region_by_value_counts (fd : list Hiv.row) :
  HivMap.highest_region fd
  = highest_region_by (Frame.sort_values_desc snd (fun a b => Nat.leb b a))
                      fd.
Proof. destruct fd; reflexivity. Qed.

(** C8 (as the code has it). For a non-empty filtered frame, and whichever
    way the descending sort of [value_counts] arranges equal counts, the
    "Highest Region" is a region of the frame of largest count, reported
    with that count: the region whose row the arrangement puts first. The
    fixed region list plays no part in it. *)
Theorem highest_region_has_maximum_count :
  forall (sort : list (string * nat) -> list (string * nat))
         (fd : list Hiv.row),
    (forall rows, descending_arrangement rows (sort rows)) ->
    fd <> [] ->
    exists (r : string) (c : nat),
      highest_region_by sort fd = Some (r, c)
      /\ hd_error (sort (Frame.value_count (map Hiv.region fd))) = Some (r, c)
      /\ In r (map Hiv.region fd)
      /\ c = count_occ string_dec (map Hiv.region fd) r
      /\ (forall r', (count_occ string_dec (map Hiv.region fd) r' <= c)%nat).
Proof.
  intros sort fd Hsort Hne.
  assert (E : highest_region_by sort fd
              = Frame.first_max
                  (sort (Frame.value_count (map Hiv.region fd)))).
  { destruct fd; [contradiction | reflexivity]. }
  set (col := map Hiv.region fd) in *.
  destruct (Hsort (Frame.value_count col)) as [Hperm Hsorted].
  assert (Hin : forall k, In k col ->
                  In (k, count_occ string_dec col k)
                     (sort (Frame.value_count col))).
  { intros k Hk. apply (Permutation_in _ Hperm).
    apply value_count_In. tauto. }
  destruct (first_max_nonempty (sort (Frame.value_count col))) as [[r c] Hb].
  { destruct fd as [|x fd]; [contradiction|]. intro E0.
    specialize (Hin (Hiv.region x) (or_introl eq_refl)).
    rewrite E0 in Hin. exact Hin. }
  destruct (first_max_max _ _ _ Hb) as [Hrc Hmax].
  apply (Permutation_in _ (Permutation_sym Hperm)) in Hrc.
  apply value_count_In in Hrc. destruct Hrc as [Hr Hc].
  exists r, c. split; [congruence|].
  split; [now rewrite <- (first_max_sorted _ Hsorted)|].
  split; [assumption|]. split; [assumption|].
  intro r'. destruct (in_dec string_dec r' col) as [Hr'|Hr'].
  - now apply (Hmax r' _ (Hin r' Hr')).
  - apply (count_occ_not_In string_dec) in Hr'. lia.
Qed.

(** Khomas occurs three times among the cases of early 2020 and is their
    highest region. *)
Lemma highest_region_has_maximum_count_witness :
  exists (r : string) (c : nat),
    HivMap.highest_region cases_early_2020 = Some (r, c)
    /\ c = count_occ string_dec (map Hiv.region cases_early_2020) r.
Proof.
  destruct (highest_region_has_maximum_count
              (Frame.sort_values_desc snd (fun a b => Nat.leb b a))
              cases_early_2020)
    as [r [c [H1 [_ [_ [H2 _]]]]]].
  - apply sort_values_desc_arrangement.
  - discriminate.
  - exists r, c. split; [|assumption].
    now rewrite highest_region_by_value_counts.
Defined.

(** The arrangement of [Frame.value_counts] goes by the counts alone. *)
Lemma insert_desc_relabel (rho : string -> string) (x : string * nat)
      (rows : list (string * nat)) :
  Frame.insert_desc snd (fun a b => Nat.leb b a) (relabel rho x)
                    (map (relabel rho) rows)
  = map (relabel rho) (Frame.insert_desc snd (fun a b => Nat.leb b a) x rows).
Proof.
  induction rows as [|y rows IH]; [reflexivity|].
  cbn [map Frame.insert_desc]. cbn [relabel snd].
  destruct (Nat.leb (snd y) (snd x)); [reflexivity|].
  cbn [map]. now rewrite IH.
Qed.

Lemma sort_values_desc_label_blind :
  label_blind (Frame.sort_values_desc snd (fun a b => Nat.leb b a)).
Proof.
  intros rho rows. induction rows as [|x rows IH]; [reflexivity|].
  cbn [map Frame.sort_values_desc]. rewrite IH. apply insert_desc_relabel.
Qed.

(** C8 (as stated) fails. Take one case in Hardap recorded before one case
    in Erongo, and the same two cases with the regions exchanged. In both
    frames the two regions tie at one case each, and "Erongo" comes before
    "Hardap" in the fixed region list. Whichever way the descending sort
    arranges equal counts, as long as it goes by the counts alone (as the
    arrangement of [Frame.value_counts] does), one of the two frames has
    "Hardap" as its highest region. *)
Lemma highest_region_ignores_canonical_order :
  (Spec.index_of "Erongo" Data.regions
   < Spec.index_of "Hardap" Data.regions)%nat
  /\ count_occ string_dec (map Hiv.region hardap_then_erongo) "Erongo" = 1%nat
  /\ count_occ string_dec (map Hiv.region hardap_then_erongo) "Hardap" = 1%nat
  /\ count_occ string_dec (map Hiv.region erongo_then_hardap) "Erongo" = 1%nat
  /\ count_occ string_dec (map Hiv.region erongo_then_hardap) "Hardap" = 1%nat
  /\ (forall rows,
         descending_arrangement
           rows (Frame.sort_values_desc snd (fun a b => Nat.leb b a) rows))
  /\ label_blind (Frame.sort_values_desc snd (fun a b => Nat.leb b a))
  /\ (forall sort : list (string * nat) -> list (string * nat),
         (forall rows, descending_arrangement rows (sort rows)) ->
         label_blind sort ->
         highest_region_by
           sort (HivMap.filtered_data (Calendar.date 2026 11 4) no_filter
                                      hardap_then_erongo)
         = Some ("Hardap", 1%nat)
         \/ highest_region_by
              sort (HivMap.filtered_data (Calendar.date 2026 11 4) no_filter
                                         erongo_then_hardap)
            = Some ("Hardap", 1%nat)).
Proof.
  split; [vm_compute; lia|]. do 4 (split; [reflexivity|]).
  split; [exact sort_values_desc_arrangement|].
  split; [exact sort_values_desc_label_blind|].
  intros sort Hsort Hblind.
  change (highest_region_by
            sort (HivMap.filtered_data (Calendar.date 2026 11 4) no_filter
                                       hardap_then_erongo))
    with (Frame.first_max (sort [("Hardap", 1%nat); ("Erongo", 1%nat)])).
  change (highest_region_by
            sort (HivMap.filtered_data (Calendar.date 2026 11 4) no_filter
                                       erongo_then_hardap))
    with (Frame.first_max (sort [("Erongo", 1%nat); ("Hardap", 1%nat)])).
  destruct (Hsort [("Hardap", 1%nat); ("Erongo", 1%nat)]) as [Hperm _].
  apply Permutation_length_2_inv in Hperm. destruct Hperm as [E|E].
  - left. rewrite E. reflexivity.
  - right.
    pose (rho := fun s : string =>
                   if String.eqb s "Erongo" then "Hardap"
                   else if String.eqb s "Hardap" then "Erongo" else s).
    change [("Erongo", 1%nat); ("Hardap", 1%nat)]
      with (map (relabel rho) [("Hardap", 1%nat); ("Erongo", 1%nat)]).
    rewrite Hblind, E. reflexivity.
Qed.

(* ===================================================================== *)
(** * Further properties of the callbacks                                 *)
(* ===================================================================== *)

(** ** Resampling keeps every record *)

Lemma sum_map_add {A : Type} (g h : A -> nat) (l : list A) :
  Frame.sum (map (fun b => (g b + h b)%nat) l)
  = (Frame.sum (map g l) + Frame.sum (map h l))%nat.
Proof.
  unfold Frame.sum. induction l as [|x l IH]; simpl; [reflexivity|].
  rewrite IH. lia.
Qed.

Lemma sum_indicator (k : Z) (bs : list Z) :
  NoDup bs -> In k bs ->
  Frame.sum (map (fun b => if k =? b then 1%nat else 0%nat) bs) = 1%nat.
Proof.
  unfold Frame.sum. induction bs as [|b bs IH]; intros Hnd Hin; [contradiction|].
  inversion Hnd as [|? ? Hnotin Hnd']; subst. simpl.
  destruct (Z.eqb_spec k b) as [->|Hne].
  - assert (E : fold_right Nat.add 0%nat
                  (map (fun b0 => if b =? b0 then 1%nat else 0%nat) bs)
                = 0%nat).
    { clear IH Hnd Hnd' Hin. induction bs as [|c bs IH]; [reflexivity|].
      simpl. destruct (Z.eqb_spec b c) as [->|_].
      - exfalso. apply Hnotin. now left.
      - apply IH. intro H. apply Hnotin. now right. }
    rewrite E. reflexivity.
  - destruct Hin as [->|Hin]; [contradiction|]. now rewrite IH.
Qed.

(** Over a duplicate-free list of bins that covers every date, the bin sizes
    add up to the number of dates. *)
Lemma sum_bins (f : Temporal.freq) (bs : list Z)
      (dates : list Calendar.datetime) :
  NoDup bs ->
  (forall d, In d dates -> In (Temporal.bucket f d) bs) ->
  Frame.sum (map (Temporal.bin_size f dates) bs) = List.length dates.
Proof.
  intros Hnd. induction dates as [|d ds IH]; intro Hcov.
  - unfold Temporal.bin_size. simpl. unfold Frame.sum.
    clear Hnd Hcov. induction bs; simpl; auto.
  - rewrite (map_ext _ (fun b => ((if Z.eqb (Temporal.bucket f d) b
                                    then 1 else 0)
                                   + Temporal.bin_size f ds b)%nat)).
    + rewrite sum_map_add, sum_indicator, IH; auto.
      * intros x Hx. apply Hcov. now right.
      * apply Hcov. now left.
    + intro b. unfold Temporal.bin_size. simpl.
      now destruct (Temporal.bucket f d =? b).
Qed.

Lemma bucket_range_NoDup (lo hi : Z) : NoDup (Temporal.bucket_range lo hi).
Proof.
  unfold Temporal.bucket_range. apply Finite.Injective_map_NoDup.
  - intros i j H. lia.
  - apply seq_NoDup.
Qed.

Lemma resample_values (f : Temporal.freq) (dates : list Calendar.datetime)
      (lo hi : Z) :
  map snd (map (fun b => (b, Temporal.bin_size f dates b))
               (Temporal.bucket_range lo hi))
  = map (Temporal.bin_size f dates) (Temporal.bucket_range lo hi).
Proof. rewrite map_map. reflexivity. Qed.

Lemma dates_in_range (f : Temporal.freq) (dates : list Calendar.datetime)
      (d1 d2 d : Calendar.datetime) :
  Forall (fun d => Calendar.valid d = true) dates ->
  In d1 dates -> In d2 dates -> In d dates ->
  Calendar.leb d1 d = true -> Calendar.leb d d2 = true ->
  Temporal.bucket f d1 <= Temporal.bucket f d <= Temporal.bucket f d2.
Proof.
  intros Hvalid H1 H2 Hd Ha Hb. rewrite Forall_forall in Hvalid.
  split; apply bucket_monotone;
    try (apply valid_month; auto); now apply leb_not_before.
Qed.

(** The values of a resampled Series add up to the number of dates. *)
Lemma resample_sum_length (f : Temporal.freq)
      (dates : list Calendar.datetime) :
  Forall (fun d => Calendar.valid d = true) dates ->
  Frame.sum (map snd (Temporal.resample_size f dates)) = List.length dates.
Proof.
  intros Hvalid. destruct dates as [|d0 rest]; [reflexivity|].
  destruct (resample_size_shape f (d0 :: rest)) as
    [d1 [d2 [H1 [H2 [Hord [Hle Hshape]]]]]]; [discriminate | assumption |].
  rewrite Hshape, resample_values. apply sum_bins.
  - apply bucket_range_NoDup.
  - intros d Hd. apply bucket_range_In.
    destruct (Hord d Hd) as [Ha Hb].
    now apply (dates_in_range f (d0 :: rest)).
Qed.

(** X1. Resampling loses and invents no record: on a non-empty frame of
    validly dated records, at each of the three frequencies, the call yields
    a Series whose values add up to the number of records. On a frame
    without rows the call raises AttributeError. *)
Theorem resample_conserves_records :
  forall (f : Temporal.freq) (fd : list Hiv.row),
    Forall (fun r => Calendar.valid (Hiv.diagnosis_date r) = true) fd ->
    (fd <> [] ->
     exists series,
       Temporal.resample f (map Hiv.diagnosis_date fd) = Py.Ok series
       /\ Frame.sum (map snd series) = List.length fd)
    /\ (fd = [] ->
        Temporal.resample f (map Hiv.diagnosis_date fd)
        = Py.Raise Py.AttributeError).
Proof.
  intros f fd Hvalid. split.
  - intro Hne. rewrite (resample_nonempty f fd Hne). eexists.
    split; [reflexivity|].
    rewrite resample_sum_length, length_map; [reflexivity|].
    rewrite Forall_forall in *. intros d Hd. apply in_map_iff in Hd.
    destruct Hd as [r [<- Hr]]. auto.
  - intros ->. reflexivity.
Qed.

(** The four cases of early 2020 fall in one quarter; a frame without rows
    raises. *)
Lemma resample_conserves_records_witness :
  (exists series,
      Temporal.resample Temporal.Quarter
                        (map Hiv.diagnosis_date cases_early_2020)
      = Py.Ok series
      /\ Frame.sum (map snd series) = List.length cases_early_2020)
  /\ Temporal.resample Temporal.Quarter (map Hiv.diagnosis_date [])
     = Py.Raise Py.AttributeError.
Proof.
  split.
  - apply (resample_conserves_records Temporal.Quarter cases_early_2020).
    + repeat constructor.
    + discriminate.
  - apply (resample_conserves_records Temporal.Quarter []).
    + constructor.
    + reflexivity.
Defined.

Lemma bin_size_pos (f : Temporal.freq) (dates : list Calendar.datetime)
      (d : Calendar.datetime) :
  In d dates -> (1 <= Temporal.bin_size f dates (Temporal.bucket f d))%nat.
Proof.
  intro Hd. unfold Temporal.bin_size.
  assert (Hf : In d (filter (fun x => Temporal.bucket f x
                                      =? Temporal.bucket f d) dates)).
  { apply filter_In. split; [assumption | apply Z.eqb_refl]. }
  destruct (filter _ dates); [contradiction | simpl; lia].
Qed.

Lemma bucket_range_ends (lo hi : Z) :
  lo <= hi ->
  hd_error (Temporal.bucket_range lo hi) = Some lo
  /\ last (Temporal.bucket_range lo hi) 0 = hi.
Proof.
  intro Hle. unfold Temporal.bucket_range.
  destruct (Z.to_nat (hi - lo + 1)) as [|m] eqn:E; [lia|]. split.
  - simpl. f_equal. lia.
  - rewrite seq_S, map_app. simpl. rewrite last_last. lia.
Qed.

Lemma last_map_pair {A B : Type} (g : A -> B) (l : list A) (a : A) (b : B) :
  l <> [] -> last (map g l) b = g (last l a).
Proof.
  induction l as [|x l IH]; [contradiction|]. intros _.
  destruct l as [|y l]; [reflexivity|].
  change (last (map g (x :: y :: l)) b) with (last (map g (y :: l)) b).
  change (last (x :: y :: l) a) with (last (y :: l) a).
  apply IH. discriminate.
Qed.

(** X2. The resampled Series of a non-empty frame of validly dated records
    never starts or ends with an empty bucket: its first and its last value
    are at least 1. *)
Theorem resample_end_buckets_nonempty :
  forall (f : Temporal.freq) (dates : list Calendar.datetime),
    dates <> [] ->
    Forall (fun d => Calendar.valid d = true) dates ->
    exists b1 n1 b2 n2,
      hd_error (Temporal.resample_size f dates) = Some (b1, n1)
      /\ last (Temporal.resample_size f dates) (0, 0%nat) = (b2, n2)
      /\ (1 <= n1)%nat /\ (1 <= n2)%nat.
Proof.
  intros f dates Hne Hvalid.
  destruct (resample_size_shape f dates Hne Hvalid)
    as [d1 [d2 [H1 [H2 [_ [Hle Hshape]]]]]].
  destruct (bucket_range_ends _ _ Hle) as [Hhd Hlast].
  exists (Temporal.bucket f d1),
         (Temporal.bin_size f dates (Temporal.bucket f d1)),
         (Temporal.bucket f d2),
         (Temporal.bin_size f dates (Temporal.bucket f d2)).
  rewrite Hshape. split; [|split; [|split]].
  - destruct (Temporal.bucket_range _ _) as [|x l]; [discriminate|].
    simpl in *. now injection Hhd as ->.
  - rewrite (last_map_pair _ _ 0).
    + now rewrite Hlast.
    + intro E. rewrite E in Hhd. discriminate.
  - now apply bin_size_pos.
  - now apply bin_size_pos.
Qed.

Lemma resample_end_buckets_nonempty_witness :
  exists b1 n1 b2 n2,
    hd_error (Temporal.resample_size
                Temporal.Month (map Hiv.diagnosis_date cases_early_2020))
    = Some (b1, n1)
    /\ last (Temporal.resample_size
               Temporal.Month (map Hiv.diagnosis_date cases_early_2020))
            (0, 0%nat) = (b2, n2)
    /\ (1 <= n1)%nat /\ (1 <= n2)%nat.
Proof.
  apply (resample_end_buckets_nonempty
           Temporal.Month (map Hiv.diagnosis_date cases_early_2020)).
  - discriminate.
  - repeat constructor.
Defined.

(** ** The two sides of a policy date *)

Lemma split_lengths (cutoff : Calendar.datetime) (l : list Hiv.row) :
  (List.length (filter (fun r => Calendar.ltb (Hiv.diagnosis_date r) cutoff) l)
   + List.length (filter (fun r => Calendar.geb (Hiv.diagnosis_date r) cutoff)
                         l))%nat
  = List.length l.
Proof.
  induction l as [|x l IH]; [reflexivity|]. simpl. rewrite geb_ltb.
  destruct (Calendar.ltb (Hiv.diagnosis_date x) cutoff); simpl; lia.
Qed.

Lemma valid_dates_filter (p : Hiv.row -> bool) (l : list Hiv.row) :
  Forall (fun x => Calendar.valid (Hiv.diagnosis_date x) = true) l ->
  Forall (fun d => Calendar.valid d = true)
         (map Hiv.diagnosis_date (filter p l)).
Proof.
  rewrite !Forall_forall. intros H d Hd. apply in_map_iff in Hd.
  destruct Hd as [x [<- Hx]]. apply filter_In in Hx. apply H. tauto.
Qed.

(** X3. When each side of the policy date has a selected record,
    [assess_policy_impact] completes and puts every selected record on
    exactly one side: for validly dated records the monthly values of the
    pre-policy Series and of the post-policy Series together add up to the
    number of selected records. *)
Theorem policy_split_conserves_records :
  forall (cutoff : Calendar.datetime) (rv : string) (hiv_data : list Hiv.row),
    Forall (fun x => Calendar.valid (Hiv.diagnosis_date x) = true)
           (region_selection rv hiv_data) ->
    pre_side cutoff rv hiv_data <> [] ->
    post_side cutoff rv hiv_data <> [] ->
    exists r : Regional.impact,
      Regional.assess_policy_impact (Some cutoff) rv hiv_data = Some (Py.Ok r)
      /\ (Frame.sum (map snd (Regional.pre_monthly r))
          + Frame.sum (map snd (Regional.post_monthly r)))%nat
         = List.length (region_selection rv hiv_data).
Proof.
  intros cutoff rv hiv_data Hvalid Hpre Hpost.
  destruct (assess_both_sides cutoff rv hiv_data Hpre Hpost)
    as [r [Hr [Epre [Epost _]]]].
  exists r. split; [exact Hr|]. rewrite Epre, Epost.
  unfold pre_side, post_side.
  rewrite !resample_sum_length by now apply valid_dates_filter.
  rewrite !length_map. apply split_lengths.
Qed.

(** In Khomas, with a policy dated 2020-02-15, the cases of 5 January and
    3 February are before the policy date and the case of 20 February is
    after it. *)
Lemma policy_split_conserves_records_witness :
  exists r : Regional.impact,
    Regional.assess_policy_impact (Some (Calendar.date 2020 2 15)) "Khomas"
                                  cases_early_2020 = Some (Py.Ok r)
    /\ (Frame.sum (map snd (Regional.pre_monthly r))
        + Frame.sum (map snd (Regional.post_monthly r)))%nat
       = List.length (region_selection "Khomas" cases_early_2020).
Proof.
  apply (policy_split_conserves_records (Calendar.date 2020 2 15) "Khomas"
                                        cases_early_2020).
  - repeat constructor.
  - discriminate.
  - discriminate.
Defined.

Lemma resample_keys_bounds (f : Temporal.freq)
      (dates : list Calendar.datetime) (b : Z) (n : nat) :
  Forall (fun d => Calendar.valid d = true) dates ->
  In (b, n) (Temporal.resample_size f dates) ->
  exists d1 d2, In d1 dates /\ In d2 dates
                /\ Temporal.bucket f d1 <= b <= Temporal.bucket f d2.
Proof.
  intros Hvalid Hin. destruct dates as [|d0 rest]; [contradiction|].
  destruct (resample_size_shape f (d0 :: rest)) as
    [d1 [d2 [H1 [H2 [_ [_ Hshape]]]]]]; [discriminate | assumption |].
  rewrite Hshape in Hin. apply in_map_iff in Hin.
  destruct Hin as [b' [E Hb]]. injection E as -> _.
  apply bucket_range_In in Hb. now exists d1, d2.
Qed.

Lemma month_bucket_before (d c : Calendar.datetime) :
  Calendar.valid d = true -> 1 <= Calendar.month c <= 12 ->
  before d c ->
  Temporal.bucket Temporal.Month d <= Temporal.bucket Temporal.Month c
  /\ (Calendar.day c = 1 -> Calendar.usec c = 0 ->
      Temporal.bucket Temporal.Month d < Temporal.bucket Temporal.Month c).
Proof.
  unfold Calendar.valid, before, Temporal.bucket.
  rewrite !andb_true_iff, !Z.leb_le, Z.ltb_lt. lia.
Qed.

(** X4. When each side of the policy date has a selected record, the
    pre-policy Series never reaches past the month of the policy date and
    the post-policy Series never starts before it, so the two Series can
    share at most that one month; when the policy date is the first day of a
    month at midnight they share none. *)
Theorem policy_sides_meet_at_cutoff_month :
  forall (cutoff : Calendar.datetime) (rv : string) (hiv_data : list Hiv.row),
    1 <= Calendar.month cutoff <= 12 ->
    Forall (fun x => Calendar.valid (Hiv.diagnosis_date x) = true)
           (region_selection rv hiv_data) ->
    pre_side cutoff rv hiv_data <> [] ->
    post_side cutoff rv hiv_data <> [] ->
    exists r : Regional.impact,
      Regional.assess_policy_impact (Some cutoff) rv hiv_data = Some (Py.Ok r)
      /\ (forall b n, In (b, n) (Regional.pre_monthly r) ->
                      b <= Temporal.bucket Temporal.Month cutoff)
      /\ (forall b n, In (b, n) (Regional.post_monthly r) ->
                      Temporal.bucket Temporal.Month cutoff <= b)
      /\ (Calendar.day cutoff = 1 -> Calendar.usec cutoff = 0 ->
          forall b n, In (b, n) (Regional.pre_monthly r) ->
                      b < Temporal.bucket Temporal.Month cutoff).
Proof.
  intros cutoff rv hiv_data Hm Hvalid Hne1 Hne2.
  destruct (assess_both_sides cutoff rv hiv_data Hne1 Hne2)
    as [r [Hr [Epre [Epost _]]]].
  exists r. split; [exact Hr|]. rewrite Epre, Epost.
  unfold pre_side, post_side.
  set (sel := region_selection rv hiv_data) in *.
  assert (Hpre : forall b n,
    In (b, n) (Temporal.resample_size Temporal.Month
                 (map Hiv.diagnosis_date
                    (filter (fun r => Calendar.ltb (Hiv.diagnosis_date r)
                                                   cutoff) sel))) ->
    exists x, In x sel /\ before (Hiv.diagnosis_date x) cutoff
              /\ b <= Temporal.bucket Temporal.Month (Hiv.diagnosis_date x)).
  { intros b n Hin.
    destruct (resample_keys_bounds _ _ _ _ (valid_dates_filter _ _ Hvalid) Hin)
      as [d1 [d2 [_ [H2 Hb]]]].
    apply in_map_iff in H2. destruct H2 as [x [<- Hx]].
    apply filter_In in Hx. destruct Hx as [Hx Hlt].
    apply ltb_before in Hlt. exists x. split; [assumption|].
    split; [assumption | lia]. }
  pose proof Hvalid as Hv. rewrite Forall_forall in Hvalid.
  split; [|split].
  - intros b n Hin. destruct (Hpre b n Hin) as [x [Hx [Hb Hle]]].
    destruct (month_bucket_before _ _ (Hvalid x Hx) Hm Hb). lia.
  - intros b n Hin.
    destruct (resample_keys_bounds _ _ _ _ (valid_dates_filter _ _ Hv) Hin)
      as [d1 [d2 [H1 [_ Hb]]]].
    apply in_map_iff in H1. destruct H1 as [x [<- Hx]].
    apply filter_In in Hx. destruct Hx as [Hx Hge].
    unfold Calendar.geb in Hge. apply leb_not_before in Hge.
    assert (Temporal.bucket Temporal.Month cutoff
            <= Temporal.bucket Temporal.Month (Hiv.diagnosis_date x));
      [|lia].
    apply bucket_monotone; auto. apply valid_month. auto.
  - intros Hday Husec b n Hin. destruct (Hpre b n Hin) as [x [Hx [Hb Hle]]].
    destruct (month_bucket_before _ _ (Hvalid x Hx) Hm Hb) as [_ Hlt].
    specialize (Hlt Hday Husec). lia.
Qed.

(** A policy dated 2020-02-15: the cases of 3 February and of 20 February
    fall on different sides, in the same month. *)
Lemma policy_sides_meet_at_cutoff_month_witness :
  exists r : Regional.impact,
    Regional.assess_policy_impact (Some (Calendar.date 2020 2 15)) "All"
                                  cases_early_2020 = Some (Py.Ok r)
    /\ (forall b n, In (b, n) (Regional.pre_monthly r) ->
                    b <= Temporal.bucket Temporal.Month
                           (Calendar.date 2020 2 15))
    /\ (forall b n, In (b, n) (Regional.post_monthly r) ->
                    Temporal.bucket Temporal.Month (Calendar.date 2020 2 15)
                    <= b).
Proof.
  destruct (policy_sides_meet_at_cutoff_month
              (Calendar.date 2020 2 15) "All" cases_early_2020)
    as [r [Hr [H1 [H2 _]]]].
  - simpl. lia.
  - repeat constructor.
  - discriminate.
  - discriminate.
  - exists r. auto.
Defined.

(** X21. When the selected records are validly dated and each side of the
    policy date has at least one of them, the pre-policy mean is positive
    and the "Change" label is shown, with the value
    [(post_mean - pre_mean) / pre_mean * 100]. *)
Theorem policy_change_with_both_sides :
  forall (cutoff : Calendar.datetime) (rv : string) (hiv_data : list Hiv.row),
    Forall (fun x => Calendar.valid (Hiv.diagnosis_date x) = true)
           (region_selection rv hiv_data) ->
    pre_side cutoff rv hiv_data <> [] ->
    post_side cutoff rv hiv_data <> [] ->
    exists r : Regional.impact,
      Regional.assess_policy_impact (Some cutoff) rv hiv_data = Some (Py.Ok r)
      /\ (0 < Regional.pre_mean r)%Q
      /\ (0 < Regional.post_mean r)%Q
      /\ Regional.change r
         = Some (((Regional.post_mean r - Regional.pre_mean r)
                  / Regional.pre_mean r) * inject_Z 100)%Q.
Proof.
  intros cutoff rv hiv_data Hvalid Hpre Hpost.
  destruct (assess_both_sides cutoff rv hiv_data Hpre Hpost)
    as [r [Hr [Epre [Epost [Em1 [_ [Em2 [_ Ec]]]]]]]].
  exists r. split; [exact Hr|].
  assert (Hside : forall side series,
            side <> [] ->
            Forall (fun d => Calendar.valid d = true)
                   (map Hiv.diagnosis_date side) ->
            series = Temporal.resample_size Temporal.Month
                                            (map Hiv.diagnosis_date side) ->
            (0 < (if negb (Regional.is_empty series)
                  then Frame.mean (map snd series) else 0))%Q).
  { intros side series Hne Hv ->.
    destruct (side_series_nonempty side Hne Hv) as [Hs Hsum].
    destruct (Temporal.resample_size Temporal.Month
                                     (map Hiv.diagnosis_date side)) eqn:E;
      [now elim Hs|].
    cbn [Regional.is_empty negb]. now apply mean_positive. }
  assert (Hp : (0 < Regional.pre_mean r)%Q).
  { rewrite Em1. apply (Hside (pre_side cutoff rv hiv_data));
      [assumption | now apply valid_dates_filter | assumption]. }
  assert (Hq : (0 < Regional.post_mean r)%Q).
  { rewrite Em2. apply (Hside (post_side cutoff rv hiv_data));
      [assumption | now apply valid_dates_filter | assumption]. }
  split; [assumption|]. split; [assumption|]. rewrite Ec.
  destruct (Qle_bool (Regional.pre_mean r) 0) eqn:E; [|reflexivity].
  apply Qle_bool_iff in E. exfalso. exact (Qlt_not_le _ _ Hp E).
Qed.

Lemma policy_change_with_both_sides_witness :
  exists r : Regional.impact,
    Regional.assess_policy_impact (Some (Calendar.date 2020 3 1)) "All"
                                  cases_first_quarter_2020 = Some (Py.Ok r)
    /\ (0 < Regional.pre_mean r)%Q
    /\ (0 < Regional.post_mean r)%Q
    /\ Regional.change r
       = Some (((Regional.post_mean r - Regional.pre_mean r)
                / Regional.pre_mean r) * inject_Z 100)%Q.
Proof.
  apply (policy_change_with_both_sides (Calendar.date 2020 3 1) "All"
                                       cases_first_quarter_2020).
  - repeat constructor.
  - discriminate.
  - discriminate.
Defined.

(** ** Sorted bars *)


Lemma Q_geb_total (a b : Q) : Qle_bool b a = true \/ Qle_bool a b = true.
Proof.
  rewrite !Qle_bool_iff. destruct (Qlt_le_dec a b) as [H|H]; [|tauto].
  right. now apply Qlt_le_weak.
Qed.

Lemma Q_geb_trans (a b c : Q) :
  Qle_bool b a = true -> Qle_bool c b = true -> Qle_bool c a = true.
Proof. rewrite !Qle_bool_iff. intros H1 H2. eapply Qle_trans; eauto. Qed.

Lemma sum_bump (x : string) (T : list (string * nat)) :
  Frame.sum (map snd (Frame.bump x T)) = S (Frame.sum (map snd T)).
Proof.
  unfold Frame.sum. induction T as [|[k c] T IH]; simpl; [reflexivity|].
  destruct (String.eqb x k); simpl; [reflexivity|]. rewrite IH. lia.
Qed.

Lemma sum_value_count (col : list string) :
  Frame.sum (map snd (Frame.value_count col)) = List.length col.
Proof.
  induction col as [|x col IH] using rev_ind; [reflexivity|].
  rewrite value_count_snoc, sum_bump, IH, length_app. simpl. lia.
Qed.

Lemma sum_Permutation (l l' : list nat) :
  Permutation l l' -> Frame.sum l = Frame.sum l'.
Proof.
  unfold Frame.sum. induction 1; simpl; lia.
Qed.

(** X5. The "Cases by Region" chart of [update_regional_analysis] has one
    bar per region that occurs among the filtered records and no other, each
    region once, with the number of its records as height; the bars come in
    non-increasing height, and the heights add up to the number of filtered
    records. *)
Theorem cases_by_region_bars :
  forall (now : Calendar.datetime) (rv tv : string)
         (hiv_data : list Hiv.row) (population_data : list Pop.row),
  exists bars,
    Regional.update_regional_analysis now rv tv "Cases by Region"
                                      hiv_data population_data
    = Regional.CasesByRegion bars
    /\ NoDup (map fst bars)
    /\ (forall region n,
           In (region, n) bars
           <-> In region
                  (map Hiv.region (Regional.filtered_data now rv tv hiv_data))
               /\ n = count_occ string_dec
                        (map Hiv.region
                             (Regional.filtered_data now rv tv hiv_data))
                        region)
    /\ StronglySorted (fun a b => (snd b <= snd a)%nat) bars
    /\ Frame.sum (map snd bars)
       = List.length (Regional.filtered_data now rv tv hiv_data).
Proof.
  intros now rv tv hiv_data population_data.
  eexists. split; [reflexivity|].
  set (col := map Hiv.region (Regional.filtered_data now rv tv hiv_data)).
  assert (Hperm : Permutation
                    (Frame.value_count col)
                    (Frame.sort_values_desc snd (fun a b => Nat.leb b a)
                       (Frame.value_counts col))).
  { unfold Frame.value_counts.
    rewrite <- !sort_values_desc_Permutation. reflexivity. }
  split; [|split; [|split]].
  - apply (Permutation_NoDup (Permutation_map fst Hperm)).
    apply keys_value_count.
  - intros region n. rewrite sort_values_desc_In. apply value_counts_In.
  - apply StronglySorted_weaken
      with (P := fun a b => Nat.leb (snd b) (snd a) = true).
    + intros a b H. now apply Nat.leb_le.
    + apply (sort_values_desc_sorted snd (fun a b => Nat.leb b a)).
      * intros a b. apply nat_geb_total.
      * intros a b c. apply nat_geb_trans.
  - rewrite <- (sum_Permutation _ _ (Permutation_map snd Hperm)).
    unfold col. now rewrite sum_value_count, length_map.
Qed.

(** ** The joined frame *)

Lemma merge_regions_NoDup (counts : list (string * nat)) (pop : list Pop.row) :
  NoDup (map fst counts) -> NoDup (map Pop.region pop) ->
  NoDup (map Frame.region (Frame.merge counts pop)).
Proof.
  intros Hc Hp. unfold Frame.merge.
  induction counts as [|[r c] counts IH]; [constructor|].
  inversion Hc as [|? ? Hnotin Hc']; subst. cbn [flat_map].
  rewrite map_app. apply NoDup_app.
  - rewrite map_map. cbn [Frame.region].
    clear IH Hc Hc' Hnotin. induction pop as [|p pop IHp]; [constructor|].
    inversion Hp as [|? ? Hn Hp']; subst. simpl.
    destruct (String.eqb_spec (Pop.region p) r) as [E|E]; [|auto].
    simpl. constructor; [|auto].
    intro Hin. apply in_map_iff in Hin. destruct Hin as [q [_ Hq]].
    apply filter_In in Hq. destruct Hq as [Hq Hr].
    apply String.eqb_eq in Hr. apply Hn. apply in_map_iff.
    exists q. split; [congruence | assumption].
  - now apply IH.
  - intros a Ha Hb. apply in_map_iff in Ha. destruct Ha as [m [<- Hm]].
    apply in_map_iff in Hm. destruct Hm as [p [<- _]]. cbn [Frame.region] in Hb.
    apply in_map_iff in Hb. destruct Hb as [m' [E Hm']].
    apply in_flat_map in Hm'. destruct Hm' as [[r' c'] [Hrc Hm']].
    apply in_map_iff in Hm'. destruct Hm' as [p' [<- _]].
    cbn [Frame.region] in E. subst r'.
    apply Hnotin. apply in_map_iff. now exists (r, c').
Qed.

(** X6. The bars of the "Cases per 100,000 Population" chart come in
    non-increasing order of their rate, and when the profile table has one
    row per region no region gets more than one bar. *)
Theorem per_100k_bars_sorted_and_unique :
  forall (fd : list Hiv.row) (population_data : list Pop.row),
    NoDup (map Pop.region population_data) ->
    StronglySorted (fun a b => (snd b <= snd a)%Q)
                   (Regional.per_100k_frame fd population_data)
    /\ NoDup (map fst (Regional.rate_mapping
                         (Regional.per_100k_frame fd population_data))).
Proof.
  intros fd population_data Hpop. unfold Regional.per_100k_frame. cbv zeta.
  split.
  - apply StronglySorted_weaken
      with (P := fun a b => Qle_bool (snd b) (snd a) = true).
    + intros a b H. now apply Qle_bool_iff.
    + apply (sort_values_desc_sorted snd (fun a b => Qle_bool b a)).
      * intros a b. apply Q_geb_total.
      * intros a b c. apply Q_geb_trans.
  - unfold Regional.rate_mapping. rewrite map_map.
    rewrite (map_ext _ (fun x => Frame.region (fst x)))
      by (intros [m q]; reflexivity).
    eapply Permutation_NoDup.
    + apply Permutation_map. apply sort_values_desc_Permutation.
    + rewrite map_map. cbn [fst]. apply merge_regions_NoDup; [|assumption].
      unfold Frame.value_counts.
      eapply Permutation_NoDup.
      * apply Permutation_map. apply sort_values_desc_Permutation.
      * apply keys_value_count.
Qed.

Lemma per_100k_bars_sorted_and_unique_witness :
  StronglySorted (fun a b => (snd b <= snd a)%Q)
                 (Regional.per_100k_frame cases_early_2020
                                          Data.population_data)
  /\ NoDup (map fst (Regional.rate_mapping
                       (Regional.per_100k_frame cases_early_2020
                                                Data.population_data))).
Proof.
  apply (per_100k_bars_sorted_and_unique cases_early_2020
                                         Data.population_data).
  repeat (constructor; [simpl; intuition discriminate|]). constructor.
Defined.

(** ** High-risk areas under a varying threshold *)

(** X7. Raising the threshold can only shrink the high-risk frame: every row
    (and so every region) that is high-risk at a threshold is high-risk at
    every lower threshold. *)
Theorem high_risk_monotone_in_threshold :
  forall (hiv_data : list Hiv.row) (population_data : list Pop.row)
         (t t' : Q),
    (t' <= t)%Q ->
    (forall m,
        In m (Population.update_high_risk_areas hiv_data population_data t) ->
        In m (Population.update_high_risk_areas hiv_data population_data t'))
    /\ (forall region,
           Population.is_high_risk
             (Population.update_high_risk_areas hiv_data population_data t)
             region = true ->
           Population.is_high_risk
             (Population.update_high_risk_areas hiv_data population_data t')
             region = true).
Proof.
  intros hiv_data population_data t t' Hle.
  assert (H : forall m,
    In m (Population.update_high_risk_areas hiv_data population_data t) ->
    In m (Population.update_high_risk_areas hiv_data population_data t')).
  { intro m. unfold Population.update_high_risk_areas. cbv zeta.
    rewrite !filter_In, !Qle_bool_iff. intros [Hm Ht]. split; [assumption|].
    eapply Qle_trans; eauto. }
  split; [exact H|]. intro region. unfold Population.is_high_risk.
  rewrite !existsb_exists. intros [m [Hm Hr]]. exists m. auto.
Qed.

(** Khomas, with 3 cases for 415000 inhabitants, is high-risk at the
    threshold 5e-6 and so at the threshold 1e-6. *)
Lemma high_risk_monotone_in_threshold_witness :
  Population.is_high_risk
    (Population.update_high_risk_areas cases_early_2020 Data.population_data
                                       (1 # 1000000)) "Khomas" = true.
Proof.
  apply (proj2 (high_risk_monotone_in_threshold
                  cases_early_2020 Data.population_data
                  (5 # 1000000) (1 # 1000000) ltac:(vm_compute; discriminate))).
  reflexivity.
Defined.

(** X8. Whatever the threshold, zero and negative ones included, a region is
    coloured high-risk only if it has at least one case record and a profile:
    a region without cases is never high-risk. *)
Theorem high_risk_needs_a_case :
  forall (hiv_data : list Hiv.row) (population_data : list Pop.row)
         (threshold : Q) (region : string),
    Population.is_high_risk
      (Population.update_high_risk_areas hiv_data population_data threshold)
      region = true ->
    In region (map Hiv.region hiv_data)
    /\ In region (map Pop.region population_data).
Proof.
  intros hiv_data population_data threshold region H.
  unfold Population.is_high_risk in H. apply existsb_exists in H.
  destruct H as [m [Hm Hr]]. apply String.eqb_eq in Hr.
  unfold Population.update_high_risk_areas in Hm. cbv zeta in Hm.
  apply filter_In in Hm. destruct Hm as [Hm _].
  apply (merge_value_counts_regions (map Hiv.region hiv_data)
                                    population_data region).
  now exists m.
Qed.

Lemma high_risk_needs_a_case_witness :
  In "Khomas" (map Hiv.region cases_early_2020)
  /\ In "Khomas" (map Pop.region Data.population_data).
Proof.
  apply (high_risk_needs_a_case cases_early_2020 Data.population_data
                                (1 # 1000000) "Khomas").
  reflexivity.
Defined.

(** ** Ticking service boxes *)

Lemma any_service_incl (sel sel' : list string) (cell : string) :
  incl sel sel' ->
  Facilities.any_service sel cell = true ->
  Facilities.any_service sel' cell = true.
Proof.
  unfold Facilities.any_service. rewrite !existsb_exists.
  intros Hincl [tag [Hin Hc]]. exists tag. split; [now apply Hincl | assumption].
Qed.

(** X9. With the region and type filters unchanged, a facility that is on
    the map stays on it when further service boxes are ticked, once at least
    one box is ticked; and it is on the map when no box is ticked at all,
    whichever boxes were ticked before. *)
Theorem ticking_services_only_adds :
  forall (table : list Fac.row) (rv tv : string)
         (svars svars' : list (string * bool)) (f : Fac.row),
    In f (Facilities.update_facilities_map table rv tv svars) ->
    (Facilities.selected_services svars <> [] ->
     incl (Facilities.selected_services svars)
          (Facilities.selected_services svars') ->
     In f (Facilities.update_facilities_map table rv tv svars'))
    /\ (Facilities.selected_services svars' = [] ->
        In f (Facilities.update_facilities_map table rv tv svars')).
Proof.
  intros table rv tv svars svars' f Hin.
  assert (Hbase : In f table
                  /\ field_pass rv (Fac.region f) = true
                  /\ field_pass tv (Fac.facility_type f) = true).
  { unfold Facilities.update_facilities_map in Hin. cbv zeta in Hin.
    rewrite !optional_mask in Hin.
    destruct (Facilities.selected_services svars);
      [|apply filter_In in Hin; destruct Hin as [Hin _]];
      apply filter_In in Hin; destruct Hin as [Hin H2];
      apply filter_In in Hin; destruct Hin as [Hin H1];
      unfold field_pass; auto. }
  destruct Hbase as [Ht [Hr Hty]]. split.
  - intros Hne Hincl.
    assert (Hne' : Facilities.selected_services svars' <> []).
    { destruct (Facilities.selected_services svars) as [|s sel];
        [contradiction|].
      intro E. rewrite E in Hincl. apply (Hincl s). now left. }
    rewrite update_facilities_map_mask in * by assumption.
    apply filter_In in Hin. destruct Hin as [_ Hp].
    apply filter_In. split; [assumption|]. unfold facility_pass in *.
    rewrite !andb_true_iff in *. destruct Hp as [Hp Hs].
    split; [assumption|]. eapply any_service_incl; eauto.
  - intro E. unfold Facilities.update_facilities_map. cbv zeta.
    rewrite E, !optional_mask. apply filter_In. split; [|exact Hty].
    apply filter_In. split; [assumption | exact Hr].
Qed.

(** Facility_1 offers "PrEP": it is on the map with "PrEP" ticked, stays on
    it when "PMTCT" is ticked as well, and is on it with no box ticked. *)
Lemma ticking_services_only_adds_witness :
  In Samples.facility_1
     (Facilities.update_facilities_map
        [Samples.facility_1; Samples.facility_2] "All" "All"
        Samples.prep_and_pmtct)
  /\ In Samples.facility_1
        (Facilities.update_facilities_map
           [Samples.facility_1; Samples.facility_2] "All" "All"
           Samples.none_ticked).
Proof.
  split.
  - apply (proj1 (ticking_services_only_adds
                    [Samples.facility_1; Samples.facility_2] "All" "All"
                    Samples.prep_only Samples.prep_and_pmtct
                    Samples.facility_1 (or_introl eq_refl))).
    + discriminate.
    + intros a [<-|[]]. left. reflexivity.
  - apply (proj2 (ticking_services_only_adds
                    [Samples.facility_1; Samples.facility_2] "All" "All"
                    Samples.prep_only Samples.none_ticked
                    Samples.facility_1 (or_introl eq_refl))).
    reflexivity.
Defined.

(** ** The case filter, row by row *)

(** X10. A case record is kept by the filter of [update_hiv_map] exactly
    when it satisfies every active constraint at once: diagnosed within the
    last 365 days for "Last Year", within the last 5 * 365 days for "Last 5
    Years" (any other time frame, "Custom" included, constrains nothing), and
    equal to the chosen age group, gender and diagnosis status wherever the
    choice is not "All". The filtered count never exceeds the total. *)
Theorem case_filter_all_of :
  forall (now : Calendar.datetime) (v : HivMap.vars)
         (hiv_data : list Hiv.row) (r : Hiv.row),
    (In r (HivMap.filtered_data now v hiv_data)
     <-> In r hiv_data
         /\ (HivMap.time_frame_var v = "Last Year" ->
             Calendar.leb (Calendar.minus_days now 365)
                          (Hiv.diagnosis_date r) = true)
         /\ (HivMap.time_frame_var v = "Last 5 Years" ->
             Calendar.leb (Calendar.minus_days now (5 * 365))
                          (Hiv.diagnosis_date r) = true)
         /\ (HivMap.age_group_var v = "All"
             \/ Hiv.age_group r = HivMap.age_group_var v)
         /\ (HivMap.gender_var v = "All"
             \/ Hiv.gender r = HivMap.gender_var v)
         /\ (HivMap.diagnosis_var v = "All"
             \/ Hiv.diagnosis_status r = HivMap.diagnosis_var v))
    /\ (List.length (HivMap.filtered_data now v hiv_data)
        <= List.length hiv_data)%nat.
Proof.
  intros now v hiv_data r. rewrite filtered_data_mask. split.
  - rewrite filter_In. unfold case_pass.
    rewrite !andb_true_iff, !field_pass_iff.
    assert (Ht : time_frame_pass now (HivMap.time_frame_var v) r = true
                 <-> (HivMap.time_frame_var v = "Last Year" ->
                      Calendar.leb (Calendar.minus_days now 365)
                                   (Hiv.diagnosis_date r) = true)
                     /\ (HivMap.time_frame_var v = "Last 5 Years" ->
                         Calendar.leb (Calendar.minus_days now (5 * 365))
                                      (Hiv.diagnosis_date r) = true)).
    { unfold time_frame_pass, Calendar.geb.
      destruct (String.eqb_spec (HivMap.time_frame_var v) "Last Year")
        as [E|E].
      - rewrite E. split; [|tauto]. intro H. split; [auto | discriminate].
      - destruct (String.eqb_spec (HivMap.time_frame_var v) "Last 5 Years")
          as [E'|E'].
        + split; [|tauto]. intro H. split; [contradiction | auto].
        + split; [|reflexivity]. intros _. split; contradiction. }
    rewrite Ht. tauto.
  - apply filter_length_le.
Qed.

(** ** The choropleth view *)

(** X11. The "Choropleth" view of [update_hiv_map] cannot be drawn: with at
    least one region to draw, [max(region_counts.values(), 1)] compares an
    int with a dict view and the callback ends in a TypeError, whatever the
    case records and the filters are. *)
Theorem choropleth_raises_type_error :
  forall (now : Calendar.datetime) (v : HivMap.vars) (regions : list string)
         (hiv_data : list Hiv.row),
    regions <> [] ->
    Choropleth.update_hiv_map now v regions hiv_data = Py.Raise Py.TypeError.
Proof.
  intros now v regions hiv_data Hne. unfold Choropleth.update_hiv_map.
  cbv zeta. destruct regions as [|region rest]; [contradiction|].
  reflexivity.
Qed.

Lemma choropleth_raises_type_error_witness :
  Choropleth.update_hiv_map (Calendar.date 2026 11 4) no_filter Data.regions
                            cases_early_2020
  = Py.Raise Py.TypeError.
Proof.
  apply (choropleth_raises_type_error (Calendar.date 2026 11 4) no_filter
                                      Data.regions cases_early_2020).
  discriminate.
Defined.

(** ** The prevalence map *)

Lemma get_notin (T : list (string * nat)) (k : string) :
  ~ In k (map fst T) -> Frame.get T k 0 = 0%nat.
Proof.
  induction T as [|[k' c] T IH]; simpl; [reflexivity|]. intro H.
  destruct (String.eqb_spec k k') as [->|_]; [|apply IH]; tauto.
Qed.

Lemma value_counts_keys_NoDup (col : list string) :
  NoDup (map fst (Frame.value_counts col)).
Proof.
  unfold Frame.value_counts. eapply Permutation_NoDup.
  - apply Permutation_map. apply sort_values_desc_Permutation.
  - apply keys_value_count.
Qed.

(** [dict.get(label, 0)] on the counts is the number of occurrences of the
    label, 0 for a label that does not occur. *)
Lemma get_value_counts (col : list string) (k : string) :
  Frame.get (Frame.value_counts col) k 0 = count_occ string_dec col k.
Proof.
  destruct (in_dec string_dec k col) as [Hin|Hnotin].
  - assert (H : In (k, count_occ string_dec col k) (Frame.value_counts col))
      by (apply value_counts_In; tauto).
    apply (get_In _ _ _ (value_counts_keys_NoDup col)) in H. tauto.
  - rewrite (proj1 (count_occ_not_In string_dec col k) Hnotin).
    apply get_notin. intro H. apply in_map_iff in H.
    destruct H as [[k' c] [E H]]. simpl in E. subst k'.
    apply value_counts_In in H. tauto.
Qed.

Lemma loc_first_ok {A : Type} (pop : list Pop.row) (region : string)
      (col : Pop.row -> A) :
  In region (map Pop.region pop) ->
  exists p, In p pop /\ Pop.region p = region
            /\ PopulationMap.loc_first pop region col = Py.Ok (col p).
Proof.
  intro H. apply in_map_iff in H. destruct H as [q [Hr Hq]].
  unfold PopulationMap.loc_first.
  destruct (filter (fun p => String.eqb (Pop.region p) region) pop)
    as [|p l] eqn:E.
  - assert (Hf : In q (filter (fun p => String.eqb (Pop.region p) region) pop))
      by (apply filter_In; split; [assumption | now apply String.eqb_eq]).
    rewrite E in Hf. contradiction.
  - assert (Hp : In p (filter (fun p => String.eqb (Pop.region p) region) pop))
      by (rewrite E; now left).
    apply filter_In in Hp. destruct Hp as [Hp Hr'].
    apply String.eqb_eq in Hr'. now exists p.
Qed.

Lemma loc_first_missing {A : Type} (pop : list Pop.row) (region : string)
      (col : Pop.row -> A) :
  ~ In region (map Pop.region pop) ->
  PopulationMap.loc_first pop region col = Py.Raise Py.IndexError.
Proof.
  intro H. unfold PopulationMap.loc_first.
  destruct (filter (fun p => String.eqb (Pop.region p) region) pop)
    as [|p l] eqn:E; [reflexivity|].
  assert (Hp : In p (filter (fun p => String.eqb (Pop.region p) region) pop))
    by (rewrite E; now left).
  apply filter_In in Hp. destruct Hp as [Hp Hr]. apply String.eqb_eq in Hr.
  exfalso. apply H. apply in_map_iff. now exists p.
Qed.

(** What each drawn shape holds, when the loop completes. *)
Lemma draw_regions_shapes (regions : list string)
      (hbr : list (string * nat)) (pop : list Pop.row)
      (shapes : list PopulationMap.shape) :
  PopulationMap.draw_regions regions hbr pop = Py.Ok shapes ->
  Forall2
    (fun region s =>
       PopulationMap.region s = region
       /\ exists population,
            PopulationMap.loc_first pop region Pop.population
            = Py.Ok population
            /\ PopulationMap.prevalence s
               = (if 0 <? population
                  then true_divide (Z.of_nat (Frame.get hbr region 0))
                                   population
                  else 0%Q)
            /\ PopulationMap.intensity s
               = Py.min2 (PopulationMap.prevalence s / (5 # 100))%Q 1)
    regions shapes.
Proof.
  revert shapes. induction regions as [|region rest IH]; intros shapes H.
  - injection H as <-. constructor.
  - cbn [PopulationMap.draw_regions] in H.
    destruct (PopulationMap.loc_first pop region Pop.population)
      as [population|e] eqn:E; [|discriminate].
    cbn [Py.bind] in H.
    destruct (PopulationMap.draw_regions rest hbr pop) as [drawn|e] eqn:E';
      [|discriminate].
    cbn [Py.bind] in H. injection H as <-.
    constructor; [|now apply IH].
    split; [reflexivity|]. exists population. auto.
Qed.

Lemma draw_regions_total (regions : list string)
      (hbr : list (string * nat)) (pop : list Pop.row) :
  (forall region, In region regions -> In region (map Pop.region pop)) ->
  exists shapes, PopulationMap.draw_regions regions hbr pop = Py.Ok shapes.
Proof.
  induction regions as [|region rest IH]; intro H; [now exists []|].
  destruct (loc_first_ok pop region Pop.population) as [p [_ [_ E]]];
    [apply H; now left|].
  destruct IH as [drawn Hd]; [intros r Hr; apply H; now right|].
  cbn [PopulationMap.draw_regions]. rewrite E. cbn [Py.bind]. rewrite Hd.
  cbn [Py.bind]. eauto.
Qed.

Lemma min2_bounds (q : Q) : (0 <= q)%Q -> (0 <= Py.min2 q 1 <= 1)%Q.
Proof.
  intro Hq. unfold Py.min2, Py.Qltb.
  destruct (Qle_bool q 1) eqn:E; simpl.
  - apply Qle_bool_iff in E. split; assumption.
  - split; [discriminate | apply Qle_refl].
Qed.

Lemma true_divide_nonneg (c : nat) (p : Z) :
  0 < p -> (0 <= true_divide (Z.of_nat c) p)%Q.
Proof.
  intro Hp. unfold true_divide. apply Qle_shift_div_l.
  - change 0%Q with (inject_Z 0). rewrite <- Zlt_Qlt. lia.
  - rewrite Qmult_0_l. change 0%Q with (inject_Z 0). rewrite <- Zle_Qle. lia.
Qed.

(** X12. When every region of the region list has a profile, the "HIV
    Prevalence Rate" map draws every region of the list, in the order of the
    list, with a colour intensity between 0 and 1; a region without case
    records is drawn too, with prevalence 0 and intensity 0. *)
Theorem prevalence_map_draws_every_region :
  forall (regions : list string) (hiv_data : list Hiv.row)
         (population_data : list Pop.row),
    (forall region, In region regions ->
                    In region (map Pop.region population_data)) ->
    exists shapes,
      PopulationMap.update_population_map regions hiv_data population_data
      = Py.Ok shapes
      /\ map PopulationMap.region shapes = regions
      /\ forall s, In s shapes ->
           (0 <= PopulationMap.prevalence s)%Q
           /\ (0 <= PopulationMap.intensity s <= 1)%Q
           /\ (~ In (PopulationMap.region s) (map Hiv.region hiv_data) ->
               (PopulationMap.prevalence s == 0)%Q
               /\ (PopulationMap.intensity s == 0)%Q).
Proof.
  intros regions hiv_data population_data Hall.
  unfold PopulationMap.update_population_map. cbv zeta.
  destruct (draw_regions_total regions
              (Frame.value_counts (map Hiv.region hiv_data))
              population_data Hall) as [shapes Hs].
  exists shapes. split; [assumption|].
  apply draw_regions_shapes in Hs.
  split.
  - clear Hall. induction Hs as [|r s rs ss [Hr _] _ IH]; [reflexivity|].
    simpl. now rewrite Hr, IH.
  - intros s Hin.
    assert (Hs' : exists region, PopulationMap.region s = region
              /\ exists population,
                   PopulationMap.prevalence s
                   = (if 0 <? population
                      then true_divide
                             (Z.of_nat
                                (Frame.get
                                   (Frame.value_counts
                                      (map Hiv.region hiv_data)) region 0))
                             population
                      else 0%Q)
                   /\ PopulationMap.intensity s
                      = Py.min2 (PopulationMap.prevalence s / (5 # 100))%Q 1).
    { clear Hall. induction Hs as [|r s' rs ss [Hr [p [_ [Hp Hi]]]] _ IH];
        [contradiction|].
      destruct Hin as [->|Hin]; [|auto]. exists r. split; [assumption|].
      now exists p. }
    destruct Hs' as [region [Hr [population [Hp Hi]]]].
    assert (Hprev : (0 <= PopulationMap.prevalence s)%Q).
    { rewrite Hp. destruct (Z.ltb_spec 0 population);
        [now apply true_divide_nonneg | apply Qle_refl]. }
    split; [assumption|]. split.
    + rewrite Hi. apply min2_bounds. apply Qle_shift_div_l; [reflexivity|].
      now rewrite Qmult_0_l.
    + intro Hnone.
      assert (H0 : (PopulationMap.prevalence s == 0)%Q).
      { rewrite Hp, get_value_counts, <- Hr.
        rewrite (proj1 (count_occ_not_In string_dec _ _) Hnone).
        destruct (0 <? population); [|reflexivity].
        unfold true_divide. simpl. unfold Qdiv. now rewrite Qmult_0_l. }
      split; [assumption|]. rewrite Hi. unfold Py.min2, Py.Qltb.
      assert (E : Qle_bool (PopulationMap.prevalence s / (5 # 100))%Q 1 = true).
      { apply Qle_bool_iff. rewrite H0. discriminate. }
      rewrite E. simpl. rewrite H0. reflexivity.
Qed.

Lemma prevalence_map_draws_every_region_witness :
  exists shapes,
    PopulationMap.update_population_map Data.regions cases_early_2020
                                        Data.population_data
    = Py.Ok shapes
    /\ map PopulationMap.region shapes = Data.regions.
Proof.
  destruct (prevalence_map_draws_every_region
              Data.regions cases_early_2020 Data.population_data)
    as [shapes [H1 [H2 _]]].
  - intros region H. exact H.
  - exists shapes. split; assumption.
Defined.

(** X13. When a region of the region list has no row in the profile table,
    the "HIV Prevalence Rate" map is not drawn: the lookup of its population
    raises IndexError. *)
Theorem prevalence_map_needs_every_profile :
  forall (regions : list string) (hiv_data : list Hiv.row)
         (population_data : list Pop.row) (region : string),
    In region regions ->
    ~ In region (map Pop.region population_data) ->
    PopulationMap.update_population_map regions hiv_data population_data
    = Py.Raise Py.IndexError.
Proof.
  intros regions hiv_data population_data region Hin Hmissing.
  unfold PopulationMap.update_population_map. cbv zeta.
  induction regions as [|r rest IH]; [contradiction|].
  cbn [PopulationMap.draw_regions].
  destruct (in_dec string_dec r (map Pop.region population_data)) as [Hr|Hr].
  - destruct (loc_first_ok population_data r Pop.population Hr)
      as [p [_ [_ E]]].
    rewrite E. cbn [Py.bind]. destruct Hin as [->|Hin]; [contradiction|].
    now rewrite (IH Hin).
  - now rewrite (loc_first_missing _ _ _ Hr).
Qed.

Lemma prevalence_map_needs_every_profile_witness :
  PopulationMap.update_population_map
    Data.regions cases_early_2020 (firstn 5 Data.population_data)
  = Py.Raise Py.IndexError.
Proof.
  apply (prevalence_map_needs_every_profile
           Data.regions cases_early_2020 (firstn 5 Data.population_data)
           "Khomas").
  - vm_compute. tauto.
  - vm_compute. intuition discriminate.
Defined.

Lemma filter_unique_region (pop : list Pop.row) (p : Pop.row) :
  NoDup (map Pop.region pop) -> In p pop ->
  filter (fun q => String.eqb (Pop.region q) (Pop.region p)) pop = [p].
Proof.
  induction pop as [|q pop IH]; intros Hnd Hin; [contradiction|].
  inversion Hnd as [|? ? Hnotin Hnd']; subst. simpl.
  destruct Hin as [->|Hin].
  - rewrite String.eqb_refl. f_equal.
    clear IH Hnd Hnd'. induction pop as [|q pop IH]; [reflexivity|]. simpl.
    destruct (String.eqb_spec (Pop.region q) (Pop.region p)) as [E|_].
    + exfalso. apply Hnotin. left. exact E.
    + apply IH. intro H. apply Hnotin. now right.
  - destruct (String.eqb_spec (Pop.region q) (Pop.region p)) as [E|_].
    + exfalso. apply Hnotin. rewrite E. now apply in_map.
    + now apply IH.
Qed.

(** X14. The prevalence map and the high-risk analysis agree: with one
    profile per region, every row of the merged frame with a positive
    population whose region is drawn has, on the map, exactly the prevalence
    the high-risk analysis compares with the threshold. *)
Theorem prevalence_map_agrees_with_high_risk :
  forall (regions : list string) (hiv_data : list Hiv.row)
         (population_data : list Pop.row)
         (shapes : list PopulationMap.shape) (m : Frame.merged),
    NoDup (map Pop.region population_data) ->
    PopulationMap.update_population_map regions hiv_data population_data
    = Py.Ok shapes ->
    In m (Population.merged_data hiv_data population_data) ->
    In (Frame.region m) regions ->
    0 < Frame.population m ->
    exists s, In s shapes
              /\ PopulationMap.region s = Frame.region m
              /\ PopulationMap.prevalence s = Population.prevalence m.
Proof.
  intros regions hiv_data population_data shapes m Hnd Hok Hm Hreg Hpos.
  unfold PopulationMap.update_population_map in Hok. cbv zeta in Hok.
  apply draw_regions_shapes in Hok.
  unfold Population.merged_data in Hm. cbv zeta in Hm.
  apply merge_In in Hm. destruct Hm as [c [p [Hc [Hp [Hr Hmk]]]]].
  apply value_counts_In in Hc. destruct Hc as [_ Hc].
  assert (Hpop : Frame.population m = Pop.population p)
    by (rewrite Hmk; reflexivity).
  assert (Hcases : Frame.cases m = c) by (rewrite Hmk; reflexivity).
  assert (Hloc : PopulationMap.loc_first population_data (Frame.region m)
                                         Pop.population
                 = Py.Ok (Pop.population p)).
  { unfold PopulationMap.loc_first. rewrite <- Hr.
    now rewrite (filter_unique_region _ _ Hnd Hp). }
  clear Hmk. induction Hok as [|r s rs ss [Hrs [q [Hq [Hprev _]]]] _ IH];
    [contradiction|].
  destruct Hreg as [->|Hreg].
  - exists s. split; [now left|]. split; [assumption|].
    rewrite Hloc in Hq. injection Hq as <-. rewrite Hprev.
    rewrite get_value_counts, <- Hc, <- Hpop.
    destruct (Z.ltb_spec 0 (Frame.population m)); [|lia].
    unfold Population.prevalence. now rewrite Hcases.
  - destruct (IH Hreg) as [s' [Hin H']]. exists s'. split; [now right|].
    assumption.
Qed.

(** The merged row of Khomas among the cases of early 2020, and its shape
    on the prevalence map. *)
Lemma prevalence_map_agrees_with_high_risk_witness :
  exists s,
    In s (match PopulationMap.update_population_map
                  Data.regions cases_early_2020 Data.population_data with
          | Py.Ok shapes => shapes
          | Py.Raise _ => []
          end)
    /\ PopulationMap.region s = "Khomas"
    /\ PopulationMap.prevalence s = true_divide 3 415000.
Proof.
  apply (prevalence_map_agrees_with_high_risk
           Data.regions cases_early_2020 Data.population_data
           (match PopulationMap.update_population_map
                    Data.regions cases_early_2020 Data.population_data with
            | Py.Ok shapes => shapes
            | Py.Raise _ => []
            end)
           (Frame.mk_merged "Khomas" 3 415000 36964
                            (true_divide 415000 36964))).
  - repeat (constructor; [simpl; intuition discriminate|]). constructor.
  - reflexivity.
  - left. reflexivity.
  - right. right. right. right. right. left. reflexivity.
  - reflexivity.
Defined.

(** ** Trend statistics *)

Lemma resample_last_positive (f : Temporal.freq)
      (dates : list Calendar.datetime) :
  dates <> [] ->
  Forall (fun d => Calendar.valid d = true) dates ->
  Temporal.resample_size f dates <> []
  /\ (1 <= snd (last (Temporal.resample_size f dates) (0%Z, 0%nat)))%nat.
Proof.
  intros Hne Hvalid.
  destruct (resample_size_shape f dates Hne Hvalid)
    as [d1 [d2 [H1 [H2 [_ [Hle Hshape]]]]]].
  destruct (bucket_range_ends _ _ Hle) as [Hhd Hlast].
  assert (Hr : Temporal.bucket_range (Temporal.bucket f d1)
                                     (Temporal.bucket f d2) <> []).
  { intro E. rewrite E in Hhd. discriminate. }
  rewrite Hshape. split.
  - intro E. apply map_eq_nil in E. contradiction.
  - rewrite (last_map_pair _ _ 0) by assumption. rewrite Hlast. simpl.
    now apply bin_size_pos.
Qed.

Lemma one_or_two_last {A : Type} (l : list A) :
  l <> [] ->
  (exists x, l = [x]) \/ (exists pre a b, l = (pre ++ [a; b])%list).
Proof.
  intro Hne. destruct l as [|x l] using rev_ind; [contradiction|].
  clear IHl. destruct l as [|y l] using rev_ind.
  - left. now exists x.
  - right. exists l, y, x. now rewrite <- app_assoc.
Qed.

Lemma iloc_back_two (pre : list nat) (a b : nat) :
  Trend.iloc_back (pre ++ [a; b])%list 1 = b
  /\ Trend.iloc_back (pre ++ [a; b])%list 2 = a.
Proof.
  unfold Trend.iloc_back. rewrite length_app. simpl. split.
  - rewrite app_nth2 by lia.
    replace (List.length pre + 2 - 1 - List.length pre)%nat with 1%nat by lia.
    reflexivity.
  - rewrite app_nth2 by lia.
    replace (List.length pre + 2 - 2 - List.length pre)%nat with 0%nat by lia.
    reflexivity.
Qed.

Lemma fold_max_ge (rest : list nat) (x : nat) :
  (x <= fold_left Nat.max rest x)%nat
  /\ forall y, In y rest -> (y <= fold_left Nat.max rest x)%nat.
Proof.
  revert x. induction rest as [|z rest IH]; intro x; simpl; [split; [lia|tauto]|].
  destruct (IH (Nat.max x z)) as [H1 H2]. split; [lia|].
  intros y [<-|Hy]; [lia | auto].
Qed.

Lemma series_max_ge (vals : list nat) (y : nat) :
  In y vals -> (y <= Trend.series_max vals)%nat.
Proof.
  destruct vals as [|x rest]; [contradiction|]. simpl.
  destruct (fold_max_ge rest x) as [H1 H2]. intros [<-|Hy]; auto.
Qed.

Lemma last_snd (s : list (Z * nat)) :
  last (map snd s) 0%nat = snd (last s (0, 0%nat)).
Proof.
  induction s as [|x s IH]; [reflexivity|].
  destruct s as [|y s]; [reflexivity|]. exact IH.
Qed.

(** X15. For the Series that "New Cases Over Time" resamples from a
    non-empty frame of validly dated records, the statistics box always gets
    its numbers: the latest value is at least 1 and at most the maximum; with
    a single bucket the change is "Insufficient data"; with two or more it is
    the percentage over the previous bucket, and an empty previous bucket
    makes it the float infinity, never NaN and never an error. *)
Theorem trend_statistics_of_resampled_series :
  forall (f : Temporal.freq) (dates : list Calendar.datetime),
    dates <> [] ->
    Forall (fun d => Calendar.valid d = true) dates ->
    exists st : Trend.stats,
      Trend.update_trend_statistics (Temporal.resample_size f dates) = Some st
      /\ (1 <= Trend.latest st <= Trend.maximum st)%nat
      /\ Trend.change_text st <> Trend.PctNaN
      /\ (List.length (Temporal.resample_size f dates) = 1%nat ->
          Trend.change_text st = Trend.Insufficient)
      /\ (forall pre b1 p b2 l,
             Temporal.resample_size f dates
             = (pre ++ [(b1, p); (b2, l)])%list ->
             Trend.latest st = l
             /\ Trend.change_text st
                = if Nat.eqb p 0 then Trend.PctInf
                  else Trend.Pct
                         (inject_Z (Z.of_nat l - Z.of_nat p)
                          / inject_Z (Z.of_nat p) * inject_Z 100)%Q).
Proof.
  intros f dates Hne Hvalid.
  destruct (resample_last_positive f dates Hne Hvalid) as [Hs Hlast].
  set (s := Temporal.resample_size f dates) in *.
  unfold Trend.update_trend_statistics.
  destruct s as [|x0 s0] eqn:Es; [contradiction|]. rewrite <- Es in *.
  eexists. split; [reflexivity|].
  cbn [Trend.latest Trend.maximum Trend.change_text].
  destruct (one_or_two_last s Hs) as [[x Ex]|[pre [[b1 p] [[b2 l] Ex]]]].
  - rewrite Ex in *. simpl in Hlast. cbn. split; [lia|].
    split; [discriminate|]. split; [reflexivity|].
    intros pre b1 p b2 l E. exfalso.
    apply (f_equal (@List.length _)) in E. rewrite length_app in E.
    simpl in E. lia.
  - assert (Ev : map snd s = (map snd pre ++ [p; l])%list)
      by (rewrite Ex, map_app; reflexivity).
    assert (Hl : (1 <= l)%nat).
    { rewrite Ex in Hlast.
      change (pre ++ [(b1, p); (b2, l)])%list
        with (pre ++ [(b1, p)] ++ [(b2, l)])%list in Hlast.
      rewrite app_assoc, last_last in Hlast. exact Hlast. }
    rewrite Ev. destruct (iloc_back_two (map snd pre) p l) as [E1 E2].
    rewrite E1, E2.
    assert (Hlen : Nat.leb 2 (List.length (map snd pre ++ [p; l])%list) = true).
    { apply Nat.leb_le. rewrite length_app. simpl. lia. }
    rewrite Hlen.
    assert (Hchange : Trend.pct_change l p
                      = if Nat.eqb p 0 then Trend.PctInf
                        else Trend.Pct
                               (inject_Z (Z.of_nat l - Z.of_nat p)
                                / inject_Z (Z.of_nat p) * inject_Z 100)%Q).
    { unfold Trend.pct_change. destruct (Nat.eqb p 0); [|reflexivity].
      destruct (Nat.eqb_spec l 0); [lia | reflexivity]. }
    split; [|split; [|split]].
    + split; [assumption|]. apply series_max_ge. apply in_or_app.
      right. right. now left.
    + rewrite Hchange. destruct (Nat.eqb p 0); discriminate.
    + intro H1. rewrite Ex, length_app in H1. simpl in H1. lia.
    + intros pre' b1' p' b2' l' E. rewrite Ex in E.
      change (pre ++ [(b1, p); (b2, l)])%list
        with (pre ++ [(b1, p)] ++ [(b2, l)])%list in E.
      change (pre' ++ [(b1', p'); (b2', l')])%list
        with (pre' ++ [(b1', p')] ++ [(b2', l')])%list in E.
      rewrite !app_assoc in E. apply app_inj_tail in E.
      destruct E as [E E']. apply app_inj_tail in E. destruct E as [_ E].
      injection E as _ <-. injection E' as _ <-.
      split; [reflexivity | exact Hchange].
Qed.

(** Cases on 5 January and 10 March 2020: February is empty, so the change
    from February to March is infinite. *)
Lemma trend_statistics_of_resampled_series_witness :
  exists st : Trend.stats,
    Trend.update_trend_statistics
      (Temporal.resample_size Temporal.Month
         [Calendar.date 2020 1 5; Calendar.date 2020 3 10]) = Some st
    /\ Trend.latest st = 1%nat
    /\ Trend.change_text st = Trend.PctInf.
Proof.
  destruct (trend_statistics_of_resampled_series
              Temporal.Month [Calendar.date 2020 1 5; Calendar.date 2020 3 10])
    as [st [H1 [_ [_ [_ H2]]]]].
  - discriminate.
  - repeat constructor.
  - exists st. split; [exact H1|].
    apply (H2 [(2020 * 12 + 0, 1%nat)] (2020 * 12 + 1) 0%nat
              (2020 * 12 + 2) 1%nat).
    reflexivity.
Defined.

(** ** Clicking on the facilities map *)

Lemma Qltb_lt (a b : Q) : Py.Qltb a b = true <-> (a < b)%Q.
Proof.
  unfold Py.Qltb. rewrite negb_true_iff. split.
  - intro H. apply Qnot_le_lt. intro Hle. apply Qle_bool_iff in Hle.
    congruence.
  - intro H. destruct (Qle_bool b a) eqn:E; [|reflexivity].
    apply Qle_bool_iff in E. exfalso. eapply Qlt_not_le; eauto.
Qed.

Lemma Qltb_ge (a b : Q) : Py.Qltb a b = false <-> (b <= a)%Q.
Proof.
  unfold Py.Qltb. rewrite negb_false_iff. apply Qle_bool_iff.
Qed.

Lemma closest_spec (x y : Q) (ff : list Fac.row) :
  match Click.closest x y ff with
  | None => ff = []
  | Some c =>
      In c ff
      /\ forall g, In g ff -> (Click.distance2 x y c <= Click.distance2 x y g)%Q
  end.
Proof.
  induction ff as [|f rest IH]; [reflexivity|]. cbn [Click.closest].
  destruct (Click.closest x y rest) as [g|].
  - destruct IH as [Hg Hmin]. unfold Click.distance, Click.root_ltb.
    destruct (Py.Qltb (Click.distance2 x y g) (Click.distance2 x y f)) eqn:E.
    + apply Qltb_lt in E. split; [now right|].
      intros h [<-|Hh]; [now apply Qlt_le_weak | auto].
    + apply Qltb_ge in E. split; [now left|].
      intros h [<-|Hh]; [apply Qle_refl|].
      eapply Qle_trans; [exact E | auto].
  - subst rest. split; [now left|]. intros h [<-|[]]. apply Qle_refl.
Qed.

(** X16. A click inside the map axes displays a facility exactly when some
    facility on the map lies at a distance below 0.5 from the click, and the
    facility displayed is then one on the map at the smallest distance from
    the click; a click outside the axes, on an empty map, or with every
    facility at distance 0.5 or more, displays nothing. *)
Theorem click_displays_nearest_within_reach :
  forall (inaxes : bool) (x y : Q) (ff : list Fac.row),
    (forall f, Click.on_click inaxes x y ff = Some f ->
               inaxes = true /\ In f ff
               /\ (Click.distance2 x y f < 1 # 4)%Q
               /\ forall g, In g ff ->
                    (Click.distance2 x y f <= Click.distance2 x y g)%Q)
    /\ (Click.on_click inaxes x y ff = None
        <-> inaxes = false
            \/ forall g, In g ff -> (1 # 4 <= Click.distance2 x y g)%Q).
Proof.
  intros inaxes x y ff. unfold Click.on_click.
  pose proof (closest_spec x y ff) as Hc.
  destruct inaxes; cbn [negb].
  2:{ split; [discriminate | tauto]. }
  destruct (Click.closest x y ff) as [c|].
  - destruct Hc as [Hin Hmin]. unfold Click.distance, Click.root_ltb.
    destruct (Py.Qltb (Click.distance2 x y c) (1 # 4)) eqn:E.
    + apply Qltb_lt in E. split.
      * intros f Hf. injection Hf as <-. auto.
      * split; [discriminate|]. intros [H|H]; [discriminate|].
        exfalso. specialize (H c Hin). eapply Qlt_not_le; eauto.
    + apply Qltb_ge in E. split; [discriminate|].
      split; [|reflexivity]. intros _. right. intros g Hg.
      eapply Qle_trans; [exact E | auto].
  - subst ff. split; [discriminate|]. split; [|reflexivity].
    intros _. right. intros g [].
Qed.

(** X17. "View Details" on a search result sets the region and type filters
    to those of the chosen facility and redraws the map: the chosen facility
    is on the new map exactly when no service box is ticked or it passes the
    ticked services, and every facility on the new map has the region and
    the type of the chosen one. *)
Theorem view_details_filters_to_the_facility :
  forall (table : list Fac.row) (svars : list (string * bool))
         (facility : Fac.row),
    In facility table ->
    (In facility (Click.show_selected_facility table svars facility)
     <-> Facilities.selected_services svars = []
         \/ Facilities.any_service (Facilities.selected_services svars)
                                   (Fac.services facility) = true)
    /\ (forall g,
           In g (Click.show_selected_facility table svars facility) ->
           (Fac.region facility = "All" \/ Fac.region g = Fac.region facility)
           /\ (Fac.facility_type facility = "All"
               \/ Fac.facility_type g = Fac.facility_type facility)).
Proof.
  intros table svars facility Hin. unfold Click.show_selected_facility.
  cbv zeta. unfold Facilities.update_facilities_map. cbv zeta.
  rewrite !optional_mask.
  assert (Hself : forall var : string, field_pass var var = true).
  { intro var. apply field_pass_iff. now right. }
  fold (field_pass (Fac.region facility)).
  destruct (Facilities.selected_services svars) as [|s sel]; split.
  - split; [now left|]. intros _. rewrite !filter_In.
    pose proof (Hself (Fac.region facility)) as H1.
    pose proof (Hself (Fac.facility_type facility)) as H2.
    unfold field_pass in H1, H2. auto.
  - intros g Hg. rewrite !filter_In in Hg.
    destruct Hg as [[_ H1] H2].
    split; apply field_pass_iff; unfold field_pass; assumption.
  - rewrite !filter_In. split.
    + intros [_ H]. now right.
    + intros [H|H]; [discriminate|].
      pose proof (Hself (Fac.region facility)) as H1.
      pose proof (Hself (Fac.facility_type facility)) as H2.
      unfold field_pass in H1, H2. auto.
  - intros g Hg. rewrite !filter_In in Hg.
    destruct Hg as [[[_ H1] H2] _].
    split; apply field_pass_iff; unfold field_pass; assumption.
Qed.

Lemma view_details_filters_to_the_facility_witness :
  In Samples.facility_1
     (Click.show_selected_facility
        [Samples.facility_1; Samples.facility_2; Samples.facility_3]
        Samples.prep_only Samples.facility_1).
Proof.
  apply (view_details_filters_to_the_facility
           [Samples.facility_1; Samples.facility_2; Samples.facility_3]
           Samples.prep_only Samples.facility_1).
  - left. reflexivity.
  - right. reflexivity.
Defined.

(** ** Exporting the current view *)

Lemma written_file (data : ExportView.frame) (file_path : string) :
  ExportView.written
    (if Py.endswith file_path ".xlsx" then ExportView.Excel data
     else ExportView.Csv data) = Some data.
Proof. now destruct (Py.endswith file_path ".xlsx"). Qed.

(** X18. "Export Current View" with a chosen file writes the rows the
    current tab works on: the filtered cases of the HIV map, the merged
    frame with the prevalence of the population tab, the facilities on the
    facilities map, the filtered cases of the regional analysis, and, on the
    temporal tab, the very records whose resampling the trend chart shows. *)
Theorem export_writes_the_rows_of_the_tab :
  forall (a : ExportView.app) (file_path : string),
    file_path <> "" ->
    (exists o, ExportView.export_current_view a 0 file_path = Some o
               /\ ExportView.written o
                  = Some (ExportView.Cases
                            (fst (HivMap.update_hiv_map
                                    (ExportView.now a) (ExportView.hiv_vars a)
                                    (ExportView.hiv_data a)))))
    /\ (exists o, ExportView.export_current_view a 1 file_path = Some o
                  /\ ExportView.written o
                     = Some (ExportView.Prevalence
                               (map (fun m => (m, Population.prevalence m))
                                    (Population.merged_data
                                       (ExportView.hiv_data a)
                                       (ExportView.population_data a)))))
    /\ (exists o, ExportView.export_current_view a 2 file_path = Some o
                  /\ ExportView.written o
                     = Some (ExportView.Facilities
                               (Facilities.update_facilities_map
                                  (ExportView.health_facilities a)
                                  (ExportView.facilities_region_var a)
                                  (ExportView.facility_type_var a)
                                  (ExportView.services_vars a))))
    /\ (exists o, ExportView.export_current_view a 3 file_path = Some o
                  /\ ExportView.written o
                     = Some (ExportView.Cases
                               (Regional.filtered_data
                                  (ExportView.now a)
                                  (ExportView.regional_analysis_var a)
                                  (ExportView.regional_time_var a)
                                  (ExportView.hiv_data a))))
    /\ (forall granularity_var series,
           Temporal.update_temporal_trends
             (ExportView.hiv_data a) (ExportView.temporal_region_var a)
             (ExportView.date_range a) granularity_var = Some series ->
           exists o rows,
             ExportView.export_current_view a 4 file_path = Some o
             /\ ExportView.written o = Some (ExportView.Cases rows)
             /\ series
                = Temporal.resample_size
                    (Temporal.granularity granularity_var)
                    (map Hiv.diagnosis_date rows)).
Proof.
  intros a file_path Hpath.
  assert (Hp : String.eqb file_path "" = false) by now apply String.eqb_neq.
  unfold ExportView.export_current_view, ExportView.export_filtered_data.
  rewrite Hp. cbn [Z.eqb Pos.eqb].
  repeat split.
  - eexists. split; [reflexivity|]. cbn. apply written_file.
  - eexists. split; [reflexivity|]. cbn. apply written_file.
  - eexists. split; [reflexivity|]. cbn. apply written_file.
  - eexists. split; [reflexivity|]. cbn. apply written_file.
  - intros g series Hseries. unfold Temporal.update_temporal_trends in Hseries.
    cbv zeta in Hseries. unfold ExportView.data_to_export. cbn [String.eqb].
    cbv zeta.
    destruct (ExportView.date_range a) as [[start_date end_date]|];
      [|discriminate].
    eexists. eexists. split; [reflexivity|]. split; [apply written_file|].
    destruct (filter _ _) eqn:E in Hseries; [discriminate|].
    rewrite E. now injection Hseries.
Qed.

Lemma export_writes_the_rows_of_the_tab_witness :
  exists o,
    ExportView.export_current_view
      (ExportView.mk_app cases_early_2020 Data.population_data
                         [Samples.facility_1] (Calendar.date 2026 11 4)
                         no_filter "All" "All" Samples.prep_only
                         "All" "All Time" "All" None)
      0 "cases.csv" = Some o
    /\ ExportView.written o = Some (ExportView.Cases cases_early_2020).
Proof.
  apply (export_writes_the_rows_of_the_tab
           (ExportView.mk_app cases_early_2020 Data.population_data
                              [Samples.facility_1] (Calendar.date 2026 11 4)
                              no_filter "All" "All" Samples.prep_only
                              "All" "All Time" "All" None)
           "cases.csv").
  discriminate.
Defined.

(** ** The temporal trend chart *)

(** X19. With both dates parsed, "New Cases Over Time" is drawn exactly when
    some case record passes the region filter and lies in the inclusive date
    range. The Series drawn is then non-empty, its values add up to the
    number of such records, and all its buckets lie between the bucket of the
    start date and the bucket of the end date. *)
Theorem temporal_trends_chart :
  forall (hiv_data : list Hiv.row) (region_var granularity_var : string)
         (start_date end_date : Calendar.datetime),
    Forall (fun r => Calendar.valid (Hiv.diagnosis_date r) = true) hiv_data ->
    1 <= Calendar.month start_date <= 12 ->
    1 <= Calendar.month end_date <= 12 ->
    let fd :=
      filter (fun r =>
                field_pass region_var (Hiv.region r)
                && (Calendar.geb (Hiv.diagnosis_date r) start_date
                    && Calendar.leb (Hiv.diagnosis_date r) end_date))
             hiv_data in
    let f := Temporal.granularity granularity_var in
    (fd = [] ->
     Temporal.update_temporal_trends hiv_data region_var
       (Some (start_date, end_date)) granularity_var = None)
    /\ (fd <> [] ->
        exists series,
          Temporal.update_temporal_trends hiv_data region_var
            (Some (start_date, end_date)) granularity_var = Some series
          /\ series <> []
          /\ Frame.sum (map snd series) = List.length fd
          /\ forall b n, In (b, n) series ->
               Temporal.bucket f start_date <= b
               <= Temporal.bucket f end_date).
Proof.
  intros hiv_data region_var granularity_var start_date end_date
         Hvalid Hs He fd f.
  assert (Hfd : Forall (fun d => Calendar.valid d = true)
                       (map Hiv.diagnosis_date fd))
    by now apply valid_dates_filter.
  split.
  - intro Hempty. unfold Temporal.update_temporal_trends. cbv zeta.
    rewrite optional_mask, filter_twice.
    unfold fd, field_pass in Hempty. now rewrite Hempty.
  - intro Hne. exists (Temporal.resample_size f (map Hiv.diagnosis_date fd)).
    split; [now apply update_temporal_trends_series|].
    assert (Hne' : map Hiv.diagnosis_date fd <> [])
      by (destruct fd; [contradiction | discriminate]).
    split; [now apply resample_size_positive|].
    split; [now rewrite resample_sum_length, length_map|].
    intros b n Hin.
    destruct (resample_keys_bounds _ _ _ _ Hfd Hin) as [d1 [d2 [H1 [H2 Hb]]]].
    assert (Hrange : forall d, In d (map Hiv.diagnosis_date fd) ->
              Temporal.bucket f start_date <= Temporal.bucket f d
              <= Temporal.bucket f end_date).
    { intros d Hd. rewrite Forall_forall in Hfd.
      pose proof (valid_month d (Hfd d Hd)) as Hm.
      apply in_map_iff in Hd. destruct Hd as [r [<- Hr]].
      apply filter_In in Hr. destruct Hr as [_ Hr].
      rewrite !andb_true_iff in Hr. destruct Hr as [_ [Hge Hle]].
      unfold Calendar.geb in Hge.
      split; apply bucket_monotone; auto; now apply leb_not_before. }
    pose proof (Hrange d1 H1). pose proof (Hrange d2 H2). lia.
Qed.

Lemma temporal_trends_chart_witness :
  exists series,
    Temporal.update_temporal_trends
      cases_early_2020 "Khomas"
      (Some (Calendar.date 2020 1 1, Calendar.date 2020 2 15)) "Monthly"
    = Some series
    /\ series <> []
    /\ Frame.sum (map snd series) = 2%nat.
Proof.
  destruct (temporal_trends_chart
              cases_early_2020 "Khomas" "Monthly"
              (Calendar.date 2020 1 1) (Calendar.date 2020 2 15))
    as [_ H].
  - repeat constructor.
  - simpl. lia.
  - simpl. lia.
  - destruct H as [series [H1 [H2 [H3 _]]]]; [discriminate|].
    exists series. split; [exact H1|]. split; [exact H2 | exact H3].
Defined.

(** ** Cases through the join *)

Lemma profile_rows (pop : list Pop.row) (r : string) :
  NoDup (map Pop.region pop) ->
  (existsb (fun p => String.eqb (Pop.region p) r) pop = false
   /\ filter (fun p => String.eqb (Pop.region p) r) pop = [])
  \/ (existsb (fun p => String.eqb (Pop.region p) r) pop = true
      /\ exists p, filter (fun p => String.eqb (Pop.region p) r) pop = [p]).
Proof.
  intro Hnd.
  destruct (existsb (fun p => String.eqb (Pop.region p) r) pop) eqn:E.
  - right. split; [reflexivity|]. apply existsb_exists in E.
    destruct E as [p [Hp Hr]]. apply String.eqb_eq in Hr. exists p.
    rewrite <- Hr. now apply filter_unique_region.
  - left. split; [reflexivity|].
    destruct (filter (fun p => String.eqb (Pop.region p) r) pop)
      as [|p l] eqn:F; [reflexivity|].
    assert (Hp : In p (filter (fun p => String.eqb (Pop.region p) r) pop))
      by (rewrite F; now left).
    apply filter_In in Hp.
    assert (existsb (fun p => String.eqb (Pop.region p) r) pop = true)
      by (apply existsb_exists; now exists p).
    congruence.
Qed.

Lemma merge_cases_sum (counts : list (string * nat)) (pop : list Pop.row) :
  NoDup (map Pop.region pop) ->
  Frame.sum (map Frame.cases (Frame.merge counts pop))
  = Frame.sum
      (map (fun rc =>
              if existsb (fun p => String.eqb (Pop.region p) (fst rc)) pop
              then snd rc else 0%nat) counts).
Proof.
  intro Hnd. unfold Frame.merge, Frame.sum.
  induction counts as [|[r c] counts IH]; [reflexivity|].
  cbn [flat_map map fold_right fst snd].
  rewrite map_app, fold_right_app, <- IH.
  destruct (profile_rows pop r Hnd) as [[E F]|[E [p F]]]; rewrite E, F.
  - reflexivity.
  - cbn. clear. induction (map Frame.cases _) as [|x l IHl]; simpl; lia.
Qed.

Lemma weighted_bump (P : string -> bool) (x : string)
      (T : list (string * nat)) :
  Frame.sum (map (fun rc => if P (fst rc) then snd rc else 0%nat)
                 (Frame.bump x T))
  = (Frame.sum (map (fun rc => if P (fst rc) then snd rc else 0%nat) T)
     + (if P x then 1 else 0))%nat.
Proof.
  unfold Frame.sum. induction T as [|[k c] T IH]; simpl.
  - destruct (P x); reflexivity.
  - destruct (String.eqb_spec x k) as [->|_]; simpl.
    + destruct (P k); lia.
    + rewrite IH. lia.
Qed.

Lemma weighted_value_count (P : string -> bool) (col : list string) :
  Frame.sum (map (fun rc => if P (fst rc) then snd rc else 0%nat)
                 (Frame.value_count col))
  = List.length (filter P col).
Proof.
  induction col as [|x col IH] using rev_ind; [reflexivity|].
  rewrite value_count_snoc, weighted_bump, IH, filter_app, length_app.
  simpl. destruct (P x); reflexivity.
Qed.

(** X20. With one profile per region, the [cases] column of the merged frame
    accounts for every case record whose region has a profile, and for no
    other: its sum is the number of those records. *)
Theorem merged_cases_count_profiled_records :
  forall (hiv_data : list Hiv.row) (population_data : list Pop.row),
    NoDup (map Pop.region population_data) ->
    Frame.sum (map Frame.cases
                   (Population.merged_data hiv_data population_data))
    = List.length
        (filter (fun r =>
                   existsb (fun p => String.eqb (Pop.region p) (Hiv.region r))
                           population_data)
                hiv_data).
Proof.
  intros hiv_data population_data Hnd. unfold Population.merged_data.
  cbv zeta. rewrite merge_cases_sum by assumption.
  unfold Frame.value_counts.
  rewrite <- (sum_Permutation _ _
                (Permutation_map _
                   (sort_values_desc_Permutation
                      snd (fun a b => Nat.leb b a)
                      (Frame.value_count (map Hiv.region hiv_data))))).
  rewrite (weighted_value_count
             (fun r => existsb (fun p => String.eqb (Pop.region p) r)
                               population_data)).
  clear. induction hiv_data as [|r l IH]; [reflexivity|]. simpl.
  destruct (existsb _ population_data); simpl; now rewrite IH.
Qed.

Lemma merged_cases_count_profiled_records_witness :
  Frame.sum (map Frame.cases
                 (Population.merged_data cases_early_2020
                                         Data.population_data))
  = List.length
      (filter (fun r =>
                 existsb (fun p => String.eqb (Pop.region p) (Hiv.region r))
                         Data.population_data)
              cases_early_2020).
Proof.
  apply (merged_cases_count_profiled_records cases_early_2020
                                             Data.population_data).
  repeat (constructor; [simpl; intuition discriminate|]). constructor.
Defined.
